(** * AgentWallet: the daemon's state engine, its routes and the client

    A shallow embedding of the daemon's in-memory engine ([class DaemonState]
    and the functions below it in the server module, with [loadConfig] of the
    config module), of the route handlers that [startDaemon] registers on
    it, and of the parts of the command line client that do not go through
    the command parser (the scan of the arguments, the wait for the daemon,
    the handling of errors, the rendering of lists), together with the
    ECMAScript primitives they call, and the properties proved on them.

    Conventions of the embedding.
    - A JavaScript string is a [string]; a character is one code unit below
      256.
    - A BigInt is a [Z]; a millisecond timestamp ([Date.now()]) is a [Z].
    - The quotient [raw / 1000] of [computeMockBalance] is the exact rational
      ([Q]).  The double that JavaScript computes differs from it by a
      relative error of at most 2^-53, which for [raw < 500000] moves the
      value scaled by 10^6 by less than 10^-7, so [toFixed(6)] rounds both to
      the same integer.
    - A request body is a JSON value ([value]); a JSON number is kept as the
      shortest decimal expansion ECMAScript prints for it.
    - [String(v)] throws a TypeError on an object that has a property named
      [toString] of its own, and on an array that holds one
      ([String_throws]).  [loadConfig], [connectSession] and the handlers of
      GET /balance and GET /tx/status throw it as the source does.  In
      [validateTransactionPayload], [switchSession] and [disconnectSession]
      the converted value is taken to have no such property: the conversion
      there is [ToString], under which such a value fails the pattern, or
      is the id of no session (the ids are UUIDs), so that the call is
      rejected as the TypeError rejects it, with another message.
    - [throw new Error(msg)] is [Throw msg] in the engine monad [M], which
      threads the [DaemonState]; the state at the throw is the state the
      caller observes afterwards.
    - What the runtime hands to one call ([Date.now()], [toISOString()],
      [randomUUID()]) is the record [Runtime].
    - What the libraries do is kept to what the code relies on: express runs
      the handler of the route and sends the reply it builds, axios resolves
      with the body of a 2xx reply and rejects any other, [path.resolve] is
      a parameter. *)

From Stdlib Require Import ZArith NArith QArith Qround Ascii String Lia ZifyN ZifyNat.
From stdpp Require Import base option list strings gmap.

(** ** ECMAScript strings *)

Module JS.

Definition code (c : ascii) : N := N_of_ascii c.

Definition is_digit (c : ascii) : bool :=
  (48 <=? code c)%N && (code c <=? 57)%N.

Definition is_lower_hex (c : ascii) : bool :=
  (97 <=? code c)%N && (code c <=? 102)%N.

Definition is_upper_hex (c : ascii) : bool :=
  (65 <=? code c)%N && (code c <=? 70)%N.

(** The class [[a-fA-F0-9]]. *)
Definition is_hex (c : ascii) : bool :=
  is_lower_hex c || is_upper_hex c || is_digit c.

(** WhiteSpace and LineTerminator code units below 256: TAB, LF, VT, FF, CR,
    SP and NBSP. *)
Definition is_ws (c : ascii) : bool :=
  ((9 <=? code c)%N && (code c <=? 13)%N) || (code c =? 32)%N || (code c =? 160)%N.

Fixpoint all_chars (p : ascii -> bool) (s : string) : bool :=
  match s with
  | EmptyString => true
  | String c s' => p c && all_chars p s'
  end.

Definition is_empty (s : string) : bool :=
  match s with EmptyString => true | _ => false end.

Fixpoint trimStart (s : string) : string :=
  match s with
  | EmptyString => EmptyString
  | String c s' => if is_ws c then trimStart s' else s
  end.

Fixpoint trimEnd (s : string) : string :=
  match s with
  | EmptyString => EmptyString
  | String c s' =>
      let t := trimEnd s' in
      if is_ws c && is_empty t then EmptyString else String c t
  end.

(** [String.prototype.trim] *)
Definition trim (s : string) : string := trimEnd (trimStart s).

(** [s.startsWith(p)] *)
Definition startsWith (p s : string) : bool := String.prefix p s.

(** [s.slice(i, j)] for [0 <= i <= j]. *)
Definition slice (i j : nat) (s : string) : string := String.substring i (j - i) s.

(** [s.split(sep)] for a one-character separator. *)
Fixpoint split (sep : ascii) (s : string) : list string :=
  match s with
  | EmptyString => [EmptyString]
  | String c s' =>
      if Ascii.eqb c sep then EmptyString :: split sep s'
      else match split sep s' with
           | h :: t => String c h :: t
           | [] => [String c EmptyString]
           end
  end.

(** Lower-casing of the ASCII letters, as the [i] flag of a regular
    expression without the [u] flag canonicalises them. *)
Definition lower (c : ascii) : ascii :=
  if (65 <=? code c)%N && (code c <=? 90)%N then ascii_of_N (code c + 32) else c.

(** Matches the literal [p] at the start of [s] ignoring ASCII case and
    returns what follows it. *)
Fixpoint strip_prefix_ci (p s : string) : option string :=
  match p with
  | EmptyString => Some s
  | String a p' =>
      match s with
      | EmptyString => None
      | String b s' =>
          if Ascii.eqb (lower a) (lower b) then strip_prefix_ci p' s' else None
      end
  end.

(** *** Numerals *)

Definition digit_char (d : N) : ascii := ascii_of_N (48 + d).

(** Decimal digits of [n], most significant first, pushed in front of [acc]. *)
Fixpoint dec_digits (fuel : nat) (n : N) (acc : string) : string :=
  match fuel with
  | O => acc
  | S fuel' =>
      let acc' := String (digit_char (n mod 10)) acc in
      if (n / 10 =? 0)%N then acc' else dec_digits fuel' (n / 10) acc'
  end.

(** The decimal representation of a natural number. *)
Definition N_to_string (n : N) : string :=
  dec_digits (S (N.to_nat (N.log2 n))) n EmptyString.

(** The value of a digit in the given radix. *)
Definition digit_of (radix : Z) (c : ascii) : option Z :=
  let d := if is_digit c then (Z.of_N (code c) - 48)%Z
           else if is_lower_hex c then (Z.of_N (code c) - 87)%Z
           else if is_upper_hex c then (Z.of_N (code c) - 55)%Z
           else radix in
  if (d <? radix)%Z then Some d else None.

Fixpoint parse_digits (radix : Z) (acc : Z) (s : string) : option Z :=
  match s with
  | EmptyString => Some acc
  | String c s' =>
      match digit_of radix c with
      | Some d => parse_digits radix (acc * radix + d)%Z s'
      | None => None
      end
  end.

Definition parse_nonempty (radix : Z) (s : string) : option Z :=
  if is_empty s then None else parse_digits radix 0 s.

(** [BigInt(s)] on a string (StringToBigInt): surrounding white space is
    dropped, the empty string is [0n], a [0x], [0o] or [0b] prefix selects
    the radix, a decimal numeral may carry a sign; anything else is a
    SyntaxError ([None]). *)
Definition BigInt (s : string) : option Z :=
  let t := trim s in
  if is_empty t then Some 0%Z
  else if String.prefix "0x" t || String.prefix "0X" t
       then parse_nonempty 16 (String.substring 2 (String.length t) t)
  else if String.prefix "0o" t || String.prefix "0O" t
       then parse_nonempty 8 (String.substring 2 (String.length t) t)
  else if String.prefix "0b" t || String.prefix "0B" t
       then parse_nonempty 2 (String.substring 2 (String.length t) t)
  else if String.prefix "-" t
       then Z.opp <$> parse_nonempty 10 (String.substring 1 (String.length t) t)
  else if String.prefix "+" t
       then parse_nonempty 10 (String.substring 1 (String.length t) t)
  else parse_digits 10 0 t.

Fixpoint zeros (n : nat) : string :=
  match n with O => EmptyString | S n' => String "0"%char (zeros n') end.

(** The integer [n] for which [n / 10^fd - x] is closest to zero, the larger
    one on a tie ([x >= 0]). *)
Definition round_scaled (fd : nat) (x : Q) : Z :=
  ((2 * Qnum x * 10 ^ Z.of_nat fd + Z.pos (Qden x)) / (2 * Z.pos (Qden x)))%Z.

(** [Number.prototype.toFixed(fd)] on a number of magnitude below 10^21
    (above it ECMAScript switches to the exponent form, which the engine
    never reaches). *)
Definition toFixed (fd : nat) (x : Q) : string :=
  let neg := (Qnum x <? 0)%Z in
  let x := if neg then Qopp x else x in
  let n := round_scaled fd x in
  let m := N_to_string (Z.to_N n) in
  let m :=
    match fd with
    | O => m
    | S _ =>
        let k := String.length m in
        let m := if (k <=? fd)%nat then zeros (fd + 1 - k) +:+ m else m in
        let k := String.length m in
        String.substring 0 (k - fd) m +:+ "." +:+ String.substring (k - fd) fd m
    end in
  if neg then "-" +:+ m else m.

End JS.


(** ** JSON values and the ECMAScript conversions applied to them *)

(** A Number: [Finite neg s e] is the number whose shortest decimal expansion
    is [s * 10^e], negated when [neg]. *)
Inductive number : Type :=
  | NaN
  | Infinity (neg : bool)
  | Finite (neg : bool) (s : N) (e : Z).

#[warnings="-register-all"]
Inductive value : Type :=
  | JUndefined
  | JNull
  | JBool (b : bool)
  | JNum (n : number)
  | JStr (s : string)
  | JArr (items : list value)
  | JObj (props : list (string * value)).

Inductive jstype : Type := TUndefined | TObject | TBoolean | TNumber | TString.

Definition jstype_eqb (a b : jstype) : bool :=
  match a, b with
  | TUndefined, TUndefined | TObject, TObject | TBoolean, TBoolean
  | TNumber, TNumber | TString, TString => true
  | _, _ => false
  end.

Definition typeof (v : value) : jstype :=
  match v with
  | JUndefined => TUndefined
  | JNull | JArr _ | JObj _ => TObject
  | JBool _ => TBoolean
  | JNum _ => TNumber
  | JStr _ => TString
  end.

Definition is_undefined (v : value) : bool :=
  match v with JUndefined => true | _ => false end.

Definition Number_isFinite (x : number) : bool :=
  match x with Finite _ _ _ => true | _ => false end.

(** [x < 0] *)
Definition Number_negative (x : number) : bool :=
  match x with
  | NaN => false
  | Infinity neg => neg
  | Finite neg s _ => neg && negb (s =? 0)%N
  end.

(** ToBoolean *)
Definition truthy (v : value) : bool :=
  match v with
  | JUndefined | JNull => false
  | JBool b => b
  | JNum NaN => false
  | JNum (Infinity _) => true
  | JNum (Finite _ s _) => negb (s =? 0)%N
  | JStr s => negb (JS.is_empty s)
  | JArr _ | JObj _ => true
  end.

(** [v ?? d] *)
Definition nullish (v d : value) : value :=
  match v with JUndefined | JNull => d | _ => v end.

Fixpoint strip_zeros (fuel : nat) (s : N) (e : Z) : N * Z :=
  match fuel with
  | O => (s, e)
  | S fuel' =>
      if (s mod 10 =? 0)%N && negb (s =? 0)%N
      then strip_zeros fuel' (s / 10)%N (e + 1)%Z
      else (s, e)
  end.

(** Number::toString, radix 10. *)
Definition Number_toString (x : number) : string :=
  match x with
  | NaN => "NaN"
  | Infinity neg => if neg then "-Infinity" else "Infinity"
  | Finite neg s0 e0 =>
      if (s0 =? 0)%N then "0"
      else
        let '(s, e) := strip_zeros (S (N.to_nat (N.log2 s0))) s0 e0 in
        let ds := JS.N_to_string s in
        let k := Z.of_nat (String.length ds) in
        let n := (e + k)%Z in
        let body :=
          if (k <=? n)%Z && (n <=? 21)%Z then ds +:+ JS.zeros (Z.to_nat (n - k))
          else if (0 <? n)%Z && (n <=? 21)%Z then
            String.substring 0 (Z.to_nat n) ds +:+ "." +:+
            String.substring (Z.to_nat n) (Z.to_nat (k - n)) ds
          else if (-6 <? n)%Z && (n <=? 0)%Z then
            "0." +:+ JS.zeros (Z.to_nat (- n)) +:+ ds
          else
            let mant :=
              if (k =? 1)%Z then ds
              else String.substring 0 1 ds +:+ "." +:+
                   String.substring 1 (Z.to_nat (k - 1)) ds in
            mant +:+ "e" +:+ (if (n - 1 <? 0)%Z then "-" else "+") +:+
            JS.N_to_string (Z.to_N (Z.abs (n - 1))) in
        if neg then "-" +:+ body else body
  end.

(** ToString, as [String(v)] and [RegExp.prototype.test] apply it.  An array
    prints its elements separated by commas, [null] and [undefined] elements
    as the empty string. *)
Fixpoint ToString (v : value) : string :=
  match v with
  | JUndefined => "undefined"
  | JNull => "null"
  | JBool b => if b then "true" else "false"
  | JNum n => Number_toString n
  | JStr s => s
  | JArr items =>
      (fix join (l : list value) : string :=
         match l with
         | [] => ""
         | x :: rest =>
             let sx := match x with JUndefined | JNull => "" | _ => ToString x end in
             match rest with
             | [] => sx
             | _ :: _ => sx +:+ "," +:+ join rest
             end
         end) items
  | JObj _ => "[object Object]"
  end.

(** Whether [String(v)] throws a TypeError instead of returning: ToPrimitive
    finds no callable [toString] on an object that has a property of that
    name of its own (a value parsed from JSON or from a query string is
    never callable, and [Object.prototype.valueOf] returns the object), and
    the [join] of an array converts its elements. *)
Fixpoint String_throws (v : value) : bool :=
  match v with
  | JObj props => existsb (fun p => String.eqb (fst p) "toString") props
  | JArr items =>
      (fix any (l : list value) : bool :=
         match l with
         | [] => false
         | x :: rest => String_throws x || any rest
         end) items
  | _ => false
  end.

(** The message of that TypeError. *)
Definition TypeError_message : string := "Cannot convert object to primitive value".

(** Objects are association lists in property order. *)
Fixpoint lookup_prop (k : string) (props : list (string * value)) : value :=
  match props with
  | [] => JUndefined
  | (k', v) :: rest => if String.eqb k' k then v else lookup_prop k rest
  end.

Fixpoint assign_prop (k : string) (v : value) (props : list (string * value))
  : list (string * value) :=
  match props with
  | [] => [(k, v)]
  | (k', v') :: rest =>
      if String.eqb k' k then (k, v) :: rest else (k', v') :: assign_prop k v rest
  end.

(** [o.k] for a value that is neither [null] nor [undefined], and for the
    property names the engine reads (none of them is an index, [length] or a
    prototype member, so only an object's own properties answer). *)
Definition prop (o : value) (k : string) : value :=
  match o with
  | JObj props => lookup_prop k props
  | _ => JUndefined
  end.

(** [o.k = v]; the engine assigns only to payloads that passed the network
    check, which are objects (see [validate_ok_is_object]). *)
Definition set_prop (o : value) (k : string) (v : value) : value :=
  match o with
  | JObj props => JObj (assign_prop k v props)
  | _ => o
  end.

(** The own enumerable properties copied by [{...o}]. *)
Definition spread (o : value) : list (string * value) :=
  match o with
  | JObj props => props
  | JArr items => imap (fun i v => (JS.N_to_string (N.of_nat i), v)) items
  | _ => []
  end.

(** ** Constants and validators of the server module *)

(** [/^0x[a-fA-F0-9]{40}$/] *)
Definition ADDRESS_REGEX (s : string) : bool :=
  match s with
  | String a (String b r) =>
      Ascii.eqb a "0" && Ascii.eqb b "x" &&
      JS.all_chars JS.is_hex r && (String.length r =? 40)%nat
  | _ => false
  end.

(** [/^0x[a-fA-F0-9]*$/] *)
Definition HEX_DATA_REGEX (s : string) : bool :=
  match s with
  | String a (String b r) =>
      Ascii.eqb a "0" && Ascii.eqb b "x" && JS.all_chars JS.is_hex r
  | _ => false
  end.

(** [/^eip155:\d+$/i] *)
Definition NETWORK_REGEX (s : string) : bool :=
  match JS.strip_prefix_ci "eip155:" s with
  | Some r => negb (JS.is_empty r) && JS.all_chars JS.is_digit r
  | None => false
  end.

Definition CONFIRM_DELAY_MS : Z := 5000.

Definition normalizeAddress (v : value) : string :=
  match v with
  | JStr s => JS.trim s
  | _ => ""
  end.

Definition isValidAddress (s : string) : bool := ADDRESS_REGEX s.

(** [computeMockBalance]; [None] is the SyntaxError of [BigInt]. *)
Definition computeMockBalance (address network : string) : option string :=
  addrPart ← JS.BigInt ("0x" +:+ JS.slice 2 10 address);
  networkPart ← JS.BigInt (default "0" (JS.split ":" network !! 1%nat));
  let raw := Z.rem (addrPart + networkPart) 500000 in
  Some (JS.toFixed 6 (raw # 1000)).

(** ** Interfaces of the types module *)

Module NetworkConfig.
Record t : Type := mk { name : string; rpcUrl : string }.
End NetworkConfig.

Module WalletConfig.
Record t : Type := mk { networks : list NetworkConfig.t }.
End WalletConfig.

Module BalanceResult.
Record t : Type := mk {
    address : string;
    network : string;
    balanceEth : string;
    updatedAt : string }.
End BalanceResult.

Inductive TxStatus : Type := PENDING | CONFIRMED.

(** A [TxRecord] is [{...payload, guid, status, createdAt}]: [request] holds
    the properties copied from the validated payload; the three fields
    written after the spread shadow request properties of the same name. *)
Module TxRecord.
Record t : Type := mk {
    request : list (string * value);
    guid : string;
    status : TxStatus;
    createdAt : Z }.
End TxRecord.

Inductive TxStatusOrUnknown : Type :=
  | Known (s : TxStatus)
  | UNKNOWN.

Module TxStatusResponse.
Record t : Type := mk {
    guid : string;
    status : TxStatusOrUnknown;
    updatedAt : string }.
End TxStatusResponse.

Inductive SessionStatus : Type := CONNECTED | DISCONNECTED.

Module WalletConnectSession.
Record t : Type := mk {
    id : string;
    address : string;
    network : string;
    uri : string;
    status : SessionStatus;
    connectedAt : string }.
End WalletConnectSession.

(** [DEFAULT_CONFIG] of the config module. *)
Definition DEFAULT_CONFIG : WalletConfig.t :=
  WalletConfig.mk
    [ NetworkConfig.mk "eip155:1" "https://rpc.ankr.com/eth";
      NetworkConfig.mk "eip155:11155111" "https://rpc.ankr.com/eth_sepolia" ].

(** [NETWORK_NAME_PATTERN] of the config module: [/^eip155:\d+$/i]. *)
Definition NETWORK_NAME_PATTERN (s : string) : bool :=
  match JS.strip_prefix_ci "eip155:" s with
  | Some r => negb (JS.is_empty r) && JS.all_chars JS.is_digit r
  | None => false
  end.

Definition loadConfig_network (net : value) : string + NetworkConfig.t :=
  if negb (truthy net) || negb (jstype_eqb (typeof net) TObject)
  then inl "Network entries must be objects."
  else if String_throws (nullish (prop net "name") (JStr ""))
  then inl TypeError_message
  else if String_throws (nullish (prop net "rpcUrl") (JStr ""))
  then inl TypeError_message
  else
  let name := JS.trim (ToString (nullish (prop net "name") (JStr ""))) in
  let rpcUrl := JS.trim (ToString (nullish (prop net "rpcUrl") (JStr ""))) in
  if negb (NETWORK_NAME_PATTERN name)
  then inl ("Invalid network name " +:+ name)
  else if JS.is_empty rpcUrl
  then inl ("Network " +:+ name +:+ " must include rpcUrl.")
  else inr (NetworkConfig.mk name rpcUrl).

Fixpoint loadConfig_networks (nets : list value) : string + list NetworkConfig.t :=
  match nets with
  | [] => inr []
  | net :: rest =>
      match loadConfig_network net with
      | inl msg => inl msg
      | inr n =>
          match loadConfig_networks rest with
          | inl msg => inl msg
          | inr ns => inr (n :: ns)
          end
      end
  end.

(** [loadConfig] on the parsed content of the configuration file, [None]
    when the file does not exist; [inl] is the thrown message (the quotation
    marks and the hint that two of the messages carry are left out). *)
Definition loadConfig (file : option value) : string + WalletConfig.t :=
  match file with
  | None => inr DEFAULT_CONFIG
  | Some parsed =>
      match prop parsed "networks" with
      | JArr nets =>
          match loadConfig_networks nets with
          | inl msg => inl msg
          | inr ns => inr (WalletConfig.mk ns)
          end
      | _ => inl "Config file must contain a networks array."
      end
  end.

Definition listNetworkNames (config : WalletConfig.t) : list string :=
  NetworkConfig.name <$> WalletConfig.networks config.

(** ** The engine *)

(** The mutable part of [class DaemonState] and the configuration it is
    built from.  [Map] iteration order is not kept: only [listSessions]
    observes it. *)
Module DaemonState.
Record t : Type := mk {
    config : WalletConfig.t;
    txStore : gmap string TxRecord.t;
    sessions : gmap string WalletConnectSession.t }.
End DaemonState.

(** [new DaemonState(configPath)]: both stores start empty. *)
Definition new_DaemonState (file : option value) : string + DaemonState.t :=
  match loadConfig file with
  | inl msg => inl msg
  | inr config => inr (DaemonState.mk config ∅ ∅)
  end.

(** What the runtime returns to the calls made while one request is served. *)
Record Runtime : Type := mkRuntime {
  Date_now : Z;
  Date_toISOString : string;
  randomUUID : string }.

Inductive outcome (A : Type) : Type :=
  | Ok (a : A)
  | Throw (msg : string).
Arguments Ok {A} a.
Arguments Throw {A} msg.

(** Engine computations: they read and write the state and may throw. *)
Definition M (A : Type) : Type := DaemonState.t -> outcome A * DaemonState.t.

#[global] Instance M_ret : MRet M := fun A a st => (Ok a, st).

#[global] Instance M_bind : MBind M := fun A B f m st =>
  match m st with
  | (Ok a, st') => f a st'
  | (Throw msg, st') => (Throw msg, st')
  end.

#[global] Instance M_throw : MThrow string M := fun A msg st => (Throw msg, st).

Definition read {A : Type} (f : DaemonState.t -> A) : M A :=
  fun st => (Ok (f st), st).

Definition txStore_set (k : string) (r : TxRecord.t) : M unit :=
  fun st =>
    (Ok (), DaemonState.mk (DaemonState.config st)
              (<[k := r]> (DaemonState.txStore st)) (DaemonState.sessions st)).

Definition sessions_set (k : string) (s : WalletConnectSession.t) : M unit :=
  fun st =>
    (Ok (), DaemonState.mk (DaemonState.config st)
              (DaemonState.txStore st) (<[k := s]> (DaemonState.sessions st))).

(** [data.k] on a request body; reading a property of [null] or [undefined]
    is a TypeError. *)
Definition getProp (data : value) (k : string) : M value :=
  match data with
  | JUndefined | JNull => mthrow ("Cannot read properties of " +:+ ToString data)
  | _ => mret (prop data k)
  end.

(** [String(v)] in the engine: the TypeError or the printed value. *)
Definition String_of (v : value) : M string :=
  if String_throws v then mthrow TypeError_message else mret (ToString v).

Definition isKnownNetwork (this : DaemonState.t) (network : string) : bool :=
  existsb (fun net => String.eqb (NetworkConfig.name net) network)
          (WalletConfig.networks (DaemonState.config this)).

Definition getBalance (rt : Runtime) (address network : string)
  : M BalanceResult.t :=
  match computeMockBalance address network with
  | None => mthrow "Cannot convert to a BigInt"
  | Some amount =>
      mret (BalanceResult.mk address network amount (Date_toISOString rt))
  end.

(** A local of type [string | undefined] used as a condition. *)
Definition given (o : option string) : bool :=
  match o with
  | Some s => negb (JS.is_empty s)
  | None => false
  end.

(** [validateTransactionPayload]; the result is the payload after the four
    assignments that end the function. *)
Definition validateTransactionPayload (payload : value) : M value :=
  if negb (truthy payload) || negb (jstype_eqb (typeof payload) TObject)
  then mthrow "Transaction payload must be an object."
  else
  let network := JS.trim (ToString (nullish (prop payload "network") (JStr ""))) in
  let from := normalizeAddress (prop payload "from") in
  let to := if truthy (prop payload "to")
            then Some (normalizeAddress (prop payload "to")) else None in
  let contract := if truthy (prop payload "contract")
                  then Some (normalizeAddress (prop payload "contract")) else None in
  known ← read (fun this => isKnownNetwork this network);
  if negb (NETWORK_REGEX network) || negb known
  then mthrow "network must be provided using eip155:<id> format."
  else if negb (isValidAddress from)
  then mthrow "from must be a valid hex address."
  else if given to && negb (isValidAddress (default "" to))
  then mthrow "to must be a valid hex address."
  else if given contract && negb (isValidAddress (default "" contract))
  then mthrow "contract must be a valid hex address."
  else if negb (is_undefined (prop payload "nonce")) &&
          match prop payload "nonce" with
          | JNum n => negb (Number_isFinite n) || Number_negative n
          | _ => true
          end
  then mthrow "nonce must be a non-negative number when provided."
  else if negb (is_undefined (prop payload "value")) &&
          negb (jstype_eqb (typeof (prop payload "value")) TString)
  then mthrow "value must be a string representing ETH."
  else if truthy (prop payload "data") &&
          negb (HEX_DATA_REGEX (ToString (prop payload "data")))
  then mthrow "data must be a hex string."
  else if truthy (prop payload "gasPrice") &&
          negb (jstype_eqb (typeof (prop payload "gasPrice")) TString)
  then mthrow "gas-price must be a string representing wei."
  else
  let payload := set_prop payload "network" (JStr network) in
  let payload := set_prop payload "from" (JStr from) in
  let payload := if given to
                 then set_prop payload "to" (JStr (default "" to)) else payload in
  let payload := if given contract
                 then set_prop payload "contract" (JStr (default "" contract))
                 else payload in
  mret payload.

Definition createTransaction (rt : Runtime) (payload : value) : M TxRecord.t :=
  payload ← validateTransactionPayload payload;
  let record :=
    TxRecord.mk (spread payload) (randomUUID rt) PENDING (Date_now rt) in
  txStore_set (TxRecord.guid record) record;;
  mret record.

Definition getTransactionStatus (rt : Runtime) (guid : string)
  : M TxStatusResponse.t :=
  found ← read (fun st => DaemonState.txStore st !! guid);
  match found with
  | None => mret (TxStatusResponse.mk guid UNKNOWN (Date_toISOString rt))
  | Some record =>
      let now := Date_now rt in
      record ←
        match TxRecord.status record with
        | PENDING =>
            if (now - TxRecord.createdAt record >? CONFIRM_DELAY_MS)%Z
            then
              let record :=
                TxRecord.mk (TxRecord.request record) (TxRecord.guid record)
                            CONFIRMED (TxRecord.createdAt record) in
              txStore_set guid record;; mret record
            else mret record
        | CONFIRMED => mret record
        end;
      mret (TxStatusResponse.mk guid (Known (TxRecord.status record))
                                (Date_toISOString rt))
  end.

Definition connectSession (rt : Runtime) (data : value)
  : M WalletConnectSession.t :=
  a ← getProp data "address";
  let address := normalizeAddress a in
  n ← getProp data "network";
  network ← String_of (nullish n (JStr ""));
  let network := JS.trim network in
  u ← getProp data "uri";
  uri ← String_of (nullish u (JStr ""));
  let uri := JS.trim uri in
  if negb (isValidAddress address) || negb (NETWORK_REGEX network) ||
     negb (JS.startsWith "wc:" uri)
  then mthrow "network, address, and uri must be provided for WalletConnect."
  else
  known ← read (fun this => isKnownNetwork this network);
  if negb known
  then mthrow ("Unknown network " +:+ network +:+ ".")
  else
  let session :=
    WalletConnectSession.mk (randomUUID rt) address network uri CONNECTED
                            (Date_toISOString rt) in
  sessions_set (WalletConnectSession.id session) session;;
  mret session.

(** The [id] local of [switchSession] and [disconnectSession]. *)
Definition session_id (s : value) : string :=
  JS.trim (ToString (nullish s (JStr ""))).

Definition switchSession (data : value) : M WalletConnectSession.t :=
  s ← getProp data "session";
  let id := session_id s in
  found ← read (fun st => DaemonState.sessions st !! id);
  (* [!id || !this.sessions.has(id)], then [this.sessions.get(id)!] *)
  match found with
  | None => mthrow "session must reference an existing session id."
  | Some existing =>
  if JS.is_empty id
  then mthrow "session must reference an existing session id."
  else
  let nextAddress :=
    if truthy (prop data "address") then normalizeAddress (prop data "address")
    else WalletConnectSession.address existing in
  let nextNetwork :=
    if truthy (prop data "network") then JS.trim (ToString (prop data "network"))
    else WalletConnectSession.network existing in
  if truthy (prop data "address") && negb (isValidAddress nextAddress)
  then mthrow "address must be a valid hex string."
  else
  known ← read (fun this => isKnownNetwork this nextNetwork);
  if truthy (prop data "network") && negb known
  then mthrow ("Unknown network " +:+ nextNetwork +:+ ".")
  else
  let updated :=
    WalletConnectSession.mk
      (WalletConnectSession.id existing) nextAddress nextNetwork
      (WalletConnectSession.uri existing) (WalletConnectSession.status existing)
      (WalletConnectSession.connectedAt existing) in
  sessions_set id updated;;
  mret updated
  end.

Definition disconnectSession (data : value) : M WalletConnectSession.t :=
  s ← getProp data "session";
  let id := session_id s in
  found ← read (fun st => DaemonState.sessions st !! id);
  (* [!id || !this.sessions.has(id)], then [this.sessions.get(id)!] *)
  match found with
  | None => mthrow "session must reference an existing session id."
  | Some existing =>
  if JS.is_empty id
  then mthrow "session must reference an existing session id."
  else
  let updated :=
    WalletConnectSession.mk
      (WalletConnectSession.id existing) (WalletConnectSession.address existing)
      (WalletConnectSession.network existing) (WalletConnectSession.uri existing)
      DISCONNECTED (WalletConnectSession.connectedAt existing) in
  sessions_set id updated;;
  mret updated
  end.

(** ** Vocabulary of the statements *)

(** The operations of the engine that a request can reach. *)
Inductive operation : Type :=
  | GetBalance (address network : string)
  | CreateTransaction (payload : value)
  | GetTransactionStatus (guid : string)
  | ConnectSession (data : value)
  | SwitchSession (data : value)
  | DisconnectSession (data : value).

(** The state after one operation, whatever it returned or threw. *)
Definition perform (rt : Runtime) (op : operation) (st : DaemonState.t)
  : DaemonState.t :=
  match op with
  | GetBalance address network => (getBalance rt address network st).2
  | CreateTransaction payload => (createTransaction rt payload st).2
  | GetTransactionStatus guid => (getTransactionStatus rt guid st).2
  | ConnectSession data => (connectSession rt data st).2
  | SwitchSession data => (switchSession data st).2
  | DisconnectSession data => (disconnectSession data st).2
  end.

Fixpoint perform_all (ops : list (Runtime * operation)) (st : DaemonState.t)
  : DaemonState.t :=
  match ops with
  | [] => st
  | (rt, op) :: rest => perform_all rest (perform rt op st)
  end.

(** [randomUUID()] is expected to return an identifier that was not issued
    before.  The engine does not check it; the statements that depend on it
    assume it of the draws concerned. *)
Definition guid_fresh (rt : Runtime) (op : operation) (st : DaemonState.t) : Prop :=
  match op with
  | CreateTransaction _ => DaemonState.txStore st !! randomUUID rt = None
  | _ => True
  end.

Fixpoint guids_fresh (ops : list (Runtime * operation)) (st : DaemonState.t)
  : Prop :=
  match ops with
  | [] => True
  | (rt, op) :: rest => guid_fresh rt op st /\ guids_fresh rest (perform rt op st)
  end.

Definition confirm (record : TxRecord.t) : TxRecord.t :=
  TxRecord.mk (TxRecord.request record) (TxRecord.guid record) CONFIRMED
              (TxRecord.createdAt record).

Definition elapsed (rt : Runtime) (record : TxRecord.t) : Z :=
  Date_now rt - TxRecord.createdAt record.


Definition with_status (s : WalletConnectSession.t) (status : SessionStatus)
  : WalletConnectSession.t :=
  WalletConnectSession.mk
    (WalletConnectSession.id s) (WalletConnectSession.address s)
    (WalletConnectSession.network s) (WalletConnectSession.uri s) status
    (WalletConnectSession.connectedAt s).

Definition with_sessions (st : DaemonState.t)
  (sessions : gmap string WalletConnectSession.t) : DaemonState.t :=
  DaemonState.mk (DaemonState.config st) (DaemonState.txStore st) sessions.

(** A request body that is neither [null] nor [undefined], as the routes
    pass it ([req.body ?? {}]). *)
Definition is_body (data : value) : Prop :=
  match data with JUndefined | JNull => False | _ => True end.

(** Every loaded network name has the EIP-155 shape: [loadConfig] rejects
    the file otherwise, and the default configuration has it. *)
Definition config_ok (config : WalletConfig.t) : Prop :=
  Forall (fun net => NETWORK_NAME_PATTERN (NetworkConfig.name net) = true)
         (WalletConfig.networks config).

(** The three locals of [connectSession]. *)
Definition connect_address (data : value) : string :=
  normalizeAddress (prop data "address").
Definition connect_network (data : value) : string :=
  JS.trim (ToString (nullish (prop data "network") (JStr ""))).
Definition connect_uri (data : value) : string :=
  JS.trim (ToString (nullish (prop data "uri") (JStr ""))).

(** [String(...)] returns on the network and on the uri of the request. *)
Definition connect_converts (data : value) : bool :=
  negb (String_throws (nullish (prop data "network") (JStr ""))) &&
  negb (String_throws (nullish (prop data "uri") (JStr ""))).

Definition connected (rt : Runtime) (data : value) : WalletConnectSession.t :=
  WalletConnectSession.mk (randomUUID rt) (connect_address data)
    (connect_network data) (connect_uri data) CONNECTED (Date_toISOString rt).

(** The locals [nextAddress] and [nextNetwork] of [switchSession]. *)
Definition nextAddress (data : value) (existing : WalletConnectSession.t) : string :=
  if truthy (prop data "address") then normalizeAddress (prop data "address")
  else WalletConnectSession.address existing.

Definition nextNetwork (data : value) (existing : WalletConnectSession.t) : string :=
  if truthy (prop data "network") then JS.trim (ToString (prop data "network"))
  else WalletConnectSession.network existing.

Definition switched (data : value) (existing : WalletConnectSession.t)
  : WalletConnectSession.t :=
  WalletConnectSession.mk
    (WalletConnectSession.id existing) (nextAddress data existing)
    (nextNetwork data existing) (WalletConnectSession.uri existing)
    (WalletConnectSession.status existing)
    (WalletConnectSession.connectedAt existing).

(** The invariant of the session store. *)
Definition session_ok (st : DaemonState.t) (k : string)
  (s : WalletConnectSession.t) : Prop :=
  WalletConnectSession.id s = k /\
  isValidAddress (WalletConnectSession.address s) = true /\
  isKnownNetwork st (WalletConnectSession.network s) = true /\
  JS.startsWith "wc:" (WalletConnectSession.uri s) = true.

Definition sessions_ok (st : DaemonState.t) : Prop :=
  map_Forall (session_ok st) (DaemonState.sessions st).

(** ** The pseudo-balance as the specification words it *)

Module Spec.

Definition hex_digit_value (c : ascii) : N :=
  if JS.is_digit c then JS.code c - 48
  else if JS.is_lower_hex c then JS.code c - 87
  else JS.code c - 55.

(** A string of hex digits read as an unsigned integer. *)
Fixpoint unsigned_of_hex (s : string) : N :=
  match s with
  | EmptyString => 0
  | String c s' =>
      hex_digit_value c * 16 ^ N.of_nat (String.length s') + unsigned_of_hex s'
  end.

(** A string of decimal digits read as an unsigned integer. *)
Fixpoint unsigned_of_dec (s : string) : N :=
  match s with
  | EmptyString => 0
  | String c s' =>
      (JS.code c - 48) * 10 ^ N.of_nat (String.length s') + unsigned_of_dec s'
  end.

Fixpoint after_colon (s : string) : string :=
  match s with
  | EmptyString => EmptyString
  | String c s' => if Ascii.eqb c ":" then s' else after_colon s'
  end.

(** The numeric chain id of [eip155:<id>]. *)
Definition chain_id (network : string) : N := unsigned_of_dec (after_colon network).

(** First 8 hex characters after [0x], plus the chain id, modulo 500000. *)
Definition thousandths (address network : string) : N :=
  (unsigned_of_hex (String.substring 2 8 address) + chain_id network) mod 500000.

Definition three_digits (r : N) : string :=
  String (JS.digit_char (r / 100))
    (String (JS.digit_char (r / 10 mod 10))
       (String (JS.digit_char (r mod 10)) EmptyString)).

(** [raw / 1000] written with exactly 6 fractional digits. *)
Definition fixed6 (raw : N) : string :=
  JS.N_to_string (raw / 1000) +:+ "." +:+ three_digits (raw mod 1000) +:+ "000".

Definition balanceEth (address network : string) : string :=
  fixed6 (thousandths address network).

(** A decimal numeral [i.f] read as a rational number. *)
Definition read_decimal (s : string) : option Q :=
  match JS.split "." s with
  | [i; f] =>
      ip ← JS.parse_nonempty 10 i;
      fp ← JS.parse_nonempty 10 f;
      let scale := (10 ^ Z.of_nat (String.length f))%Z in
      Some ((ip * scale + fp) # Z.to_pos scale)
  | _ => None
  end.

End Spec.

Definition balance_of (o : outcome BalanceResult.t) : option string :=
  match o with
  | Ok result => Some (BalanceResult.balanceEth result)
  | Throw _ => None
  end.

(** ** The routes of the daemon

    The handlers that [startDaemon] registers for the routes that read the
    configuration or reach the stores.  A handler is an engine computation
    whose result is the reply it sends; an exception that leaves a handler
    is the one express hands to the error middleware.  ([/health],
    [/version] and [/build-info] report facts of the process, and
    [/wc/sessions] lists the session [Map] in insertion order, which the
    state above does not keep.) *)

Module Reply.
Record t : Type := mk { status : Z; body : value }.
End Reply.

(** [res.json(body)]: the status stays 200. *)
Definition res_json (body : value) : Reply.t := Reply.mk 200 body.

(** [respondError(res, status, message)] *)
Definition respondError (status : Z) (message : string) : Reply.t :=
  Reply.mk status (JObj [("error", JStr message)]).

(** [try { body } catch (err) { handler(err.message) }] *)
Definition try_catch {A : Type} (body : M A) (handler : string -> M A) : M A :=
  fun st =>
    match body st with
    | (Ok a, st') => (Ok a, st')
    | (Throw message, st') => handler message st'
    end.

(** *** Engine objects as the JSON that [res.json] sends *)

Definition NetworkConfig_json (n : NetworkConfig.t) : value :=
  JObj [ ("name", JStr (NetworkConfig.name n));
         ("rpcUrl", JStr (NetworkConfig.rpcUrl n)) ].

Definition BalanceResult_json (r : BalanceResult.t) : value :=
  JObj [ ("address", JStr (BalanceResult.address r));
         ("network", JStr (BalanceResult.network r));
         ("balanceEth", JStr (BalanceResult.balanceEth r));
         ("updatedAt", JStr (BalanceResult.updatedAt r)) ].

Definition TxStatus_json (s : TxStatus) : value :=
  JStr match s with PENDING => "PENDING" | CONFIRMED => "CONFIRMED" end.

Definition TxStatusOrUnknown_json (s : TxStatusOrUnknown) : value :=
  match s with
  | Known s => TxStatus_json s
  | UNKNOWN => JStr "UNKNOWN"
  end.

Definition TxStatusResponse_json (r : TxStatusResponse.t) : value :=
  JObj [ ("guid", JStr (TxStatusResponse.guid r));
         ("status", TxStatusOrUnknown_json (TxStatusResponse.status r));
         ("updatedAt", JStr (TxStatusResponse.updatedAt r)) ].

Definition SessionStatus_json (s : SessionStatus) : value :=
  JStr match s with CONNECTED => "CONNECTED" | DISCONNECTED => "DISCONNECTED" end.

Definition WalletConnectSession_json (s : WalletConnectSession.t) : value :=
  JObj [ ("id", JStr (WalletConnectSession.id s));
         ("address", JStr (WalletConnectSession.address s));
         ("network", JStr (WalletConnectSession.network s));
         ("uri", JStr (WalletConnectSession.uri s));
         ("status", SessionStatus_json (WalletConnectSession.status s));
         ("connectedAt", JStr (WalletConnectSession.connectedAt s)) ].

(** *** The accounts of the daemon *)

Module AccountRecord.
Record t : Type := mk {
    address : string;
    label : string;
    networks : list string }.
End AccountRecord.

(** [MOCK_ACCOUNTS]: the address and the label of each account. *)
Definition MOCK_ACCOUNTS : list (string * string) :=
  [ ("0x1111111111111111111111111111111111111111", "Agent Primary");
    ("0xd8dA6BF26964aF9D7eEd9e03E53415D37aA96045", "Research Wallet");
    ("0x2222222222222222222222222222222222222222", "Automation Vault") ].

(** [this.accounts], which the constructor of [DaemonState] computes from
    the loaded configuration and which nothing writes afterwards. *)
Definition accounts (config : WalletConfig.t) : list AccountRecord.t :=
  (fun account =>
     AccountRecord.mk account.1 account.2 (listNetworkNames config))
  <$> MOCK_ACCOUNTS.

Definition AccountRecord_json (a : AccountRecord.t) : value :=
  JObj [ ("address", JStr (AccountRecord.address a));
         ("label", JStr (AccountRecord.label a));
         ("networks", JArr (JStr <$> AccountRecord.networks a)) ].

(** *** The handlers *)

(** [GET /networks] *)
Definition route_networks : M Reply.t :=
  networks ← read (fun state => WalletConfig.networks (DaemonState.config state));
  mret (res_json (JObj [("networks", JArr (NetworkConfig_json <$> networks))])).

(** [GET /accounts] *)
Definition route_accounts : M Reply.t :=
  accounts ← read (fun state => accounts (DaemonState.config state));
  mret (res_json (JObj [("accounts", JArr (AccountRecord_json <$> accounts))])).

(** [GET /balance]; [query] is [req.query]. *)
Definition route_balance (rt : Runtime) (query : value) : M Reply.t :=
  address ← String_of (nullish (prop query "address") (JStr ""));
  network ← String_of (nullish (prop query "network") (JStr ""));
  known ← read (fun state => isKnownNetwork state network);
  if negb (isValidAddress address) || negb known
  then mret (respondError 400 "address and network must be provided as valid values.")
  else
  payload ← getBalance rt address network;
  mret (res_json (BalanceResult_json payload)).

(** [POST /tx/send]; [body] is [req.body]. *)
Definition route_tx_send (rt : Runtime) (body : value) : M Reply.t :=
  try_catch
    (record ← createTransaction rt (nullish body (JObj []));
     mret (res_json (JObj [ ("guid", JStr (TxRecord.guid record));
                            ("status", TxStatus_json (TxRecord.status record)) ])))
    (fun message => mret (respondError 400 message)).

(** [GET /tx/status] *)
Definition route_tx_status (rt : Runtime) (query : value) : M Reply.t :=
  guid ← String_of (nullish (prop query "guid") (JStr ""));
  let guid := JS.trim guid in
  if JS.is_empty guid
  then mret (respondError 400 "guid is required.")
  else
  status ← getTransactionStatus rt guid;
  mret (res_json (TxStatusResponse_json status)).

(** [POST /wc/connect] *)
Definition route_wc_connect (rt : Runtime) (body : value) : M Reply.t :=
  try_catch
    (session ← connectSession rt (nullish body (JObj []));
     mret (res_json (WalletConnectSession_json session)))
    (fun message => mret (respondError 400 message)).

(** [POST /wc/switch] *)
Definition route_wc_switch (body : value) : M Reply.t :=
  try_catch
    (session ← switchSession (nullish body (JObj []));
     mret (res_json (WalletConnectSession_json session)))
    (fun message => mret (respondError 400 message)).

(** [POST /wc/disconnect] *)
Definition route_wc_disconnect (body : value) : M Reply.t :=
  try_catch
    (session ← disconnectSession (nullish body (JObj []));
     mret (res_json (WalletConnectSession_json session)))
    (fun message => mret (respondError 400 message)).

(** A request to one of these routes, with the query or the body it
    carries, and the handler express runs for it. *)
Inductive request : Type :=
  | GET_networks
  | GET_accounts
  | GET_balance (query : value)
  | POST_tx_send (body : value)
  | GET_tx_status (query : value)
  | POST_wc_connect (body : value)
  | POST_wc_switch (body : value)
  | POST_wc_disconnect (body : value).

Definition serve (rt : Runtime) (req : request) : M Reply.t :=
  match req with
  | GET_networks => route_networks
  | GET_accounts => route_accounts
  | GET_balance query => route_balance rt query
  | POST_tx_send body => route_tx_send rt body
  | GET_tx_status query => route_tx_status rt query
  | POST_wc_connect body => route_wc_connect rt body
  | POST_wc_switch body => route_wc_switch body
  | POST_wc_disconnect body => route_wc_disconnect body
  end.

(** [String(...)] returns on every query value that the handler of the
    request converts; the other handlers convert nothing outside their
    [try]. *)
Definition query_converts (req : request) : bool :=
  match req with
  | GET_balance query =>
      negb (String_throws (nullish (prop query "address") (JStr ""))) &&
      negb (String_throws (nullish (prop query "network") (JStr "")))
  | GET_tx_status query =>
      negb (String_throws (nullish (prop query "guid") (JStr "")))
  | _ => true
  end.

(** The state after a sequence of requests, each served with what the
    runtime returned while it ran. *)
Fixpoint serve_all (reqs : list (Runtime * request)) (st : DaemonState.t)
  : DaemonState.t :=
  match reqs with
  | [] => st
  | (rt, req) :: rest => serve_all rest (serve rt req st).2
  end.

(** *** Uptime *)

(** [Math.round]: the nearest integer, the larger one on a tie. *)
Definition Math_round (x : Q) : Z := Qfloor (x + (1 # 2)).

(** [getUptimeSeconds], with [startedAt] the field set when the state was
    built.  The quotient is the exact rational: a difference of two
    [Date.now()] values is below 2^53, where the double nearest to
    [d / 1000] lies on the same side of every half-integer as the quotient
    itself. *)
Definition getUptimeSeconds (rt : Runtime) (startedAt : Z) : Z :=
  Math_round ((Date_now rt - startedAt) # 1000).

(** ** Spellings of an address *)

(** Equality of two strings up to the case of the ASCII letters. *)
Fixpoint eqb_ignoring_case (s s' : string) : bool :=
  match s, s' with
  | EmptyString, EmptyString => true
  | String c r, String c' r' =>
      Ascii.eqb (JS.lower c) (JS.lower c') && eqb_ignoring_case r r'
  | _, _ => false
  end.

(** ** The stored transaction records *)

(** The locals [network], [from], [to] and [contract] of
    [validateTransactionPayload] on an object with the properties [props]. *)
Definition payload_network (props : list (string * value)) : string :=
  JS.trim (ToString (nullish (lookup_prop "network" props) (JStr ""))).

Definition payload_from (props : list (string * value)) : string :=
  normalizeAddress (lookup_prop "from" props).

Definition payload_address (k : string) (props : list (string * value))
  : option string :=
  if truthy (lookup_prop k props)
  then Some (normalizeAddress (lookup_prop k props)) else None.

(** The checks of [validateTransactionPayload], in its order. *)
Definition payload_valid (st : DaemonState.t) (props : list (string * value))
  : bool :=
  NETWORK_REGEX (payload_network props) &&
  isKnownNetwork st (payload_network props) &&
  isValidAddress (payload_from props) &&
  (negb (given (payload_address "to" props)) ||
   isValidAddress (default "" (payload_address "to" props))) &&
  (negb (given (payload_address "contract" props)) ||
   isValidAddress (default "" (payload_address "contract" props))) &&
  (is_undefined (lookup_prop "nonce" props) ||
   match lookup_prop "nonce" props with
   | JNum n => Number_isFinite n && negb (Number_negative n)
   | _ => false
   end) &&
  (is_undefined (lookup_prop "value" props) ||
   jstype_eqb (typeof (lookup_prop "value" props)) TString) &&
  (negb (truthy (lookup_prop "data" props)) ||
   HEX_DATA_REGEX (ToString (lookup_prop "data" props))) &&
  (negb (truthy (lookup_prop "gasPrice" props)) ||
   jstype_eqb (typeof (lookup_prop "gasPrice" props)) TString).

(** The properties of the payload after the four assignments that end
    [validateTransactionPayload]. *)
Definition normalized (props : list (string * value)) : list (string * value) :=
  let p := assign_prop "network" (JStr (payload_network props)) props in
  let p := assign_prop "from" (JStr (payload_from props)) p in
  let p := if given (payload_address "to" props)
           then assign_prop "to" (JStr (default "" (payload_address "to" props))) p
           else p in
  if given (payload_address "contract" props)
  then assign_prop "contract"
         (JStr (default "" (payload_address "contract" props))) p
  else p.

(** What [validateTransactionPayload] has established of the request a
    record was built from. *)
Definition request_ok (st : DaemonState.t) (props : list (string * value)) : Prop :=
  (exists network,
     lookup_prop "network" props = JStr network /\
     NETWORK_REGEX network = true /\ isKnownNetwork st network = true) /\
  (exists from,
     lookup_prop "from" props = JStr from /\ isValidAddress from = true) /\
  (forall to,
     lookup_prop "to" props = JStr to -> JS.is_empty (JS.trim to) = false ->
     isValidAddress to = true) /\
  (forall contract,
     lookup_prop "contract" props = JStr contract ->
     JS.is_empty (JS.trim contract) = false ->
     isValidAddress contract = true) /\
  (lookup_prop "nonce" props = JUndefined \/
   exists n, lookup_prop "nonce" props = JNum n /\
             Number_isFinite n = true /\ Number_negative n = false) /\
  (lookup_prop "value" props = JUndefined \/
   exists v, lookup_prop "value" props = JStr v) /\
  (truthy (lookup_prop "data" props) = true ->
   HEX_DATA_REGEX (ToString (lookup_prop "data" props)) = true) /\
  (truthy (lookup_prop "gasPrice" props) = true ->
   exists g, lookup_prop "gasPrice" props = JStr g).

Definition record_ok (st : DaemonState.t) (k : string) (r : TxRecord.t) : Prop :=
  TxRecord.guid r = k /\ request_ok st (TxRecord.request r).

Definition txStore_ok (st : DaemonState.t) : Prop :=
  map_Forall (record_ok st) (DaemonState.txStore st).

(** [randomUUID()] returning an identifier that no stored session has. *)
Definition session_id_fresh (rt : Runtime) (op : operation) (st : DaemonState.t)
  : Prop :=
  match op with
  | ConnectSession _ => DaemonState.sessions st !! randomUUID rt = None
  | _ => True
  end.

Fixpoint session_ids_fresh (ops : list (Runtime * operation)) (st : DaemonState.t)
  : Prop :=
  match ops with
  | [] => True
  | (rt, op) :: rest =>
      session_id_fresh rt op st /\ session_ids_fresh rest (perform rt op st)
  end.


(** What [loadConfig] reads in one entry of the [networks] array. *)
Definition entry_name (net : value) : string :=
  JS.trim (ToString (nullish (prop net "name") (JStr ""))).

Definition entry_rpcUrl (net : value) : string :=
  JS.trim (ToString (nullish (prop net "rpcUrl") (JStr ""))).

(** [String(...)] returns on the name and on the rpcUrl of the entry. *)
Definition entry_converts (net : value) : bool :=
  negb (String_throws (nullish (prop net "name") (JStr ""))) &&
  negb (String_throws (nullish (prop net "rpcUrl") (JStr ""))).

Definition entry_ok (net : value) : bool :=
  truthy net && jstype_eqb (typeof net) TObject && entry_converts net &&
  NETWORK_NAME_PATTERN (entry_name net) && negb (JS.is_empty (entry_rpcUrl net)).

(** ** The command line client *)

Definition EXIT_RUNTIME_ERROR : Z := 1.
Definition EXIT_INVALID_ARGS : Z := 2.

(** [DEFAULT_CONFIG_FILENAME] of the config module. *)
Definition DEFAULT_CONFIG_FILENAME : string := "wallet.conf.json".

Definition LF : ascii := "010"%char.

(** [items.join(sep)] on an array of strings. *)
Fixpoint Array_join (sep : string) (items : list string) : string :=
  match items with
  | [] => ""
  | [x] => x
  | x :: rest => x +:+ sep +:+ Array_join sep rest
  end.

Definition renderList (rows : list string) : string :=
  Array_join (String LF "") ((fun row => "- " +:+ row) <$> rows).

(** What a command has printed when the process ends.  The text that
    [JSON.stringify(envelope, null, 2)] produces is not spelled out:
    [console_log_json] carries the envelope it serialises. *)
Inductive printed : Type :=
  | console_log (text : string)
  | console_log_json (envelope : value)
  | console_error (text : string).

(** The end of the process at [process.exit(code)]. *)
Module Exit.
Record t : Type := mk { output : printed; code : Z }.
End Exit.

(** The [ApiResponseEnvelope<null>] of an error. *)
Definition error_envelope (message : string) (invalidArgs : bool) : value :=
  JObj [ ("success", JBool false);
         ("data", JNull);
         ("error",
          JObj [ ("code", JStr (if invalidArgs then "INVALID_ARGS"
                                else "RUNTIME_ERROR"));
                 ("message", JStr message) ]) ].

Definition emitEarlyError (message : string) (wantsJson invalidArgs : bool)
  : Exit.t :=
  Exit.mk (if wantsJson then console_log_json (error_envelope message invalidArgs)
           else console_error message)
          (if invalidArgs then EXIT_INVALID_ARGS else EXIT_RUNTIME_ERROR).

Module NormalizedOptions.
Record t : Type := mk { json : bool; configPath : string }.
End NormalizedOptions.

Definition emitError (opts : NormalizedOptions.t) (message : string)
  (invalidArgs : bool) : Exit.t :=
  Exit.mk (if NormalizedOptions.json opts
           then console_log_json (error_envelope message invalidArgs)
           else console_error message)
          (if invalidArgs then EXIT_INVALID_ARGS else EXIT_RUNTIME_ERROR).

(** What [executeCommand] can catch: an error of axios with the reply it
    carries, if any, and its [message]; another [Error]; anything else. *)
Inductive thrown : Type :=
  | AxiosError (response : option Reply.t) (message : value)
  | JsError (message : string)
  | NotAnError.

Definition extractAxiosMessage (response : option Reply.t) (message : value)
  : string :=
  let data := match response with
              | Some r => Reply.body r
              | None => JUndefined
              end in
  let from_body :=
    if truthy data && jstype_eqb (typeof data) TObject
    then match prop data "error" with
         | JStr s => Some s
         | _ => None
         end
    else None in
  match from_body with
  | Some s => s
  | None =>
      match message with
      | JStr m => m
      | _ => "Request failed"
      end
  end.

Definition isInvalidArgsError (response : option Reply.t) : bool :=
  let status := match response with
                | Some r => Reply.status r
                | None => 0%Z
                end in
  (status =? 400)%Z || (status =? 422)%Z.

Definition handleCommandError (opts : NormalizedOptions.t) (error : thrown)
  : Exit.t :=
  match error with
  | AxiosError response message =>
      emitError opts (extractAxiosMessage response message)
                (isInvalidArgsError response)
  | JsError message => emitError opts message false
  | NotAnError => emitError opts "Unknown error" false
  end.

(** What [apiGet] and [apiPost] make of the reply of the daemon: axios
    resolves with the body of a reply whose status is 2xx and rejects any
    other reply with an error that carries it. *)
Definition api_result (reply : Reply.t) : thrown + value :=
  if (200 <=? Reply.status reply)%Z && (Reply.status reply <? 300)%Z
  then inr (Reply.body reply)
  else inl (AxiosError (Some reply)
              (JStr ("Request failed with status code " +:+
                     JS.N_to_string (Z.to_N (Reply.status reply))))).

(** *** Waiting for the daemon *)

Definition AUTO_START_TIMEOUT : Z := 8000.

(** What [ensureDaemonRunning] observes of the machine: the answer of the
    k-th call of [isDaemonHealthy] and the value of the k-th call of
    [Date.now()], both counted from 0. *)
Record Host : Type := mkHost {
  isDaemonHealthy : nat -> bool;
  Date_now_at : nat -> Z }.

(** How [ensureDaemonRunning] ends: it returns, after it has spawned a
    daemon or without, or it throws the time-out error; [probes] is the
    number of calls of [isDaemonHealthy] it has made. *)
Inductive ensured : Type :=
  | Returned (spawned : bool) (probes : nat)
  | TimedOut (probes : nat).

(** The [while] loop of [ensureDaemonRunning], entered after [probes] calls
    of [isDaemonHealthy] and [readings] calls of [Date.now()]; [fuel] bounds
    the number of tests of the loop condition. *)
Fixpoint ensureDaemonRunning_loop (fuel : nat) (host : Host) (expiry : Z)
  (probes readings : nat) : option ensured :=
  match fuel with
  | O => None
  | S fuel' =>
      if (Date_now_at host readings <? expiry)%Z
      then
        if isDaemonHealthy host probes
        then Some (Returned true (S probes))
        else (* await delay(250) *)
          ensureDaemonRunning_loop fuel' host expiry (S probes) (S readings)
      else Some (TimedOut probes)
  end.

(** [ensureDaemonRunning]; the spawn of the daemon process is taken to
    succeed. *)
Definition ensureDaemonRunning (fuel : nat) (host : Host) : option ensured :=
  if isDaemonHealthy host 0
  then Some (Returned false 1)
  else
    (* await spawnDaemonProcess(configPath) *)
    let expiry := (Date_now_at host 0 + AUTO_START_TIMEOUT)%Z in
    ensureDaemonRunning_loop fuel host expiry 1 1.

(** *** The arguments of the process *)

Definition detectJsonFlag (argv : list string) : bool :=
  existsb (fun token => String.eqb token "--json") argv.

(** [token.slice(n)] *)
Definition slice_from (n : nat) (s : string) : string :=
  String.substring n (String.length s - n) s.

Module DaemonIntent.
Record t : Type := mk {
    active : bool;
    configOverride : option string;
    remaining : list string;
    wantsJson : bool }.
End DaemonIntent.

(** The loop of [detectDaemonIntent] from the token at index [i] on, with
    the three variables it updates.  After [--config] the loop steps over
    the next token; past the end, [argv[i + 1]] is [undefined]. *)
Fixpoint detectDaemonIntent_loop (argv : list string) (active : bool)
  (configOverride : option string) (remaining : list string)
  : bool * option string * list string :=
  match argv with
  | [] => (active, configOverride, remaining)
  | token :: rest =>
      if String.eqb token "--daemon"
      then detectDaemonIntent_loop rest true configOverride remaining
      else if String.eqb token "--config"
      then match rest with
           | [] => (active, None, remaining)
           | next :: rest' =>
               detectDaemonIntent_loop rest' active (Some next) remaining
           end
      else if JS.startsWith "--config=" token
      then detectDaemonIntent_loop rest active
             (Some (slice_from (String.length "--config=") token)) remaining
      else if String.eqb token "--json"
      then detectDaemonIntent_loop rest active configOverride remaining
      else detectDaemonIntent_loop rest active configOverride
             (remaining ++ [token])
  end.

Definition detectDaemonIntent (argv : list string) : DaemonIntent.t :=
  let wantsJson := detectJsonFlag argv in
  let '(active, configOverride, remaining) :=
    detectDaemonIntent_loop argv false None [] in
  DaemonIntent.mk active configOverride remaining wantsJson.

(** The tokens that [detectDaemonIntent] passes on: anything but the flags
    it reads itself. *)
Definition positional (token : string) : bool :=
  negb (String.eqb token "--daemon") && negb (String.eqb token "--config") &&
  negb (JS.startsWith "--config=" token) && negb (String.eqb token "--json").

(** The path that a token of the form [--config=<path>] gives. *)
Definition config_value (token : string) : option string :=
  if JS.startsWith "--config=" token
  then Some (slice_from (String.length "--config=") token) else None.

(** [resolveConfigPath]; [path_resolve] is [path.resolve] of Node and [cwd]
    is [process.cwd()]. *)
Definition resolveConfigPath (path_resolve : string -> string -> string)
  (cwd : string) (configPath : option string) : string :=
  let target :=
    match configPath with
    | Some p => if (0 <? String.length (JS.trim p))%nat then p
                else DEFAULT_CONFIG_FILENAME
    | None => DEFAULT_CONFIG_FILENAME
    end in
  path_resolve cwd target.

(** How [main] goes on after it has looked at the arguments: it ends the
    process, starts the daemon with a configuration path, or hands the
    arguments to the command parser. *)
Inductive launch : Type :=
  | ExitEarly (e : Exit.t)
  | StartDaemon (configPath : string)
  | ParseCommand.

(** [main], up to the point where it builds the command parser. *)
Definition main (path_resolve : string -> string -> string) (cwd : string)
  (argv : list string) : launch :=
  let daemonIntent := detectDaemonIntent argv in
  if DaemonIntent.active daemonIntent
  then
    if (0 <? length (DaemonIntent.remaining daemonIntent))%nat
    then ExitEarly
           (emitEarlyError "The --daemon flag cannot be combined with other commands."
              (DaemonIntent.wantsJson daemonIntent) true)
    else StartDaemon
           (resolveConfigPath path_resolve cwd
              (DaemonIntent.configOverride daemonIntent))
  else ParseCommand.

(** ** Sample requests and states *)

Definition initial_state : DaemonState.t := DaemonState.mk DEFAULT_CONFIG ∅ ∅.

Definition sample_runtime : Runtime :=
  mkRuntime 1700000000000 "2023-11-14T22:13:20.000Z"
            "3b241101-e2bb-4255-8caf-4136c566a962".

Definition later_runtime : Runtime :=
  mkRuntime 1700000006000 "2023-11-14T22:13:26.000Z"
            "7c9e6679-7425-40de-944b-e07fc1f90ae7".

Definition sample_address : string := "0xd8dA6BF26964aF9D7eEd9e03E53415D37aA96045".

Definition connect_request : value :=
  JObj [ ("network", JStr "eip155:1"); ("address", JStr sample_address);
         ("uri", JStr "wc:example") ].

Definition bad_uri_request : value :=
  JObj [ ("network", JStr "eip155:1"); ("address", JStr sample_address);
         ("uri", JStr "example") ].

(** A request whose uri is an array holding an object that [String] cannot
    convert, and a request of another account. *)
Definition unprintable_uri_request : value :=
  JObj [ ("network", JStr "eip155:1"); ("address", JStr sample_address);
         ("uri", JArr [ JStr "wc:x";
                        JObj [("toString", JNum (Finite false 1 0))] ]) ].


Definition connected_state : DaemonState.t :=
  (connectSession sample_runtime connect_request initial_state).2.

Definition switch_request : value :=
  JObj [ ("session", JStr (randomUUID sample_runtime));
         ("network", JStr "eip155:11155111") ].

Definition disconnect_request : value :=
  JObj [ ("session", JStr (randomUUID sample_runtime)) ].

Definition send_request : value :=
  JObj [ ("network", JStr "eip155:1");
         ("from", JStr "0x1111111111111111111111111111111111111111");
         ("to", JStr "0x2222222222222222222222222222222222222222");
         ("value", JStr "0.01") ].

Definition sent_record : TxRecord.t :=
  TxRecord.mk (spread send_request) (randomUUID sample_runtime) PENDING
              (Date_now sample_runtime).

Definition confirmed_state : DaemonState.t :=
  (getTransactionStatus later_runtime (randomUUID sample_runtime)
     (createTransaction sample_runtime send_request connected_state).2).2.

Definition later_operations : list (Runtime * operation) :=
  [ (later_runtime, CreateTransaction send_request);
    (later_runtime, GetTransactionStatus (randomUUID sample_runtime));
    (later_runtime, DisconnectSession disconnect_request);
    (later_runtime, GetTransactionStatus (randomUUID later_runtime)) ].

(** A send request whose [to] is present but blank. *)
Definition blank_to_payload : value :=
  JObj [ ("network", JStr "eip155:1");
         ("from", JStr "0x1111111111111111111111111111111111111111");
         ("to", JStr "   ") ].

(** The state after the sample session was disconnected, and operations
    that follow: another session is connected and the disconnected one is
    switched to another network. *)
Definition disconnected_state : DaemonState.t :=
  (disconnectSession disconnect_request connected_state).2.

Definition more_operations : list (Runtime * operation) :=
  [ (later_runtime, ConnectSession connect_request);
    (later_runtime, SwitchSession switch_request) ].

(** A send request with white space around its values, and what validation
    makes of it. *)
Definition padded_send_request : value :=
  JObj [ ("network", JStr " eip155:1 ");
         ("from", JStr " 0x1111111111111111111111111111111111111111");
         ("to", JStr "0x2222222222222222222222222222222222222222 ") ].

Definition trimmed_send_request : value :=
  JObj [ ("network", JStr "eip155:1");
         ("from", JStr "0x1111111111111111111111111111111111111111");
         ("to", JStr "0x2222222222222222222222222222222222222222") ].

Definition lower_case_address : string :=
  "0xd8da6bf26964af9d7eed9e03e53415d37aa96045".

(** Requests to the routes. *)
Definition balance_query : value :=
  JObj [ ("address", JStr sample_address); ("network", JStr "eip155:1") ].

Definition status_query : value :=
  JObj [ ("guid", JStr (randomUUID sample_runtime)) ].

(** A query string [?address[toString]=1&network=eip155:1] as the extended
    query parser reads it. *)
Definition unprintable_query : value :=
  JObj [ ("address", JObj [("toString", JStr "1")]);
         ("network", JStr "eip155:1") ].

Definition sample_requests : list (Runtime * request) :=
  [ (later_runtime, POST_wc_connect connect_request);
    (later_runtime, POST_wc_switch switch_request);
    (later_runtime, GET_tx_status status_query);
    (later_runtime, POST_wc_disconnect disconnect_request);
    (later_runtime, GET_balance balance_query) ].

Definition sent_reply : Reply.t :=
  res_json (JObj [ ("guid", JStr (randomUUID sample_runtime));
                   ("status", JStr "PENDING") ]).

Definition connect_reply : Reply.t :=
  res_json (WalletConnectSession_json (connected sample_runtime connect_request)).

Definition bad_uri_reply : Reply.t :=
  respondError 400 "network, address, and uri must be provided for WalletConnect.".

Definition primary_account : AccountRecord.t :=
  AccountRecord.mk "0x1111111111111111111111111111111111111111" "Agent Primary"
                   ["eip155:1"; "eip155:11155111"].

(** A configuration file with white space around a name. *)
Definition sample_file : value :=
  JObj [ ("networks",
          JArr [ JObj [ ("name", JStr " eip155:10 ");
                        ("rpcUrl", JStr "https://mainnet.optimism.io") ] ]) ].

(** A configuration file with an rpcUrl that [String] cannot convert. *)
Definition unprintable_entry_file : value :=
  JObj [ ("networks",
          JArr [ JObj [ ("name", JStr "eip155:1");
                        ("rpcUrl", JObj [("toString", JNum (Finite false 1 0))]) ] ]) ].

(** Arguments of the process, and a [path.resolve] for relative paths. *)
Definition daemon_argv : list string :=
  ["--daemon"; "--config=conf/wallet.json"; "--json"].

Definition mixed_argv : list string :=
  ["--daemon"; "version"; "--json"].

Definition sample_path_resolve (cwd target : string) : string :=
  cwd +:+ "/" +:+ target.

Definition text_options : NormalizedOptions.t :=
  NormalizedOptions.mk false "/srv/wallet.conf.json".

Definition network_rows : list string :=
  [ "eip155:1 -> https://rpc.ankr.com/eth";
    "eip155:11155111 -> https://rpc.ankr.com/eth_sepolia" ].

(** A machine on which the daemon answers from the fourth probe on, and
    whose clock advances by 300 ms between two readings. *)
Definition slow_start : Host :=
  mkHost (fun k => (3 <=? k)%nat) (fun k => 1700000000000 + 300 * Z.of_nat k)%Z.

(** ** Facts about the string primitives *)

Module JSFacts.
Import JS.

#[local] Arguments String.append !_ _ : simpl nomatch.

Lemma code_bounded c : (code c < 256)%N.
Proof. apply N_ascii_bounded. Qed.

Lemma code_of_N n : (n < 256)%N -> code (ascii_of_N n) = n.
Proof. apply N_ascii_embedding. Qed.

Lemma code_inj c1 c2 : code c1 = code c2 -> c1 = c2.
Proof.
  unfold code. intros H.
  by rewrite <- (ascii_N_embedding c1), <- (ascii_N_embedding c2), H.
Qed.

Lemma eqb_code c1 c2 : Ascii.eqb c1 c2 = (code c1 =? code c2)%N.
Proof.
  destruct (Ascii.eqb_spec c1 c2) as [->|Hne].
  - by rewrite N.eqb_refl.
  - symmetry. apply N.eqb_neq. intros H. by apply Hne, code_inj.
Qed.

(** Turns the character tests of the context and the goal into linear
    arithmetic on character codes. *)
Ltac char_lia :=
  unfold is_ws, is_hex, is_digit, is_lower_hex, is_upper_hex in *;
  rewrite ?eqb_code in *;
  repeat match goal with
         | H : context [code ?c] |- _ =>
             lazymatch goal with
             | _ : (code c < 256)%N |- _ => fail
             | _ => pose proof (code_bounded c)
             end
         | |- context [code ?c] =>
             lazymatch goal with
             | _ : (code c < 256)%N |- _ => fail
             | _ => pose proof (code_bounded c)
             end
         end;
  repeat (progress
    rewrite ?negb_true_iff, ?negb_false_iff, ?andb_true_iff, ?orb_true_iff,
      ?andb_false_iff, ?orb_false_iff, ?N.leb_le, ?N.leb_gt, ?N.eqb_eq,
      ?N.eqb_neq in * );
  lia.

Lemma hex_not_ws c : is_hex c = true -> is_ws c = false.
Proof. intros. char_lia. Qed.

Lemma digit_not_ws c : is_digit c = true -> is_ws c = false.
Proof. intros. char_lia. Qed.

Lemma digit_is_hex c : is_digit c = true -> is_hex c = true.
Proof. intros. char_lia. Qed.

Lemma all_chars_impl (p q : ascii -> bool) s :
  (forall c, p c = true -> q c = true) ->
  all_chars p s = true -> all_chars q s = true.
Proof.
  intros Hpq. induction s as [|c s IH]; simpl; [done|].
  rewrite !andb_true_iff. intros [Hc Hs]. auto.
Qed.

Lemma all_chars_app p s1 s2 :
  all_chars p (s1 +:+ s2) = all_chars p s1 && all_chars p s2.
Proof.
  induction s1 as [|c s1 IH]; simpl; [done|]. by rewrite IH, andb_assoc.
Qed.

Lemma all_chars_substring p s : forall n m,
  all_chars p s = true -> all_chars p (String.substring n m s) = true.
Proof.
  induction s as [|c s IH]; intros [|n] [|m]; simpl; try done;
    rewrite ?andb_true_iff; intros [Hc Hs]; auto.
Qed.

Lemma length_substring_0 s : forall m,
  (m <= String.length s)%nat -> String.length (String.substring 0 m s) = m.
Proof.
  induction s as [|c s IH]; intros [|m]; simpl; try lia.
  intros. by rewrite IH by lia.
Qed.

Lemma substring_0_all s : forall m,
  (String.length s <= m)%nat -> String.substring 0 m s = s.
Proof.
  induction s as [|c s IH]; intros [|m]; simpl; try done; try lia.
  intros. by rewrite IH by lia.
Qed.

Lemma length_app s1 s2 :
  String.length (s1 +:+ s2) = (String.length s1 + String.length s2)%nat.
Proof. induction s1 as [|c s1 IH]; simpl; [done|]. by rewrite IH. Qed.

Lemma app_assoc s1 s2 s3 : (s1 +:+ s2) +:+ s3 = s1 +:+ (s2 +:+ s3).
Proof. induction s1 as [|c s1 IH]; simpl; [done|]. by rewrite IH. Qed.

Lemma substring_app_l s1 s2 :
  String.substring 0 (String.length s1) (s1 +:+ s2) = s1.
Proof.
  induction s1 as [|c s1 IH]; simpl.
  - by destruct s2.
  - by rewrite IH.
Qed.

Lemma substring_app_r s1 s2 :
  String.substring (String.length s1) (String.length s2) (s1 +:+ s2) = s2.
Proof.
  induction s1 as [|c s1 IH]; simpl; [|done].
  by apply substring_0_all.
Qed.

(** *** [trim] *)

Lemma trimEnd_no_ws s :
  all_chars (fun c => negb (is_ws c)) s = true -> trimEnd s = s.
Proof.
  induction s as [|c s IH]; simpl; [done|].
  rewrite andb_true_iff, negb_true_iff. intros [-> Hs]. by rewrite IH.
Qed.

Lemma trim_no_ws s :
  all_chars (fun c => negb (is_ws c)) s = true -> trim s = s.
Proof.
  intros H. unfold trim.
  destruct s as [|c s]; simpl in *; [done|].
  apply andb_true_iff in H as [Hc Hs]. apply negb_true_iff in Hc.
  rewrite Hc. change (trimEnd (String c s) = String c s).
  apply trimEnd_no_ws. simpl. by rewrite Hc, Hs.
Qed.

Lemma trim_hex s : all_chars is_hex s = true -> trim s = s.
Proof.
  intros H. apply trim_no_ws. revert H. apply all_chars_impl.
  intros c Hc. by rewrite (hex_not_ws c Hc).
Qed.

(** *** [split] *)

Lemma split_no_sep sep s :
  all_chars (fun c => negb (Ascii.eqb c sep)) s = true -> split sep s = [s].
Proof.
  induction s as [|c s IH]; simpl; [done|].
  rewrite andb_true_iff, negb_true_iff. intros [-> Hs]. by rewrite IH.
Qed.

Lemma split_app sep s1 s2 :
  all_chars (fun c => negb (Ascii.eqb c sep)) s1 = true ->
  split sep (s1 +:+ String sep s2) = s1 :: split sep s2.
Proof.
  induction s1 as [|c s1 IH]; simpl.
  - intros _. by rewrite Ascii.eqb_refl.
  - rewrite andb_true_iff, negb_true_iff. intros [-> Hs]. by rewrite IH.
Qed.

(** *** [String.prefix] against a string of another character class *)

Lemma prefix_other_class1 p a s :
  all_chars p s = true -> p a = false -> String.prefix (String a "") s = false.
Proof.
  destruct s as [|c s]; simpl; [done|].
  rewrite andb_true_iff. intros [Hc _] Ha.
  destruct (ascii_dec a c); [congruence | done].
Qed.

Lemma prefix_other_class2 p a b s :
  all_chars p s = true -> p b = false ->
  String.prefix (String a (String b "")) s = false.
Proof.
  destruct s as [|c s]; simpl; [done|].
  rewrite andb_true_iff. intros [_ Hs] Hb.
  destruct (ascii_dec a c); [|done]. by eapply prefix_other_class1.
Qed.

(** *** Decimal numerals *)

Lemma digit_char_code d : (d < 10)%N -> code (digit_char d) = (48 + d)%N.
Proof. intros. unfold digit_char. apply code_of_N. lia. Qed.

Lemma digit_char_is_digit d : (d < 10)%N -> is_digit (digit_char d) = true.
Proof.
  intros H. unfold is_digit. rewrite (digit_char_code d H).
  apply andb_true_iff. split; apply N.leb_le; lia.
Qed.

Lemma digit_of_is_digit radix c :
  is_digit c = true -> (10 <= radix)%Z ->
  digit_of radix c = Some (Z.of_N (code c) - 48)%Z.
Proof.
  intros Hc Hr. unfold digit_of. rewrite Hc.
  destruct (Z.ltb_spec (Z.of_N (code c) - 48) radix); [done|]. char_lia.
Qed.

Lemma digit_of_digit_char d :
  (d < 10)%N -> digit_of 10 (digit_char d) = Some (Z.of_N d).
Proof.
  intros H. rewrite digit_of_is_digit; [|by apply digit_char_is_digit|lia].
  rewrite (digit_char_code d H). f_equal. lia.
Qed.

Lemma dec_digits_acc fuel : forall n acc,
  dec_digits fuel n acc = dec_digits fuel n "" +:+ acc.
Proof.
  induction fuel as [|fuel IH]; intros n acc; simpl; [done|].
  destruct (n / 10 =? 0)%N; [done|].
  rewrite (IH _ (String _ acc)), (IH _ (String _ "")).
  by rewrite app_assoc.
Qed.

Lemma dec_digits_fuel f : forall n f' acc,
  (1 <= f)%nat -> (n < 2 ^ N.of_nat f)%N -> (f <= f')%nat ->
  dec_digits f' n acc = dec_digits f n acc.
Proof.
  induction f as [|f IH]; intros n f' acc Hf Hn Hle; [lia|].
  destruct f' as [|f']; [lia|]. simpl.
  destruct (N.eqb_spec (n / 10)%N 0%N) as [|Hne]; [done|].
  rewrite Nat2N.inj_succ, N.pow_succ_r' in Hn.
  destruct f as [|f]; [simpl in Hn; lia|].
  apply IH; lia.
Qed.

Lemma N_to_string_fuel n f :
  (S (N.to_nat (N.log2 n)) <= f)%nat -> dec_digits f n "" = N_to_string n.
Proof.
  intros Hf. unfold N_to_string. apply dec_digits_fuel; [lia| |done].
  rewrite Nat2N.inj_succ, N2Nat.id.
  destruct (N.eq_dec n 0%N) as [->|Hn]; [done|].
  apply N.log2_spec. lia.
Qed.

Lemma N_to_string_digit d : (d < 10)%N -> N_to_string d = String (digit_char d) "".
Proof.
  intros H. unfold N_to_string. simpl.
  rewrite N.mod_small by done. by rewrite N.div_small by done.
Qed.

Lemma N_to_string_snoc n d :
  (0 < n)%N -> (d < 10)%N ->
  N_to_string (10 * n + d) = N_to_string n +:+ String (digit_char d) "".
Proof.
  intros Hn Hd. unfold N_to_string at 1. simpl.
  replace ((10 * n + d) mod 10)%N with d by lia.
  replace ((10 * n + d) / 10)%N with n by lia.
  destruct (N.eqb_spec n 0%N) as [|_]; [lia|].
  rewrite dec_digits_acc. f_equal. apply N_to_string_fuel.
  assert (N.succ (N.log2 n) <= N.log2 (10 * n + d))%N; [|lia].
  rewrite <- N.log2_double by done. apply N.log2_le_mono. lia.
Qed.

Lemma dec_digits_are_digits fuel : forall n acc,
  all_chars is_digit acc = true ->
  all_chars is_digit (dec_digits fuel n acc) = true.
Proof.
  induction fuel as [|fuel IH]; intros n acc Hacc; simpl; [done|].
  assert (all_chars is_digit (String (digit_char (n mod 10)) acc) = true).
  { simpl. rewrite Hacc, digit_char_is_digit; [done|lia]. }
  destruct (n / 10 =? 0)%N; [done | by apply IH].
Qed.

Lemma N_to_string_digits n : all_chars is_digit (N_to_string n) = true.
Proof. by apply dec_digits_are_digits. Qed.

Lemma N_to_string_length n : (1 <= String.length (N_to_string n))%nat.
Proof.
  unfold N_to_string. simpl. destruct (n / 10 =? 0)%N; simpl; [lia|].
  rewrite dec_digits_acc, length_app. simpl. lia.
Qed.

(** Reading back what [dec_digits] printed. *)
Lemma parse_dec_digits f : forall n acc,
  (1 <= f)%nat -> (n < 2 ^ N.of_nat f)%N ->
  parse_digits 10 0 (dec_digits f n acc) = parse_digits 10 (Z.of_N n) acc.
Proof.
  induction f as [|f IH]; intros n acc Hf Hn; [lia|]. simpl.
  rewrite Nat2N.inj_succ, N.pow_succ_r' in Hn.
  destruct (N.eqb_spec (n / 10)%N 0%N) as [Hz|Hnz].
  - simpl. rewrite digit_of_digit_char by lia. f_equal. lia.
  - destruct f as [|f]; [simpl in Hn; lia|].
    rewrite IH by lia. simpl. rewrite digit_of_digit_char by lia.
    f_equal. lia.
Qed.

Lemma parse_N_to_string n :
  parse_digits 10 0 (N_to_string n) = Some (Z.of_N n).
Proof.
  unfold N_to_string. rewrite parse_dec_digits; [done|lia|].
  rewrite Nat2N.inj_succ, N2Nat.id.
  destruct (N.eq_dec n 0%N) as [->|Hn]; [done|].
  apply N.log2_spec. lia.
Qed.

End JSFacts.

(** ** [computeMockBalance] computes the specified balance *)

Module BalanceFacts.
Import JS JSFacts.

#[local] Arguments String.append !_ _ : simpl nomatch.

Lemma digit_of_hex c :
  is_hex c = true -> digit_of 16 c = Some (Z.of_N (Spec.hex_digit_value c)).
Proof.
  intros Hc. unfold digit_of, Spec.hex_digit_value.
  destruct (is_digit c) eqn:Hd; [|destruct (is_lower_hex c) eqn:Hl;
    [|destruct (is_upper_hex c) eqn:Hu]].
  - destruct (Z.ltb_spec (Z.of_N (code c) - 48) 16); [f_equal; char_lia | char_lia].
  - destruct (Z.ltb_spec (Z.of_N (code c) - 87) 16); [f_equal; char_lia | char_lia].
  - destruct (Z.ltb_spec (Z.of_N (code c) - 55) 16); [f_equal; char_lia | char_lia].
  - unfold is_hex in Hc. rewrite Hd, Hl, Hu in Hc. done.
Qed.

Lemma parse_digits_hex s : forall acc,
  all_chars is_hex s = true ->
  parse_digits 16 acc s =
    Some (acc * 16 ^ Z.of_nat (String.length s) + Z.of_N (Spec.unsigned_of_hex s))%Z.
Proof.
  induction s as [|c s IH]; intros acc;
    cbn [parse_digits all_chars Spec.unsigned_of_hex String.length].
  - intros _. f_equal. simpl. lia.
  - rewrite andb_true_iff. intros [Hc Hs].
    rewrite (digit_of_hex c Hc), (IH _ Hs). f_equal.
    rewrite N2Z.inj_add, N2Z.inj_mul, N2Z.inj_pow, nat_N_Z.
    rewrite Nat2Z.inj_succ, Z.pow_succ_r by lia.
    change (Z.of_N 16) with 16%Z. ring.
Qed.

Lemma parse_digits_dec s : forall acc,
  all_chars is_digit s = true ->
  parse_digits 10 acc s =
    Some (acc * 10 ^ Z.of_nat (String.length s) + Z.of_N (Spec.unsigned_of_dec s))%Z.
Proof.
  induction s as [|c s IH]; intros acc;
    cbn [parse_digits all_chars Spec.unsigned_of_dec String.length].
  - intros _. f_equal. simpl. lia.
  - rewrite andb_true_iff. intros [Hc Hs].
    rewrite (digit_of_is_digit 10 c Hc), (IH _ Hs) by lia. f_equal.
    rewrite N2Z.inj_add, N2Z.inj_mul, N2Z.inj_pow, nat_N_Z.
    rewrite Nat2Z.inj_succ, Z.pow_succ_r by lia.
    replace (Z.of_N (code c - 48)) with (Z.of_N (code c) - 48)%Z by char_lia.
    change (Z.of_N 10) with 10%Z. ring.
Qed.

Lemma prefix_app p s : String.prefix p (p +:+ s) = true.
Proof.
  induction p as [|a p IH]; simpl; [by destruct s|].
  by destruct (ascii_dec a a).
Qed.

Lemma BigInt_hex h :
  all_chars is_hex h = true -> is_empty h = false ->
  BigInt ("0x" +:+ h) = Some (Z.of_N (Spec.unsigned_of_hex h)).
Proof.
  intros Hh Hne. unfold BigInt.
  rewrite trim_no_ws.
  2: { rewrite all_chars_app. apply andb_true_iff. split; [done|].
       revert Hh. apply all_chars_impl. intros c Hc.
       by rewrite (hex_not_ws c Hc). }
  rewrite prefix_app.
  change (is_empty ("0x" +:+ h)) with false.
  cbn [orb]. change ("0x" +:+ h) with (String "0" (String "x" h)).
  cbn [String.substring String.length]. rewrite substring_0_all by lia.
  unfold parse_nonempty. rewrite Hne, (parse_digits_hex _ _ Hh).
  by rewrite Z.mul_0_l.
Qed.

Lemma BigInt_dec d :
  all_chars is_digit d = true -> is_empty d = false ->
  BigInt d = Some (Z.of_N (Spec.unsigned_of_dec d)).
Proof.
  intros Hd Hne. unfold BigInt.
  rewrite trim_hex by (revert Hd; apply all_chars_impl, digit_is_hex).
  rewrite Hne.
  rewrite !(prefix_other_class2 is_digit _ _ d Hd) by done.
  rewrite !(prefix_other_class1 is_digit _ d Hd) by done.
  simpl. by rewrite (parse_digits_dec _ _ Hd).
Qed.

(** *** The shape of valid inputs *)

Lemma valid_address_shape address :
  isValidAddress address = true ->
  exists r, address = String "0" (String "x" r) /\
            all_chars is_hex r = true /\ String.length r = 40%nat.
Proof.
  unfold isValidAddress, ADDRESS_REGEX.
  destruct address as [|a [|b r]]; try done.
  rewrite !andb_true_iff, !Ascii.eqb_eq, Nat.eqb_eq.
  intros [[[-> ->] Hr] Hl]. by exists r.
Qed.

Lemma code_lower c :
  code (lower c) =
    if (65 <=? code c)%N && (code c <=? 90)%N then (code c + 32)%N else code c.
Proof.
  unfold lower. destruct (_ && _) eqn:H; [|done].
  apply code_of_N. char_lia.
Qed.

(** A character that matches, ignoring case, a pattern character other than
    the colon is not a colon; one that matches the colon is the colon. *)
Lemma ci_match_colon a c :
  Ascii.eqb (lower a) (lower c) = true ->
  Ascii.eqb c ":" = (code (lower a) =? 58)%N.
Proof.
  rewrite Ascii.eqb_eq. intros ->. rewrite eqb_code, code_lower.
  change (code ":") with 58%N.
  destruct (_ && _) eqn:H; [|done].
  destruct (N.eqb_spec (code c) 58), (N.eqb_spec (code c + 32) 58); char_lia.
Qed.

Lemma strip_prefix_ci_cons a p b s r :
  strip_prefix_ci (String a p) (String b s) = Some r ->
  Ascii.eqb (lower a) (lower b) = true /\ strip_prefix_ci p s = Some r.
Proof.
  cbn [strip_prefix_ci]. by destruct (Ascii.eqb (lower a) (lower b)).
Qed.

Lemma valid_network_shape network :
  NETWORK_REGEX network = true ->
  exists p d, network = p +:+ String ":" d /\
              all_chars (fun c => negb (Ascii.eqb c ":")) p = true /\
              all_chars is_digit d = true /\ is_empty d = false.
Proof.
  unfold NETWORK_REGEX.
  destruct (strip_prefix_ci "eip155:" network) as [d|] eqn:E; [|done].
  rewrite andb_true_iff, negb_true_iff. intros [Hne Hd].
  destruct network as [|c1 [|c2 [|c3 [|c4 [|c5 [|c6 [|c7 rest]]]]]]];
    try (cbn [strip_prefix_ci] in E;
         repeat match type of E with
                | (if ?c then _ else _) = _ => destruct c
                end; discriminate).
  apply strip_prefix_ci_cons in E as [E1 E].
  apply strip_prefix_ci_cons in E as [E2 E].
  apply strip_prefix_ci_cons in E as [E3 E].
  apply strip_prefix_ci_cons in E as [E4 E].
  apply strip_prefix_ci_cons in E as [E5 E].
  apply strip_prefix_ci_cons in E as [E6 E].
  apply strip_prefix_ci_cons in E as [E7 E].
  cbn [strip_prefix_ci] in E. injection E as ->.
  apply ci_match_colon in E1, E2, E3, E4, E5, E6, E7.
  apply Ascii.eqb_eq in E7 as ->.
  exists (String c1 (String c2 (String c3 (String c4 (String c5 (String c6 "")))))), d.
  split_and!; try done.
  cbn [all_chars]. by rewrite E1, E2, E3, E4, E5, E6.
Qed.

Lemma after_colon_app p d :
  all_chars (fun c => negb (Ascii.eqb c ":")) p = true ->
  Spec.after_colon (p +:+ String ":" d) = d.
Proof.
  induction p as [|c p IH]; simpl; [done|].
  rewrite andb_true_iff, negb_true_iff. intros [-> Hp]. by apply IH.
Qed.

Lemma digits_no_sep sep d :
  is_digit sep = false -> all_chars is_digit d = true ->
  all_chars (fun c => negb (Ascii.eqb c sep)) d = true.
Proof.
  intros Hsep. apply all_chars_impl. intros c Hc.
  apply negb_true_iff, Ascii.eqb_neq. congruence.
Qed.

(** *** [toFixed(6)] of a number of thousandths *)

Lemma round_scaled_thousandths raw :
  round_scaled 6 (Z.of_N raw # 1000) = (Z.of_N raw * 1000)%Z.
Proof.
  unfold round_scaled. simpl Qnum. simpl Qden.
  symmetry. apply Z.div_unique with (r := 1000%Z); lia.
Qed.

Lemma substring_app_r' s1 s2 n m :
  n = String.length s1 -> m = String.length s2 ->
  String.substring n m (s1 +:+ s2) = s2.
Proof. intros -> ->. apply substring_app_r. Qed.

Lemma substring_app_l' s1 s2 n :
  n = String.length s1 -> String.substring 0 n (s1 +:+ s2) = s1.
Proof. intros ->. apply substring_app_l. Qed.

Lemma toFixed_thousandths raw :
  toFixed 6 (Z.of_N raw # 1000) = Spec.fixed6 raw.
Proof.
  unfold toFixed. simpl Qnum.
  destruct (Z.ltb_spec (Z.of_N raw) 0) as [|_]; [lia|].
  rewrite round_scaled_thousandths.
  replace (Z.to_N (Z.of_N raw * 1000)) with (raw * 1000)%N by lia.
  unfold Spec.fixed6, Spec.three_digits.
  set (q := (raw / 1000)%N). set (r := (raw mod 1000)%N).
  set (a := (r / 100)%N). set (b := (r / 10 mod 10)%N). set (c := (r mod 10)%N).
  assert (Hraw : (raw = 1000 * q + 100 * a + 10 * b + c)%N)
    by (subst q a b c r; lia).
  assert (a < 10 /\ b < 10 /\ c < 10)%N as (Ha & Hb & Hc) by (subst q a b c r; lia).
  clearbody q a b c. clear r. subst raw.
  change "000" with (String (digit_char 0) (String (digit_char 0)
                       (String (digit_char 0) ""))).
  destruct (N.eq_dec q 0%N) as [->|Hq];
    [destruct (N.eq_dec a 0%N) as [->|Ha0];
     [destruct (N.eq_dec b 0%N) as [->|Hb0];
      [destruct (N.eq_dec c 0%N) as [->|Hc0]|]|]|].
  - reflexivity.
  - replace ((1000 * 0 + 100 * 0 + 10 * 0 + c) * 1000)%N
      with (10 * (10 * (10 * c + 0) + 0) + 0)%N by lia.
    rewrite !N_to_string_snoc, (N_to_string_digit c) by lia. reflexivity.
  - replace ((1000 * 0 + 100 * 0 + 10 * b + c) * 1000)%N
      with (10 * (10 * (10 * (10 * b + c) + 0) + 0) + 0)%N by lia.
    rewrite !N_to_string_snoc, (N_to_string_digit b) by lia. reflexivity.
  - replace ((1000 * 0 + 100 * a + 10 * b + c) * 1000)%N
      with (10 * (10 * (10 * (10 * (10 * a + b) + c) + 0) + 0) + 0)%N by lia.
    rewrite !N_to_string_snoc, (N_to_string_digit a) by lia. reflexivity.
  - replace ((1000 * q + 100 * a + 10 * b + c) * 1000)%N
      with (10 * (10 * (10 * (10 * (10 * (10 * q + a) + b) + c) + 0) + 0) + 0)%N
      by lia.
    rewrite !N_to_string_snoc by lia. rewrite !app_assoc. simpl (_ +:+ _).
    pose proof (N_to_string_length q) as Hlen.
    rewrite !length_app. simpl String.length.
    destruct (Nat.leb_spec (String.length (N_to_string q) + 6) 6) as [|_]; [lia|].
    rewrite length_app. simpl String.length.
    rewrite substring_app_l' by lia.
    rewrite substring_app_r' by (simpl; lia).
    reflexivity.
Qed.

(** *** The balance of valid inputs *)

Lemma computeMockBalance_valid address network :
  isValidAddress address = true -> NETWORK_REGEX network = true ->
  computeMockBalance address network = Some (Spec.balanceEth address network).
Proof.
  intros Ha Hn.
  destruct (valid_address_shape _ Ha) as (r & -> & Hr & Hlen).
  destruct (valid_network_shape _ Hn) as (p & d & -> & Hp & Hd & Hne).
  unfold computeMockBalance, Spec.balanceEth, Spec.thousandths, Spec.chain_id, slice.
  rewrite (after_colon_app _ _ Hp).
  rewrite (split_app _ _ _ Hp), (split_no_sep ":" d) by (by apply digits_no_sep).
  simpl.
  assert (Hh : all_chars is_hex (String.substring 0 8 r) = true)
    by (by apply all_chars_substring).
  assert (Hh8 : String.length (String.substring 0 8 r) = 8%nat)
    by (apply length_substring_0; lia).
  change (String "0" (String "x" (String.substring 0 8 r)))
    with ("0x" +:+ String.substring 0 8 r).
  rewrite BigInt_hex; [|done|by destruct (String.substring 0 8 r)].
  rewrite (BigInt_dec _ Hd Hne). simpl.
  rewrite Z.rem_mod_nonneg by lia.
  rewrite <- N2Z.inj_add.
  change 500000%Z with (Z.of_N 500000). rewrite <- N2Z.inj_mod.
  by rewrite toFixed_thousandths.
Qed.

End BalanceFacts.

(** ** The balance returned by [getBalance] *)

Lemma getBalance_valid rt address network st :
  isValidAddress address = true -> NETWORK_REGEX network = true ->
  getBalance rt address network st =
    (Ok (BalanceResult.mk address network (Spec.balanceEth address network)
                          (Date_toISOString rt)), st).
Proof.
  intros Ha Hn. unfold getBalance.
  by rewrite (BalanceFacts.computeMockBalance_valid _ _ Ha Hn).
Qed.

(** C1. For an address matching [ADDRESS_REGEX] and a network matching
    [NETWORK_REGEX] ([eip155:<uint>], in either letter case), [getBalance]
    returns a result whose [balanceEth] is the string the specification
    describes: the first 8 hex characters after [0x] read as an unsigned
    integer, plus the chain id after the colon, modulo 500000, divided by
    1000 and written with exactly 6 fractional digits.  The state is
    unchanged, and the [balanceEth] of any other call on the same address
    and network, at any time and in any state, is the same. *)
Theorem getBalance_is_specified_balance rt address network st :
  isValidAddress address = true -> NETWORK_REGEX network = true ->
  getBalance rt address network st =
    (Ok (BalanceResult.mk address network (Spec.balanceEth address network)
                          (Date_toISOString rt)), st) /\
  forall rt' st',
    balance_of (getBalance rt' address network st').1 =
    balance_of (getBalance rt address network st).1.
Proof.
  intros Ha Hn. split; [by apply getBalance_valid|].
  intros rt' st'. by rewrite !getBalance_valid.
Qed.

(** [Spec.fixed6 raw] is an integer part, a point and six digits, and it
    reads back as the quotient [raw / 1000]. *)
Lemma split_fixed6 raw :
  JS.split "." (Spec.fixed6 raw) =
    [JS.N_to_string (raw / 1000); Spec.three_digits (raw mod 1000) +:+ "000"] /\
  String.length (Spec.three_digits (raw mod 1000) +:+ "000") = 6%nat /\
  JS.all_chars JS.is_digit (Spec.three_digits (raw mod 1000) +:+ "000") = true.
Proof.
  unfold Spec.fixed6, Spec.three_digits.
  set (r := (raw mod 1000)%N).
  assert (r / 100 < 10 /\ r / 10 mod 10 < 10 /\ r mod 10 < 10)%N
    as (Ha & Hb & Hc) by (subst r; lia).
  set (T := String (JS.digit_char (r / 100)) _ +:+ _).
  assert (HT : JS.all_chars JS.is_digit T = true).
  { subst T. rewrite JSFacts.all_chars_app. cbn [JS.all_chars].
    by rewrite !JSFacts.digit_char_is_digit by lia. }
  split_and!; [|done|done].
  change ("." +:+ T) with (String "." T).
  rewrite JSFacts.split_app
    by (apply BalanceFacts.digits_no_sep; [done | apply JSFacts.N_to_string_digits]).
  by rewrite JSFacts.split_no_sep by (by apply BalanceFacts.digits_no_sep).
Qed.

Lemma read_fixed6 raw :
  Spec.read_decimal (Spec.fixed6 raw) = Some (Z.of_N raw * 1000 # 1000000).
Proof.
  unfold Spec.read_decimal. rewrite (proj1 (split_fixed6 raw)).
  unfold Spec.three_digits.
  set (q := (raw / 1000)%N). set (r := (raw mod 1000)%N).
  set (a := (r / 100)%N). set (b := (r / 10 mod 10)%N). set (c := (r mod 10)%N).
  assert (Hraw : (raw = 1000 * q + 100 * a + 10 * b + c)%N)
    by (subst q a b c r; lia).
  assert (a < 10 /\ b < 10 /\ c < 10)%N as (Ha & Hb & Hc) by (subst q a b c r; lia).
  clearbody q a b c. clear r. subst raw.
  change (String (JS.digit_char a) (String (JS.digit_char b)
            (String (JS.digit_char c) "")) +:+ "000")
    with (String (JS.digit_char a) (String (JS.digit_char b)
            (String (JS.digit_char c) (String (JS.digit_char 0)
               (String (JS.digit_char 0) (String (JS.digit_char 0) "")))))).
  unfold JS.parse_nonempty.
  pose proof (JSFacts.N_to_string_length q) as Hlen.
  destruct (JS.N_to_string q) as [|c0 s0] eqn:Hq; [simpl in Hlen; lia|].
  cbn [JS.is_empty]. rewrite <- Hq, JSFacts.parse_N_to_string.
  cbn [JS.is_empty JS.parse_digits String.length].
  rewrite !JSFacts.digit_of_digit_char by lia.
  cbn [mbind option_bind]. f_equal.
  change (Z.to_pos (10 ^ Z.of_nat 6)) with 1000000%positive.
  f_equal. change (10 ^ Z.of_nat 6)%Z with 1000000%Z. lia.
Qed.

Lemma fixed6_is_quotient raw :
  exists q, Spec.read_decimal (Spec.fixed6 raw) = Some q /\
            (q == Z.of_N raw # 1000)%Q.
Proof.
  eexists. split; [apply read_fixed6|]. unfold Qeq. cbn [Qnum Qden]. lia.
Qed.

(** C9. For an address matching [ADDRESS_REGEX] and a network matching
    [NETWORK_REGEX], the [balanceEth] that [getBalance] returns reads as a
    rational number [q] with [0 <= q < 500]. *)
Theorem getBalance_within_bounds rt address network st :
  isValidAddress address = true -> NETWORK_REGEX network = true ->
  exists result q,
    getBalance rt address network st = (Ok result, st) /\
    Spec.read_decimal (BalanceResult.balanceEth result) = Some q /\
    (0 <= q)%Q /\ (q < 500)%Q.
Proof.
  intros Ha Hn. rewrite (getBalance_valid _ _ _ _ Ha Hn).
  eexists _, _. split; [done|]. cbn [BalanceResult.balanceEth].
  unfold Spec.balanceEth. split; [apply read_fixed6|].
  assert (Spec.thousandths address network < 500000)%N
    by (unfold Spec.thousandths; lia).
  unfold Qle, Qlt. cbn [Qnum Qden]. lia.
Qed.

(** ** Reasoning about engine computations *)

Ltac unfold_M :=
  unfold getProp, String_of;
  unfold mbind, M_bind, mret, M_ret, mthrow, M_throw, read, sessions_set,
    txStore_set;
  cbn beta iota.

(** Splits on the outermost conditional of the goal. *)
Ltac split_if :=
  match goal with
  | |- context [if ?c then _ else _] =>
      lazymatch c with
      | context [if _ then _ else _] => fail
      | _ => destruct c eqn:?
      end
  end.

Lemma validate_reads_only payload st :
  (validateTransactionPayload payload st).2 = st.
Proof.
  unfold validateTransactionPayload. unfold_M.
  repeat (split_if; try reflexivity).
Qed.


(** Only an object passes the checks: the assignments that end
    [validateTransactionPayload] are made to an object. *)
Lemma validate_ok_is_object payload st validated st' :
  validateTransactionPayload payload st = (Ok validated, st') ->
  exists props, payload = JObj props.
Proof.
  destruct payload as [| |b|n|s|items|props]; [..|by exists props];
    unfold validateTransactionPayload;
    cbn [typeof jstype_eqb negb]; rewrite ?orb_true_r; discriminate.
Qed.

Ltac split_lookup :=
  match goal with
  | |- context [match ?x with Some _ => _ | None => _ end] => destruct x eqn:?
  end.

(** Closes a goal [op st = (Throw msg, st') -> st' = st] once [op] is
    unfolded: every [throw] of a session operation precedes its [set]. *)
Ltac throws_before_writes :=
  unfold_M; repeat first [split_lookup | split_if]; intros; simplify_eq; done.

Lemma createTransaction_throw rt payload st msg st' :
  createTransaction rt payload st = (Throw msg, st') -> st' = st.
Proof.
  unfold createTransaction. unfold_M.
  pose proof (validate_reads_only payload st) as Hv.
  destruct (validateTransactionPayload payload st) as [[p|m] st1]; simpl in *;
    intros; simplify_eq; done.
Qed.

Lemma connectSession_throw rt data st msg st' :
  connectSession rt data st = (Throw msg, st') -> st' = st.
Proof. unfold connectSession. destruct data; throws_before_writes. Qed.

Lemma switchSession_throw data st msg st' :
  switchSession data st = (Throw msg, st') -> st' = st.
Proof. unfold switchSession. destruct data; throws_before_writes. Qed.

Lemma disconnectSession_throw data st msg st' :
  disconnectSession data st = (Throw msg, st') -> st' = st.
Proof. unfold disconnectSession. destruct data; throws_before_writes. Qed.

(** ** Atomic rejection *)

(** C2. Whenever [createTransaction], [connectSession], [switchSession] or
    [disconnectSession] throws, the transaction store and the session store
    are the ones the call started from: nothing is written before a
    rejection. *)
Theorem rejected_request_leaves_stores rt data st msg st' :
  createTransaction rt data st = (Throw msg, st') \/
  connectSession rt data st = (Throw msg, st') \/
  switchSession data st = (Throw msg, st') \/
  disconnectSession data st = (Throw msg, st') ->
  DaemonState.txStore st' = DaemonState.txStore st /\
  DaemonState.sessions st' = DaemonState.sessions st.
Proof.
  intros [H | [H | [H | H]]].
  - apply createTransaction_throw in H. by subst.
  - apply connectSession_throw in H. by subst.
  - apply switchSession_throw in H. by subst.
  - apply disconnectSession_throw in H. by subst.
Qed.

(** ** Transaction status *)

(** C4. For a guid that is not a key of the transaction store,
    [getTransactionStatus] returns normally with status [UNKNOWN] and the
    queried guid, and the state (hence the transaction store) is unchanged. *)
Theorem getTransactionStatus_unknown rt guid st :
  DaemonState.txStore st !! guid = None ->
  getTransactionStatus rt guid st =
    (Ok (TxStatusResponse.mk guid UNKNOWN (Date_toISOString rt)), st).
Proof.
  intros H. unfold getTransactionStatus. unfold_M. by rewrite H.
Qed.

(** ** Transaction records only move to [CONFIRMED] *)

Lemma getTransactionStatus_known rt guid st record :
  DaemonState.txStore st !! guid = Some record ->
  getTransactionStatus rt guid st =
    match TxRecord.status record with
    | PENDING =>
        if (elapsed rt record >? CONFIRM_DELAY_MS)%Z
        then (Ok (TxStatusResponse.mk guid (Known CONFIRMED) (Date_toISOString rt)),
              DaemonState.mk (DaemonState.config st)
                (<[guid := confirm record]> (DaemonState.txStore st))
                (DaemonState.sessions st))
        else (Ok (TxStatusResponse.mk guid (Known PENDING) (Date_toISOString rt)), st)
    | CONFIRMED =>
        (Ok (TxStatusResponse.mk guid (Known CONFIRMED) (Date_toISOString rt)), st)
    end.
Proof.
  intros H. unfold getTransactionStatus, elapsed. unfold_M. rewrite H.
  destruct (TxRecord.status record) eqn:Hs; [|by rewrite Hs].
  split_if; [done | by rewrite Hs].
Qed.

Lemma session_ops_keep_txStore rt data st :
  DaemonState.txStore (connectSession rt data st).2 = DaemonState.txStore st /\
  DaemonState.txStore (switchSession data st).2 = DaemonState.txStore st /\
  DaemonState.txStore (disconnectSession data st).2 = DaemonState.txStore st.
Proof.
  unfold connectSession, switchSession, disconnectSession.
  repeat split; destruct data; unfold_M;
    repeat first [split_lookup | split_if]; done.
Qed.

Lemma createTransaction_txStore rt payload st :
  (createTransaction rt payload st).2 = st \/
  exists record,
    TxRecord.guid record = randomUUID rt /\
    TxRecord.status record = PENDING /\
    TxRecord.createdAt record = Date_now rt /\
    (createTransaction rt payload st).1 = Ok record /\
    (createTransaction rt payload st).2 =
      DaemonState.mk (DaemonState.config st)
        (<[randomUUID rt := record]> (DaemonState.txStore st))
        (DaemonState.sessions st).
Proof.
  unfold createTransaction. unfold_M.
  pose proof (validate_reads_only payload st) as Hv.
  destruct (validateTransactionPayload payload st) as [[p|m] st1];
    simpl in *; subst; [right | by left].
  eexists (TxRecord.mk _ _ _ _). repeat split; reflexivity.
Qed.

(** One operation changes a stored transaction record in one way only: a
    status query on its guid, past the delay, confirms a pending record. *)
Lemma perform_tx_record rt op st guid record :
  guid_fresh rt op st ->
  DaemonState.txStore st !! guid = Some record ->
  DaemonState.txStore (perform rt op st) !! guid = Some record \/
  (op = GetTransactionStatus guid /\
   TxRecord.status record = PENDING /\
   (elapsed rt record > CONFIRM_DELAY_MS)%Z /\
   DaemonState.txStore (perform rt op st) !! guid = Some (confirm record)).
Proof.
  intros Hfresh Hrec. destruct op as [a n|payload|g|data|data|data]; simpl.
  - left. unfold getBalance. by destruct (computeMockBalance a n).
  - left. destruct (createTransaction_txStore rt payload st)
      as [-> | (r & _ & _ & _ & _ & ->)]; [done|].
    simpl in *. rewrite lookup_insert_ne; [done|]. congruence.
  - destruct (DaemonState.txStore st !! g) as [r|] eqn:Hg.
    + rewrite (getTransactionStatus_known _ _ _ _ Hg).
      destruct (TxRecord.status r) eqn:Hs; [|by left].
      destruct (elapsed rt r >? CONFIRM_DELAY_MS)%Z eqn:Hd; [|by left].
      simpl. destruct (decide (g = guid)) as [->|Hne].
      * right. rewrite lookup_insert_eq. simplify_eq.
        split_and!; try done. apply Z.gtb_lt in Hd. lia.
      * left. by rewrite lookup_insert_ne.
    + left. unfold getTransactionStatus. unfold_M. by rewrite Hg.
  - left. by rewrite (proj1 (session_ops_keep_txStore rt data st)).
  - left. by rewrite (proj1 (proj2 (session_ops_keep_txStore rt data st))).
  - left. by rewrite (proj2 (proj2 (session_ops_keep_txStore rt data st))).
Qed.

Lemma confirmed_kept ops : forall st guid record,
  guids_fresh ops st ->
  DaemonState.txStore st !! guid = Some record ->
  TxRecord.status record = CONFIRMED ->
  DaemonState.txStore (perform_all ops st) !! guid = Some record.
Proof.
  induction ops as [|[rt op] rest IH]; intros st guid record Hfresh Hrec Hc;
    simpl in *; [done|].
  destruct Hfresh as [Hf Hrest].
  apply IH; [done| |done].
  destruct (perform_tx_record rt op st guid record Hf Hrec)
    as [H | (_ & Hp & _)]; [done | congruence].
Qed.

(** C3. A stored record's status moves only from [PENDING] to [CONFIRMED]:
    (1) a status query on a pending record confirms it in the store exactly
    when the time elapsed since [createdAt] exceeds [CONFIRM_DELAY_MS]
    (5000 ms), and answers with the status it leaves in the store;
    (2) a single operation leaves a stored record as it is or is that
    confirming query; (3) along any sequence of operations a confirmed
    record stays in the store unchanged, so it never becomes pending again.
    Parts (2) and (3) assume that [randomUUID] does not return the guid of a
    stored record. *)
Theorem status_only_moves_to_confirmed :
  (forall rt guid st record,
     DaemonState.txStore st !! guid = Some record ->
     TxRecord.status record = PENDING ->
     let after := getTransactionStatus rt guid st in
     ((elapsed rt record > CONFIRM_DELAY_MS)%Z ->
        DaemonState.txStore after.2 !! guid = Some (confirm record) /\
        after.1 = Ok (TxStatusResponse.mk guid (Known CONFIRMED)
                                          (Date_toISOString rt))) /\
     (~ (elapsed rt record > CONFIRM_DELAY_MS)%Z ->
        after.2 = st /\
        after.1 = Ok (TxStatusResponse.mk guid (Known PENDING)
                                          (Date_toISOString rt)))) /\
  (forall rt op st guid record,
     guid_fresh rt op st ->
     DaemonState.txStore st !! guid = Some record ->
     DaemonState.txStore (perform rt op st) !! guid = Some record \/
     (op = GetTransactionStatus guid /\
      TxRecord.status record = PENDING /\
      (elapsed rt record > CONFIRM_DELAY_MS)%Z /\
      DaemonState.txStore (perform rt op st) !! guid = Some (confirm record))) /\
  (forall ops st guid record,
     guids_fresh ops st ->
     DaemonState.txStore st !! guid = Some record ->
     TxRecord.status record = CONFIRMED ->
     DaemonState.txStore (perform_all ops st) !! guid = Some record).
Proof.
  split; [|split].
  - intros rt guid st record Hrec Hp after. subst after.
    rewrite (getTransactionStatus_known _ _ _ _ Hrec), Hp.
    destruct (elapsed rt record >? CONFIRM_DELAY_MS)%Z eqn:Hd.
    + split; [|intros []; apply Z.gtb_lt in Hd; lia].
      intros _. simpl. by rewrite lookup_insert_eq.
    + split; [|done]. intros Hgt. apply Z.gt_lt, Z.gtb_lt in Hgt. congruence.
  - apply perform_tx_record.
  - intros. by eapply confirmed_kept.
Qed.

(** ** Disconnecting a session *)

Lemma getProp_body data k st :
  is_body data -> getProp data k st = (Ok (prop data k), st).
Proof. by destruct data. Qed.

Lemma getProp_not_body data k st :
  ~ is_body data -> exists msg, getProp data k st = (Throw msg, st).
Proof. destruct data; simpl; intros H; try (by destruct H); by eexists. Qed.

Lemma prop_not_body data k : ~ is_body data -> prop data k = JUndefined.
Proof. destruct data; simpl; intros H; try done; by destruct H. Qed.

Lemma is_body_dec data : is_body data \/ ~ is_body data.
Proof. destruct data; simpl; tauto. Qed.

Lemma disconnectSession_found data st existing :
  JS.is_empty (session_id (prop data "session")) = false ->
  DaemonState.sessions st !! session_id (prop data "session") = Some existing ->
  disconnectSession data st =
    (Ok (with_status existing DISCONNECTED),
     with_sessions st (<[session_id (prop data "session") :=
                          with_status existing DISCONNECTED]>
                         (DaemonState.sessions st))).
Proof.
  intros Hid Hfound. unfold disconnectSession.
  destruct (is_body_dec data) as [Hb|Hb].
  - unfold mbind at 1, M_bind. rewrite (getProp_body _ _ _ Hb).
    unfold_M. by rewrite Hfound, Hid.
  - rewrite (prop_not_body _ _ Hb) in Hid. done.
Qed.


(** ** Connecting a session *)

Lemma loadConfig_network_ok net n :
  loadConfig_network net = inr n ->
  NETWORK_NAME_PATTERN (NetworkConfig.name n) = true.
Proof.
  unfold loadConfig_network. repeat split_if; intros; simplify_eq.
  simpl. by apply negb_false_iff.
Qed.

Lemma loadConfig_networks_ok nets : forall ns,
  loadConfig_networks nets = inr ns ->
  Forall (fun net => NETWORK_NAME_PATTERN (NetworkConfig.name net) = true) ns.
Proof.
  induction nets as [|net rest IH]; simpl; intros ns H; simplify_eq; [done|].
  destruct (loadConfig_network net) as [|n] eqn:Hn; [done|].
  destruct (loadConfig_networks rest) as [|ns'] eqn:Hr; simplify_eq.
  constructor; [by eapply loadConfig_network_ok | by apply IH].
Qed.

Lemma loadConfig_ok file config : loadConfig file = inr config -> config_ok config.
Proof.
  destruct file as [parsed|]; simpl.
  - destruct (prop parsed "networks"); try done.
    destruct (loadConfig_networks items) as [|ns] eqn:Hn; intros; simplify_eq.
    by eapply loadConfig_networks_ok.
  - intros; simplify_eq. repeat constructor.
Qed.

Lemma known_network_matches st network :
  config_ok (DaemonState.config st) ->
  isKnownNetwork st network = true -> NETWORK_REGEX network = true.
Proof.
  unfold config_ok, isKnownNetwork. intros Hok Hex.
  apply existsb_exists in Hex as (net & Hin & Heq).
  apply String.eqb_eq in Heq. subst network.
  rewrite Forall_forall in Hok. apply Hok. by apply list_elem_of_In.
Qed.

Lemma isValidAddress_empty : isValidAddress "" = false.
Proof. reflexivity. Qed.

Lemma connectSession_body rt data st :
  is_body data ->
  connectSession rt data st =
    if negb (connect_converts data)
    then (Throw TypeError_message, st)
    else if negb (isValidAddress (connect_address data)) ||
            negb (NETWORK_REGEX (connect_network data)) ||
            negb (JS.startsWith "wc:" (connect_uri data))
    then (Throw "network, address, and uri must be provided for WalletConnect.", st)
    else if negb (isKnownNetwork st (connect_network data))
    then (Throw ("Unknown network " +:+ connect_network data +:+ "."), st)
    else (Ok (connected rt data),
          with_sessions st (<[randomUUID rt := connected rt data]>
                              (DaemonState.sessions st))).
Proof.
  intros Hb. unfold connectSession, connected, connect_address, connect_network,
    connect_uri, connect_converts.
  destruct data; try done; unfold_M;
    destruct (String_throws (nullish (prop _ "network") _));
    destruct (String_throws (nullish (prop _ "uri") _));
    cbn [negb andb]; repeat split_if; reflexivity.
Qed.

Lemma connectSession_cases rt data st :
  ((connect_converts data = false \/
    isValidAddress (connect_address data) = false \/
    NETWORK_REGEX (connect_network data) = false \/
    isKnownNetwork st (connect_network data) = false \/
    JS.startsWith "wc:" (connect_uri data) = false) /\
   exists msg, connectSession rt data st = (Throw msg, st)) \/
  (connect_converts data = true /\
   isValidAddress (connect_address data) = true /\
   NETWORK_REGEX (connect_network data) = true /\
   isKnownNetwork st (connect_network data) = true /\
   JS.startsWith "wc:" (connect_uri data) = true /\
   connectSession rt data st =
     (Ok (connected rt data),
      with_sessions st (<[randomUUID rt := connected rt data]>
                          (DaemonState.sessions st)))).
Proof.
  destruct (is_body_dec data) as [Hb|Hb].
  - rewrite (connectSession_body _ _ _ Hb).
    destruct (connect_converts data) eqn:Hc; simpl;
      [|left; split; [tauto | by eexists]].
    destruct (isValidAddress (connect_address data)) eqn:Ha; simpl;
      [|left; split; [tauto | by eexists]].
    destruct (NETWORK_REGEX (connect_network data)) eqn:Hn; simpl;
      [|left; split; [tauto | by eexists]].
    destruct (JS.startsWith "wc:" (connect_uri data)) eqn:Hu; simpl;
      [|left; split; [tauto | by eexists]].
    destruct (isKnownNetwork st (connect_network data)) eqn:Hk; simpl;
      [|left; split; [tauto | by eexists]].
    by right.
  - left. split.
    + right. left. unfold connect_address. by rewrite (prop_not_body _ _ Hb).
    + unfold connectSession. unfold mbind at 1, M_bind.
      destruct (getProp_not_body data "address" st Hb) as [msg ->]. by eexists.
Qed.

(** ** Switching a session *)

Lemma session_id_not_body data :
  ~ is_body data -> JS.is_empty (session_id (prop data "session")) = true.
Proof. intros Hb. by rewrite (prop_not_body _ _ Hb). Qed.

Lemma switchSession_found data st existing :
  JS.is_empty (session_id (prop data "session")) = false ->
  DaemonState.sessions st !! session_id (prop data "session") = Some existing ->
  switchSession data st =
    if truthy (prop data "address") &&
       negb (isValidAddress (nextAddress data existing))
    then (Throw "address must be a valid hex string.", st)
    else if truthy (prop data "network") &&
            negb (isKnownNetwork st (nextNetwork data existing))
    then (Throw ("Unknown network " +:+ nextNetwork data existing +:+ "."), st)
    else (Ok (switched data existing),
          with_sessions st (<[session_id (prop data "session") :=
                               switched data existing]>
                              (DaemonState.sessions st))).
Proof.
  intros Hid Hfound. destruct (is_body_dec data) as [Hb|Hb].
  - unfold switchSession. unfold mbind at 1, M_bind.
    rewrite (getProp_body _ _ _ Hb). unfold_M. rewrite Hfound, Hid.
    fold (nextAddress data existing) (nextNetwork data existing).
    repeat split_if; reflexivity.
  - rewrite (session_id_not_body _ Hb) in Hid. done.
Qed.

Lemma switchSession_not_found data st :
  JS.is_empty (session_id (prop data "session")) = true \/
  DaemonState.sessions st !! session_id (prop data "session") = None ->
  exists msg, switchSession data st = (Throw msg, st).
Proof.
  intros Hid. destruct (is_body_dec data) as [Hb|Hb].
  - unfold switchSession. unfold mbind at 1, M_bind.
    rewrite (getProp_body _ _ _ Hb). unfold_M.
    destruct (DaemonState.sessions st !! _) eqn:Hfound; [|by eexists].
    destruct Hid as [-> | ?]; [by eexists | done].
  - unfold switchSession. unfold mbind at 1, M_bind.
    destruct (getProp_not_body data "session" st Hb) as [msg ->]. by eexists.
Qed.

Lemma disconnectSession_not_found data st :
  JS.is_empty (session_id (prop data "session")) = true \/
  DaemonState.sessions st !! session_id (prop data "session") = None ->
  exists msg, disconnectSession data st = (Throw msg, st).
Proof.
  intros Hid. destruct (is_body_dec data) as [Hb|Hb].
  - unfold disconnectSession. unfold mbind at 1, M_bind.
    rewrite (getProp_body _ _ _ Hb). unfold_M.
    destruct (DaemonState.sessions st !! _) eqn:Hfound; [|by eexists].
    destruct Hid as [-> | ?]; [by eexists | done].
  - unfold disconnectSession. unfold mbind at 1, M_bind.
    destruct (getProp_not_body data "session" st Hb) as [msg ->]. by eexists.
Qed.


(** ** The session store invariant *)

Lemma sessions_ok_insert st k s :
  sessions_ok st -> session_ok st k s ->
  sessions_ok (with_sessions st (<[k := s]> (DaemonState.sessions st))).
Proof. intros Hok Hs. by apply map_Forall_insert_2. Qed.

Lemma connectSession_keeps_ok rt data st :
  sessions_ok st -> sessions_ok (connectSession rt data st).2.
Proof.
  intros Hok.
  destruct (connectSession_cases rt data st)
    as [[_ [msg ->]] | (_ & Ha & _ & Hk & Hu & ->)]; [done|].
  by apply sessions_ok_insert.
Qed.

Lemma switchSession_keeps_ok data st :
  sessions_ok st -> sessions_ok (switchSession data st).2.
Proof.
  intros Hok.
  destruct (JS.is_empty (session_id (prop data "session"))) eqn:Hid.
  { destruct (switchSession_not_found data st) as [msg ->]; [by left | done]. }
  destruct (DaemonState.sessions st !! session_id (prop data "session"))
    as [existing|] eqn:Hfound.
  2: { destruct (switchSession_not_found data st) as [msg ->]; [by right | done]. }
  rewrite (switchSession_found _ _ _ Hid Hfound).
  destruct (Hok _ _ Hfound) as (Hi & Ha & Hn & Hu).
  unfold nextAddress, nextNetwork.
  destruct (truthy (prop data "address")) eqn:Hta;
    destruct (truthy (prop data "network")) eqn:Htn; simpl;
    repeat split_if; simpl; try done;
    apply sessions_ok_insert; try done;
    unfold session_ok, switched, nextAddress, nextNetwork;
    rewrite ?Hta, ?Htn; simpl; split_and!; try done;
    by apply negb_false_iff.
Qed.

Lemma disconnectSession_keeps_ok data st :
  sessions_ok st -> sessions_ok (disconnectSession data st).2.
Proof.
  intros Hok.
  destruct (JS.is_empty (session_id (prop data "session"))) eqn:Hid.
  { destruct (disconnectSession_not_found data st) as [msg ->]; [by left | done]. }
  destruct (DaemonState.sessions st !! session_id (prop data "session"))
    as [existing|] eqn:Hfound.
  2: { destruct (disconnectSession_not_found data st) as [msg ->]; [by right | done]. }
  rewrite (disconnectSession_found _ _ _ Hid Hfound). simpl.
  apply sessions_ok_insert; [done|]. by apply (Hok _ _ Hfound).
Qed.

(** C10. [connectSession], [switchSession] and [disconnectSession] each
    preserve the invariant of the session store: every entry is stored
    under its own id, its address matches the address pattern, its network
    is a loaded network name and its uri starts with [wc:]. *)
Theorem session_store_invariant rt data st :
  sessions_ok st ->
  sessions_ok (connectSession rt data st).2 /\
  sessions_ok (switchSession data st).2 /\
  sessions_ok (disconnectSession data st).2.
Proof.
  intros Hok. split_and!.
  - by apply connectSession_keeps_ok.
  - by apply switchSession_keeps_ok.
  - by apply disconnectSession_keeps_ok.
Qed.

(** ** States the daemon can reach

    The side conditions of the theorems above (loaded names of the EIP-155
    shape, non-empty session ids, entries stored under their own id) hold
    in the state [new DaemonState] builds and are kept by every operation,
    provided [randomUUID] never returns the empty string. *)

Lemma perform_config rt op st :
  DaemonState.config (perform rt op st) = DaemonState.config st.
Proof.
  destruct op as [a n|payload|g|data|data|data]; simpl.
  - unfold getBalance. by destruct (computeMockBalance a n).
  - by destruct (createTransaction_txStore rt payload st)
      as [-> | (r & _ & _ & _ & _ & ->)].
  - destruct (DaemonState.txStore st !! g) as [r|] eqn:Hg.
    + rewrite (getTransactionStatus_known _ _ _ _ Hg).
      destruct (TxRecord.status r); [|done]. by split_if.
    + unfold getTransactionStatus. unfold_M. by rewrite Hg.
  - by destruct (connectSession_cases rt data st)
      as [[_ [msg ->]] | (_ & _ & _ & _ & _ & ->)].
  - destruct (JS.is_empty (session_id (prop data "session"))) eqn:Hid.
    { by destruct (switchSession_not_found data st) as [msg ->]; [left|]. }
    destruct (DaemonState.sessions st !! session_id (prop data "session"))
      as [existing|] eqn:Hfound.
    2: { by destruct (switchSession_not_found data st) as [msg ->]; [right|]. }
    rewrite (switchSession_found _ _ _ Hid Hfound).
    destruct (_ && _); [done|]. by destruct (_ && _).
  - destruct (JS.is_empty (session_id (prop data "session"))) eqn:Hid.
    { by destruct (disconnectSession_not_found data st) as [msg ->]; [left|]. }
    destruct (DaemonState.sessions st !! session_id (prop data "session"))
      as [existing|] eqn:Hfound.
    2: { by destruct (disconnectSession_not_found data st) as [msg ->]; [right|]. }
    by rewrite (disconnectSession_found _ _ _ Hid Hfound).
Qed.

Lemma perform_sessions_ok rt op st :
  sessions_ok st -> sessions_ok (perform rt op st).
Proof.
  intros Hok. destruct op as [a n|payload|g|data|data|data]; simpl.
  - unfold getBalance. by destruct (computeMockBalance a n).
  - by destruct (createTransaction_txStore rt payload st)
      as [-> | (r & _ & _ & _ & _ & ->)].
  - destruct (DaemonState.txStore st !! g) as [r|] eqn:Hg.
    + rewrite (getTransactionStatus_known _ _ _ _ Hg).
      destruct (TxRecord.status r); [|done]. by split_if.
    + unfold getTransactionStatus. unfold_M. by rewrite Hg.
  - by apply connectSession_keeps_ok.
  - by apply switchSession_keeps_ok.
  - by apply disconnectSession_keeps_ok.
Qed.

Lemma perform_session_ids rt op st :
  JS.is_empty (randomUUID rt) = false ->
  (forall k s, DaemonState.sessions st !! k = Some s -> JS.is_empty k = false) ->
  forall k s,
    DaemonState.sessions (perform rt op st) !! k = Some s -> JS.is_empty k = false.
Proof.
  intros Huuid Hids k s.
  destruct op as [a n|payload|g|data|data|data]; simpl.
  - unfold getBalance. destruct (computeMockBalance a n); apply Hids.
  - destruct (createTransaction_txStore rt payload st)
      as [-> | (r & _ & _ & _ & _ & ->)]; apply Hids.
  - destruct (DaemonState.txStore st !! g) as [r|] eqn:Hg.
    + rewrite (getTransactionStatus_known _ _ _ _ Hg).
      destruct (TxRecord.status r); [|apply Hids]. split_if; apply Hids.
    + unfold getTransactionStatus. unfold_M. rewrite Hg. apply Hids.
  - destruct (connectSession_cases rt data st)
      as [[_ [msg ->]] | (_ & _ & _ & _ & _ & ->)]; [apply Hids|]. simpl.
    destruct (decide (randomUUID rt = k)) as [<-|Hne]; [done|].
    rewrite lookup_insert_ne by done. apply Hids.
  - destruct (JS.is_empty (session_id (prop data "session"))) eqn:Hid.
    { destruct (switchSession_not_found data st) as [msg ->];
        [by left | apply Hids]. }
    destruct (DaemonState.sessions st !! session_id (prop data "session"))
      as [existing|] eqn:Hfound.
    2: { destruct (switchSession_not_found data st) as [msg ->];
           [by right | apply Hids]. }
    rewrite (switchSession_found _ _ _ Hid Hfound).
    destruct (_ && _); [apply Hids|]. destruct (_ && _); [apply Hids|]. simpl.
    destruct (decide (session_id (prop data "session") = k)) as [<-|Hne]; [done|].
    rewrite lookup_insert_ne by done. apply Hids.
  - destruct (JS.is_empty (session_id (prop data "session"))) eqn:Hid.
    { destruct (disconnectSession_not_found data st) as [msg ->];
        [by left | apply Hids]. }
    destruct (DaemonState.sessions st !! session_id (prop data "session"))
      as [existing|] eqn:Hfound.
    2: { destruct (disconnectSession_not_found data st) as [msg ->];
           [by right | apply Hids]. }
    rewrite (disconnectSession_found _ _ _ Hid Hfound). simpl.
    destruct (decide (session_id (prop data "session") = k)) as [<-|Hne]; [done|].
    rewrite lookup_insert_ne by done. apply Hids.
Qed.

Lemma reachable_state_ok file st0 ops :
  new_DaemonState file = inr st0 ->
  Forall (fun '(rt, _) => JS.is_empty (randomUUID rt) = false) ops ->
  let st := perform_all ops st0 in
  config_ok (DaemonState.config st) /\
  sessions_ok st /\
  (forall k s, DaemonState.sessions st !! k = Some s -> JS.is_empty k = false).
Proof.
  unfold new_DaemonState. destruct (loadConfig file) as [|config] eqn:Hload; [done|].
  intros [= <-] Huuids.
  assert (Hinit :
    config_ok (DaemonState.config (DaemonState.mk config ∅ ∅)) /\
    sessions_ok (DaemonState.mk config ∅ ∅) /\
    (forall k s, DaemonState.sessions (DaemonState.mk config ∅ ∅) !! k = Some s ->
                 JS.is_empty k = false)).
  { split_and!; [by eapply loadConfig_ok | apply map_Forall_empty |].
    intros k s. simpl. by rewrite lookup_empty. }
  revert Hinit. generalize (DaemonState.mk config ∅ ∅).
  induction Huuids as [|[rt op] rest Hrt _ IH]; intros st Hst; [done|].
  simpl. apply IH. destruct Hst as (Hc & Hs & Hi).
  split_and!.
  - by rewrite perform_config.
  - by apply perform_sessions_ok.
  - by apply perform_session_ids.
Qed.

(** ** Validation of a transaction payload *)

(** C5. [createTransaction] does not reject every payload whose [to] is
    present and is not a valid address: on the default configuration the
    payload [{network: "eip155:1", from: "0x1111...1111", to: "   "}] is
    accepted, and the record stored under the new guid keeps the blank [to].
    [validateTransactionPayload] tests the trimmed [to] for presence, so a
    [to] that trims to the empty string skips the address check;
    [switchSession] rejects the same blank address. *)
Theorem createTransaction_accepts_blank_to :
  typeof (prop blank_to_payload "to") = TString /\
  truthy (prop blank_to_payload "to") = true /\
  isValidAddress (ToString (prop blank_to_payload "to")) = false /\
  isValidAddress (normalizeAddress (prop blank_to_payload "to")) = false /\
  createTransaction sample_runtime blank_to_payload initial_state =
    (Ok (TxRecord.mk (spread blank_to_payload) (randomUUID sample_runtime)
                     PENDING (Date_now sample_runtime)),
     DaemonState.mk DEFAULT_CONFIG
       (<[randomUUID sample_runtime :=
            TxRecord.mk (spread blank_to_payload) (randomUUID sample_runtime)
                        PENDING (Date_now sample_runtime)]> ∅) ∅) /\
  lookup_prop "to" (spread blank_to_payload) = JStr "   " /\
  switchSession
    (JObj [("session", JStr (randomUUID sample_runtime)); ("address", JStr "   ")])
    connected_state =
    (Throw "address must be a valid hex string.", connected_state).
Proof. split_and!; reflexivity. Qed.

(** ** More facts about [trim] and the network pattern *)

Module TrimFacts.
Import JS JSFacts.

Lemma trimStart_head s :
  trimStart s = "" \/ exists c t, trimStart s = String c t /\ is_ws c = false.
Proof.
  induction s as [|c s IH]; simpl; [by left|].
  destruct (is_ws c) eqn:Hc; [done|]. right. by exists c, s.
Qed.

Lemma trimEnd_idem s : trimEnd (trimEnd s) = trimEnd s.
Proof.
  induction s as [|c s IH]; simpl; [done|].
  destruct (is_ws c && is_empty (trimEnd s)) eqn:Hc; [done|].
  simpl. by rewrite IH, Hc.
Qed.

Lemma trim_idem s : trim (trim s) = trim s.
Proof.
  unfold trim. destruct (trimStart_head s) as [-> | (c & t & -> & Hc)]; [done|].
  simpl. rewrite Hc. simpl. rewrite Hc. simpl. by rewrite trimEnd_idem, Hc.
Qed.

Lemma ci_match_not_ws a c :
  Ascii.eqb (lower a) (lower c) = true -> is_ws (lower a) = false ->
  is_ws c = false.
Proof.
  rewrite Ascii.eqb_eq. intros ->. unfold is_ws.
  rewrite BalanceFacts.code_lower.
  destruct ((65 <=? code c)%N && (code c <=? 90)%N) eqn:H; intros Hw; char_lia.
Qed.

Lemma pattern_no_ws name :
  NETWORK_NAME_PATTERN name = true ->
  all_chars (fun c => negb (is_ws c)) name = true.
Proof.
  unfold NETWORK_NAME_PATTERN.
  destruct (strip_prefix_ci "eip155:" name) as [d|] eqn:E; [|done].
  rewrite andb_true_iff, negb_true_iff. intros [Hne Hd].
  destruct name as [|c1 [|c2 [|c3 [|c4 [|c5 [|c6 [|c7 rest]]]]]]];
    try (cbn [strip_prefix_ci] in E;
         repeat match type of E with
                | (if ?c then _ else _) = _ => destruct c
                end; discriminate).
  apply BalanceFacts.strip_prefix_ci_cons in E as [E1 E].
  apply BalanceFacts.strip_prefix_ci_cons in E as [E2 E].
  apply BalanceFacts.strip_prefix_ci_cons in E as [E3 E].
  apply BalanceFacts.strip_prefix_ci_cons in E as [E4 E].
  apply BalanceFacts.strip_prefix_ci_cons in E as [E5 E].
  apply BalanceFacts.strip_prefix_ci_cons in E as [E6 E].
  apply BalanceFacts.strip_prefix_ci_cons in E as [E7 E].
  cbn [strip_prefix_ci] in E. injection E as ->.
  apply ci_match_not_ws in E1, E2, E3, E4, E5, E6, E7; try reflexivity.
  cbn [all_chars]. rewrite E1, E2, E3, E4, E5, E6, E7. simpl.
  revert Hd. apply all_chars_impl. intros c Hc. by rewrite (digit_not_ws c Hc).
Qed.

Lemma pattern_trimmed name : NETWORK_NAME_PATTERN name = true -> trim name = name.
Proof. intros H. by apply trim_no_ws, pattern_no_ws. Qed.

End TrimFacts.

(** ** Spellings of an address *)

Module CaseFacts.
Import JS JSFacts.

Lemma hex_value_lower c :
  is_hex c = true -> Spec.hex_digit_value (lower c) = Spec.hex_digit_value c.
Proof.
  intros Hc. unfold lower.
  destruct ((65 <=? code c)%N && (code c <=? 90)%N) eqn:Hu; [|done].
  assert (Hcode : code (ascii_of_N (code c + 32)) = (code c + 32)%N)
    by (apply code_of_N; char_lia).
  unfold Spec.hex_digit_value, is_digit, is_lower_hex. rewrite Hcode.
  assert ((48 <=? code c)%N && (code c <=? 57)%N = false) as -> by char_lia.
  assert ((97 <=? code c)%N && (code c <=? 102)%N = false) as -> by char_lia.
  assert ((48 <=? code c + 32)%N && (code c + 32 <=? 57)%N = false) as ->
    by char_lia.
  assert ((97 <=? code c + 32)%N && (code c + 32 <=? 102)%N = true) as ->
    by char_lia.
  lia.
Qed.

Lemma hex_value_ignores_case c c' :
  is_hex c = true -> is_hex c' = true ->
  Ascii.eqb (lower c) (lower c') = true ->
  Spec.hex_digit_value c = Spec.hex_digit_value c'.
Proof.
  intros Hc Hc' Heq. apply Ascii.eqb_eq in Heq.
  by rewrite <- (hex_value_lower c Hc), <- (hex_value_lower c' Hc'), Heq.
Qed.

Lemma eqb_ignoring_case_length s : forall s',
  eqb_ignoring_case s s' = true -> String.length s = String.length s'.
Proof.
  induction s as [|c s IH]; intros [|c' s']; simpl; try done.
  rewrite andb_true_iff. intros [_ H]. by rewrite (IH _ H).
Qed.

Lemma unsigned_of_hex_ignores_case s : forall s',
  all_chars is_hex s = true -> all_chars is_hex s' = true ->
  eqb_ignoring_case s s' = true ->
  Spec.unsigned_of_hex s = Spec.unsigned_of_hex s'.
Proof.
  induction s as [|c s IH]; intros [|c' s']; simpl; try done.
  rewrite !andb_true_iff. intros [Hc Hs] [Hc' Hs'] [Heq Hrest].
  rewrite (hex_value_ignores_case c c' Hc Hc' Heq), (IH _ Hs Hs' Hrest).
  by rewrite (eqb_ignoring_case_length _ _ Hrest).
Qed.

Lemma eqb_ignoring_case_substring s : forall s' n m,
  eqb_ignoring_case s s' = true ->
  eqb_ignoring_case (String.substring n m s) (String.substring n m s') = true.
Proof.
  induction s as [|c s IH]; intros [|c' s'] [|n] [|m]; simpl; try done;
    rewrite ?andb_true_iff; intros [Hc Hs]; auto.
Qed.

End CaseFacts.

(** X7. The balance does not depend on the letter case of the address: two
    valid addresses that differ only in the case of their hex digits (a
    checksummed and a lower-case spelling) get the same [balanceEth] on the
    same network. *)
Theorem balance_ignores_letter_case rt address address' network st :
  isValidAddress address = true -> isValidAddress address' = true ->
  NETWORK_REGEX network = true ->
  eqb_ignoring_case address address' = true ->
  balance_of (getBalance rt address network st).1 =
  balance_of (getBalance rt address' network st).1.
Proof.
  intros Ha Ha' Hn Heq. rewrite !getBalance_valid by done. simpl. f_equal.
  unfold Spec.balanceEth, Spec.thousandths. do 3 f_equal.
  destruct (BalanceFacts.valid_address_shape _ Ha) as (r & -> & Hr & _).
  destruct (BalanceFacts.valid_address_shape _ Ha') as (r' & -> & Hr' & _).
  change (String.substring 2 8 (String "0" (String "x" r)))
    with (String.substring 0 8 r).
  change (String.substring 2 8 (String "0" (String "x" r')))
    with (String.substring 0 8 r').
  cbn [eqb_ignoring_case] in Heq. rewrite !andb_true_iff in Heq.
  destruct Heq as (_ & _ & Heq).
  apply CaseFacts.unsigned_of_hex_ignores_case.
  - by apply JSFacts.all_chars_substring.
  - by apply JSFacts.all_chars_substring.
  - by apply CaseFacts.eqb_ignoring_case_substring.
Qed.

(** ** Properties of an object *)

Lemma lookup_assign_eq k v props : lookup_prop k (assign_prop k v props) = v.
Proof.
  induction props as [|[k' v'] rest IH]; simpl.
  - by rewrite String.eqb_refl.
  - destruct (String.eqb k' k) eqn:E; simpl; [by rewrite String.eqb_refl|].
    by rewrite E.
Qed.

Lemma lookup_assign_ne k k' v props :
  k <> k' -> lookup_prop k' (assign_prop k v props) = lookup_prop k' props.
Proof.
  intros Hne. induction props as [|[k0 v0] rest IH]; simpl.
  - by apply String.eqb_neq in Hne as ->.
  - destruct (String.eqb k0 k) eqn:E; simpl.
    + apply String.eqb_eq in E as ->. by apply String.eqb_neq in Hne as ->.
    + by rewrite IH.
Qed.

Lemma assign_lookup k v props :
  lookup_prop k props = v -> v <> JUndefined -> assign_prop k v props = props.
Proof.
  intros Hv Hne. induction props as [|[k0 v0] rest IH]; simpl in *; [done|].
  destruct (String.eqb k0 k) eqn:E.
  - apply String.eqb_eq in E. by subst.
  - by rewrite IH.
Qed.

(** ** What a validated payload is *)

Lemma guard_passes a b : negb a || b = true -> a && negb b = false.
Proof. by destruct a, b. Qed.

Lemma validate_object props st :
  payload_valid st props = true ->
  validateTransactionPayload (JObj props) st = (Ok (JObj (normalized props)), st).
Proof.
  unfold payload_valid. rewrite !andb_true_iff.
  intros ((((((((H1 & H2) & H3) & H4) & H5) & H6) & H7) & H8) & H9).
  unfold validateTransactionPayload. cbn [truthy typeof jstype_eqb negb orb prop].
  unfold_M.
  fold (payload_network props) (payload_from props)
    (payload_address "to" props) (payload_address "contract" props).
  rewrite H1, H2, H3. cbn [negb orb].
  rewrite (guard_passes _ _ H4), (guard_passes _ _ H5), (guard_passes _ _ H8).
  assert (negb (is_undefined (lookup_prop "nonce" props)) &&
          match lookup_prop "nonce" props with
          | JNum n => negb (Number_isFinite n) || Number_negative n
          | _ => true
          end = false) as ->.
  { destruct (lookup_prop "nonce" props) as [| | |n| | |]; try done.
    simpl in *. by destruct (Number_isFinite n), (Number_negative n). }
  assert (negb (is_undefined (lookup_prop "value" props)) &&
          negb (jstype_eqb (typeof (lookup_prop "value" props)) TString) = false)
    as ->.
  { by destruct (lookup_prop "value" props). }
  assert (truthy (lookup_prop "gasPrice" props) &&
          negb (jstype_eqb (typeof (lookup_prop "gasPrice" props)) TString) = false)
    as ->.
  { by apply guard_passes. }
  unfold normalized, set_prop.
  by destruct (given (payload_address "to" props)),
       (given (payload_address "contract" props)).
Qed.

Lemma validate_ok payload st validated st' :
  validateTransactionPayload payload st = (Ok validated, st') ->
  exists props,
    payload = JObj props /\ payload_valid st props = true /\
    validated = JObj (normalized props) /\ st' = st.
Proof.
  intros H. destruct (validate_ok_is_object _ _ _ _ H) as [props ->].
  exists props. destruct (payload_valid st props) eqn:Hv.
  - rewrite (validate_object _ _ Hv) in H. by simplify_eq.
  - exfalso. revert H. unfold payload_valid in Hv.
    unfold validateTransactionPayload. cbn [truthy typeof jstype_eqb negb orb prop].
    unfold_M.
    fold (payload_network props) (payload_from props)
      (payload_address "to" props) (payload_address "contract" props).
    destruct (NETWORK_REGEX (payload_network props)); [|done].
    destruct (isKnownNetwork st (payload_network props)); [|done].
    destruct (isValidAddress (payload_from props)); [|done].
    cbn [negb orb andb] in *.
    destruct (given (payload_address "to" props));
      [destruct (isValidAddress (default "" (payload_address "to" props)));
       [|done]|];
      (destruct (given (payload_address "contract" props));
         [destruct (isValidAddress (default "" (payload_address "contract" props)));
          [|done]|]);
      cbn [negb orb andb] in *;
      (destruct (lookup_prop "nonce" props) as [| | |n| | |];
         try done; cbn [is_undefined negb orb andb] in *;
         try (destruct (Number_isFinite n); [|done];
              destruct (Number_negative n); [done|]);
         cbn [negb orb andb] in *;
         (destruct (lookup_prop "value" props); try done;
            cbn [is_undefined typeof jstype_eqb negb orb andb] in *;
            (destruct (truthy (lookup_prop "data" props));
               [destruct (HEX_DATA_REGEX (ToString (lookup_prop "data" props)));
                [|done]|];
               cbn [negb orb andb] in *;
               (destruct (truthy (lookup_prop "gasPrice" props));
                  [destruct (jstype_eqb (typeof (lookup_prop "gasPrice" props))
                                        TString); [|done]|];
                  cbn [negb orb andb] in *; done)))).
Qed.

Lemma createTransaction_ok rt payload st record st' :
  createTransaction rt payload st = (Ok record, st') ->
  exists props,
    payload = JObj props /\ payload_valid st props = true /\
    record = TxRecord.mk (normalized props) (randomUUID rt) PENDING (Date_now rt) /\
    st' = DaemonState.mk (DaemonState.config st)
            (<[randomUUID rt := record]> (DaemonState.txStore st))
            (DaemonState.sessions st).
Proof.
  unfold createTransaction. unfold_M.
  destruct (validateTransactionPayload payload st) as [[validated|msg] st1] eqn:Hv;
    [|done].
  destruct (validate_ok _ _ _ _ Hv) as (props & -> & Hvalid & -> & ->).
  intros [= <- <-]. by exists props.
Qed.

(** The lookups of the properties of a normalized payload. *)
Ltac through_assign :=
  rewrite ?lookup_assign_eq;
  repeat (rewrite lookup_assign_ne by discriminate);
  rewrite ?lookup_assign_eq.

Lemma normalized_network props :
  lookup_prop "network" (normalized props) = JStr (payload_network props).
Proof.
  unfold normalized.
  destruct (given (payload_address "to" props)),
    (given (payload_address "contract" props)); by through_assign.
Qed.

Lemma normalized_from props :
  lookup_prop "from" (normalized props) = JStr (payload_from props).
Proof.
  unfold normalized.
  destruct (given (payload_address "to" props)),
    (given (payload_address "contract" props)); by through_assign.
Qed.

Lemma normalized_to props :
  lookup_prop "to" (normalized props) =
    if given (payload_address "to" props)
    then JStr (default "" (payload_address "to" props))
    else lookup_prop "to" props.
Proof.
  unfold normalized.
  destruct (given (payload_address "to" props)),
    (given (payload_address "contract" props)); by through_assign.
Qed.

Lemma normalized_contract props :
  lookup_prop "contract" (normalized props) =
    if given (payload_address "contract" props)
    then JStr (default "" (payload_address "contract" props))
    else lookup_prop "contract" props.
Proof.
  unfold normalized.
  destruct (given (payload_address "to" props)),
    (given (payload_address "contract" props)); by through_assign.
Qed.

Lemma normalized_other k props :
  k <> "network" -> k <> "from" -> k <> "to" -> k <> "contract" ->
  lookup_prop k (normalized props) = lookup_prop k props.
Proof.
  intros H1 H2 H3 H4. unfold normalized.
  destruct (given (payload_address "to" props)),
    (given (payload_address "contract" props));
    by rewrite ?lookup_assign_ne by done.
Qed.

(** An address property that was not given is not a string with an address
    in it. *)
Lemma not_given_blank k props s :
  given (payload_address k props) = false ->
  lookup_prop k props = JStr s -> JS.is_empty (JS.trim s) = true.
Proof.
  unfold payload_address. intros Hg Hs. rewrite Hs in Hg. simpl in Hg.
  destruct s as [|c s]; [done|]. simpl in Hg. by apply negb_false_iff in Hg.
Qed.

Lemma given_address k props :
  given (payload_address k props) = true ->
  exists s, lookup_prop k props = JStr s /\
            payload_address k props = Some (JS.trim s) /\
            JS.is_empty (JS.trim s) = false.
Proof.
  unfold payload_address. destruct (truthy (lookup_prop k props)) eqn:Ht; [|done].
  simpl. destruct (lookup_prop k props) as [| | | |s| |]; try done.
  simpl. intros Hg. exists s. split_and!; [done..|]. by apply negb_true_iff.
Qed.

Lemma normalized_ok st props :
  payload_valid st props = true -> request_ok st (normalized props).
Proof.
  unfold payload_valid. rewrite !andb_true_iff.
  intros ((((((((H1 & H2) & H3) & H4) & H5) & H6) & H7) & H8) & H9).
  unfold request_ok.
  rewrite normalized_network, normalized_from, normalized_to, normalized_contract.
  rewrite !normalized_other by discriminate.
  split_and!.
  - by eexists.
  - by eexists.
  - intros to Hto Hne.
    destruct (given (payload_address "to" props)) eqn:Hg.
    + simplify_eq. exact H4.
    + by rewrite (not_given_blank _ _ _ Hg Hto) in Hne.
  - intros contract Hc Hne.
    destruct (given (payload_address "contract" props)) eqn:Hg.
    + simplify_eq. exact H5.
    + by rewrite (not_given_blank _ _ _ Hg Hc) in Hne.
  - destruct (lookup_prop "nonce" props) as [| | |n| | |]; try done; [by left|].
    right. exists n. simpl in H6. apply andb_true_iff in H6 as [Hf Hn].
    by apply negb_true_iff in Hn.
  - destruct (lookup_prop "value" props) as [| | | |v| |]; try done; [by left|].
    right. by exists v.
  - intros Ht. by rewrite Ht in H8.
  - intros Ht. rewrite Ht in H9. simpl in H9.
    destruct (lookup_prop "gasPrice" props) as [| | | |g| |]; try done. by exists g.
Qed.

Lemma request_ok_config st st' props :
  DaemonState.config st' = DaemonState.config st ->
  request_ok st props -> request_ok st' props.
Proof.
  intros Hc ((n & Hn & Hre & Hk) & Hrest). split; [|done].
  exists n. split_and!; [done..|]. unfold isKnownNetwork in *. by rewrite Hc.
Qed.

Lemma txStore_ok_insert st k r :
  txStore_ok st -> record_ok st k r ->
  txStore_ok (DaemonState.mk (DaemonState.config st)
                (<[k := r]> (DaemonState.txStore st)) (DaemonState.sessions st)).
Proof.
  intros Hok Hr. apply map_Forall_insert_2.
  - destruct Hr as [Hg Hreq]. split; [done|]. by eapply request_ok_config.
  - intros k' r' Hr'. destruct (Hok _ _ Hr') as [Hg Hreq].
    split; [done|]. by eapply request_ok_config.
Qed.

Lemma txStore_ok_sessions st st' :
  DaemonState.config st' = DaemonState.config st ->
  DaemonState.txStore st' = DaemonState.txStore st ->
  txStore_ok st -> txStore_ok st'.
Proof.
  intros Hc Ht Hok. unfold txStore_ok. rewrite Ht.
  intros k r Hr. destruct (Hok _ _ Hr) as [Hg Hreq].
  split; [done|]. by eapply request_ok_config.
Qed.

Lemma perform_txStore_ok rt op st : txStore_ok st -> txStore_ok (perform rt op st).
Proof.
  intros Hok. destruct op as [a n|payload|g|data|data|data]; simpl.
  - unfold getBalance. by destruct (computeMockBalance a n).
  - destruct (createTransaction rt payload st) as [[record|msg] st'] eqn:Hc.
    + destruct (createTransaction_ok _ _ _ _ _ Hc) as (props & -> & Hv & -> & ->).
      apply txStore_ok_insert; [done|]. split; [done|]. by apply normalized_ok.
    + by rewrite (createTransaction_throw _ _ _ _ _ Hc).
  - destruct (DaemonState.txStore st !! g) as [r|] eqn:Hg.
    + rewrite (getTransactionStatus_known _ _ _ _ Hg).
      destruct (TxRecord.status r); [|done]. split_if; [|done].
      simpl. apply txStore_ok_insert; [done|]. apply (Hok _ _ Hg).
    + unfold getTransactionStatus. unfold_M. by rewrite Hg.
  - apply (txStore_ok_sessions st); [|by apply session_ops_keep_txStore|done].
    apply (perform_config rt (ConnectSession data)).
  - apply (txStore_ok_sessions st); [|by apply session_ops_keep_txStore|done].
    apply (perform_config rt (SwitchSession data)).
  - apply (txStore_ok_sessions st); [|by apply session_ops_keep_txStore|done].
    apply (perform_config rt (DisconnectSession data)).
Qed.

(** X1. Every record in the transaction store of a daemon built by
    [new DaemonState], after any sequence of operations, is stored under its
    own guid and holds a request that [validateTransactionPayload] accepted:
    its [network] is a loaded name of the EIP-155 shape, its [from] is a
    valid address, its [to] and [contract] are valid addresses unless they
    are blank or not strings, its [nonce] is absent or a finite number that
    is not negative, its [value] is absent or a string, its [data], when
    truthy, matches the hex pattern and its [gasPrice], when truthy, is a
    string. *)
Theorem stored_records_are_validated file st0 ops :
  new_DaemonState file = inr st0 ->
  txStore_ok (perform_all ops st0).
Proof.
  unfold new_DaemonState. destruct (loadConfig file) as [|config]; [done|].
  intros [= <-].
  assert (Hinit : txStore_ok (DaemonState.mk config ∅ ∅)) by apply map_Forall_empty.
  revert Hinit. generalize (DaemonState.mk config ∅ ∅).
  induction ops as [|[rt op] rest IH]; intros st Hst; [done|].
  simpl. by apply IH, perform_txStore_ok.
Qed.

(** X2. Validation is idempotent: a payload that passed comes out normalized,
    and the normalized payload passes again and comes out as it is. *)
Theorem validateTransactionPayload_idempotent payload st validated st' :
  validateTransactionPayload payload st = (Ok validated, st') ->
  validateTransactionPayload validated st = (Ok validated, st).
Proof.
  intros H. destruct (validate_ok _ _ _ _ H) as (props & -> & Hv & -> & ->).
  assert (Hn : payload_network (normalized props) = payload_network props).
  { unfold payload_network at 1. rewrite normalized_network. simpl.
    unfold payload_network. apply TrimFacts.trim_idem. }
  assert (Hf : payload_from (normalized props) = payload_from props).
  { unfold payload_from at 1. rewrite normalized_from. simpl.
    unfold payload_from, normalizeAddress.
    destruct (lookup_prop "from" props); try done. apply TrimFacts.trim_idem. }
  assert (Ha : forall k, k = "to" \/ k = "contract" ->
            payload_address k (normalized props) = payload_address k props).
  { intros k Hk. unfold payload_address at 1.
    assert (lookup_prop k (normalized props) =
            if given (payload_address k props)
            then JStr (default "" (payload_address k props))
            else lookup_prop k props) as ->.
    { destruct Hk as [-> | ->]; [apply normalized_to | apply normalized_contract]. }
    destruct (given (payload_address k props)) eqn:Hg; [|done].
    destruct (given_address _ _ Hg) as (s & Hs & -> & Hne). simpl.
    by rewrite Hne, TrimFacts.trim_idem. }
  assert (Hv' : payload_valid st (normalized props) = true).
  { revert Hv. unfold payload_valid.
    rewrite Hn, Hf, !Ha by tauto.
    by rewrite !normalized_other by discriminate. }
  rewrite (validate_object _ _ Hv'). do 2 f_equal.
  unfold normalized at 1. rewrite Hn, Hf, !Ha by tauto.
  assert (Hto : (if given (payload_address "to" props)
                 then assign_prop "to"
                        (JStr (default "" (payload_address "to" props)))
                        (normalized props)
                 else normalized props) = normalized props).
  { destruct (given (payload_address "to" props)) eqn:Hg; [|done].
    apply assign_lookup; [|done]. by rewrite normalized_to, Hg. }
  assert (Hco : (if given (payload_address "contract" props)
                 then assign_prop "contract"
                        (JStr (default "" (payload_address "contract" props)))
                        (normalized props)
                 else normalized props) = normalized props).
  { destruct (given (payload_address "contract" props)) eqn:Hg; [|done].
    apply assign_lookup; [|done]. by rewrite normalized_contract, Hg. }
  rewrite (assign_lookup "network" _ (normalized props))
    by (by rewrite ?normalized_network).
  rewrite (assign_lookup "from" _ (normalized props))
    by (by rewrite ?normalized_from).
  by rewrite Hto, Hco.
Qed.

(** ** What one operation does to the two stores *)

Lemma perform_txStore_cases rt op st :
  DaemonState.txStore (perform rt op st) = DaemonState.txStore st \/
  exists k r,
    DaemonState.txStore (perform rt op st) = <[k := r]> (DaemonState.txStore st).
Proof.
  destruct op as [a n|payload|g|data|data|data]; simpl.
  - left. unfold getBalance. by destruct (computeMockBalance a n).
  - destruct (createTransaction_txStore rt payload st)
      as [-> | (r & _ & _ & _ & _ & ->)]; [by left|]. right. by eexists _, _.
  - destruct (DaemonState.txStore st !! g) as [r|] eqn:Hg.
    + rewrite (getTransactionStatus_known _ _ _ _ Hg).
      destruct (TxRecord.status r); [|by left].
      split_if; [|by left]. right. by eexists _, _.
    + left. unfold getTransactionStatus. unfold_M. by rewrite Hg.
  - left. apply (proj1 (session_ops_keep_txStore rt data st)).
  - left. apply (proj1 (proj2 (session_ops_keep_txStore rt data st))).
  - left. apply (proj2 (proj2 (session_ops_keep_txStore rt data st))).
Qed.

(** A session operation leaves the session store as it is, adds the session
    that [connectSession] built under the identifier drawn, or replaces a
    stored session by one that differs in address and network (a switch) or
    in status, which is then [DISCONNECTED]. *)
Lemma perform_sessions_cases rt op st :
  DaemonState.sessions (perform rt op st) = DaemonState.sessions st \/
  (exists data,
     op = ConnectSession data /\
     DaemonState.sessions (perform rt op st) =
       <[randomUUID rt := connected rt data]> (DaemonState.sessions st)) \/
  (exists id existing updated,
     DaemonState.sessions st !! id = Some existing /\
     DaemonState.sessions (perform rt op st) =
       <[id := updated]> (DaemonState.sessions st) /\
     WalletConnectSession.id updated = WalletConnectSession.id existing /\
     WalletConnectSession.uri updated = WalletConnectSession.uri existing /\
     WalletConnectSession.connectedAt updated =
       WalletConnectSession.connectedAt existing /\
     (WalletConnectSession.status updated = WalletConnectSession.status existing \/
      WalletConnectSession.status updated = DISCONNECTED)).
Proof.
  destruct op as [a n|payload|g|data|data|data]; simpl.
  - left. unfold getBalance. by destruct (computeMockBalance a n).
  - left. by destruct (createTransaction_txStore rt payload st)
      as [-> | (r & _ & _ & _ & _ & ->)].
  - left. destruct (DaemonState.txStore st !! g) as [r|] eqn:Hg.
    + rewrite (getTransactionStatus_known _ _ _ _ Hg).
      destruct (TxRecord.status r); [|done]. by split_if.
    + unfold getTransactionStatus. unfold_M. by rewrite Hg.
  - destruct (connectSession_cases rt data st)
      as [[_ [msg ->]] | (_ & _ & _ & _ & _ & ->)]; [by left|].
    right. left. by exists data.
  - destruct (JS.is_empty (session_id (prop data "session"))) eqn:Hid.
    { left. by destruct (switchSession_not_found data st) as [msg ->]; [left|]. }
    destruct (DaemonState.sessions st !! session_id (prop data "session"))
      as [existing|] eqn:Hfound.
    2: { left. by destruct (switchSession_not_found data st) as [msg ->]; [right|]. }
    rewrite (switchSession_found _ _ _ Hid Hfound).
    destruct (_ && _); [by left|]. destruct (_ && _); [by left|].
    right. right. eexists _, existing, (switched data existing).
    split_and!; try done. by left.
  - destruct (JS.is_empty (session_id (prop data "session"))) eqn:Hid.
    { left. by destruct (disconnectSession_not_found data st) as [msg ->]; [left|]. }
    destruct (DaemonState.sessions st !! session_id (prop data "session"))
      as [existing|] eqn:Hfound.
    2: { left.
         by destruct (disconnectSession_not_found data st) as [msg ->]; [right|]. }
    rewrite (disconnectSession_found _ _ _ Hid Hfound).
    right. right. eexists _, existing, (with_status existing DISCONNECTED).
    split_and!; try done. by right.
Qed.

(** ** Connecting a session

    Every key of the session store of a run was returned by [randomUUID] to
    one of its [connectSession] calls, or was in the store at the start. *)




(** X3. No operation removes an entry of a store: along any sequence of
    operations the keys of the transaction store and the keys of the session
    store only grow. *)
Theorem stores_only_grow ops st :
  dom (DaemonState.txStore st) ⊆ dom (DaemonState.txStore (perform_all ops st)) /\
  dom (DaemonState.sessions st) ⊆ dom (DaemonState.sessions (perform_all ops st)).
Proof.
  revert st. induction ops as [|[rt op] rest IH]; intros st; simpl; [done|].
  destruct (IH (perform rt op st)) as [IHt IHs]. split.
  - etrans; [|exact IHt].
    destruct (perform_txStore_cases rt op st) as [-> | (k & r & ->)]; [done|].
    apply dom_insert_subseteq.
  - etrans; [|exact IHs].
    destruct (perform_sessions_cases rt op st)
      as [-> | [(data & _ & ->) | (id & e & u & _ & -> & _)]]; [done|..];
      apply dom_insert_subseteq.
Qed.

(** X4. Requests keep to their own store: an operation on sessions leaves
    the transaction store as it is, an operation on transactions leaves the
    session store as it is, a balance query leaves both, and no operation
    changes the configuration. *)
Theorem operations_keep_to_their_store rt op st :
  DaemonState.config (perform rt op st) = DaemonState.config st /\
  match op with
  | GetBalance _ _ => perform rt op st = st
  | CreateTransaction _ | GetTransactionStatus _ =>
      DaemonState.sessions (perform rt op st) = DaemonState.sessions st
  | ConnectSession _ | SwitchSession _ | DisconnectSession _ =>
      DaemonState.txStore (perform rt op st) = DaemonState.txStore st
  end.
Proof.
  split; [apply perform_config|].
  destruct op as [a n|payload|g|data|data|data]; simpl.
  - unfold getBalance. by destruct (computeMockBalance a n).
  - by destruct (createTransaction_txStore rt payload st)
      as [-> | (r & _ & _ & _ & _ & ->)].
  - destruct (DaemonState.txStore st !! g) as [r|] eqn:Hg.
    + rewrite (getTransactionStatus_known _ _ _ _ Hg).
      destruct (TxRecord.status r); [|done]. by split_if.
    + unfold getTransactionStatus. unfold_M. by rewrite Hg.
  - apply (proj1 (session_ops_keep_txStore rt data st)).
  - apply (proj1 (proj2 (session_ops_keep_txStore rt data st))).
  - apply (proj2 (proj2 (session_ops_keep_txStore rt data st))).
Qed.

Lemma perform_disconnected rt op st k s :
  session_id_fresh rt op st ->
  DaemonState.sessions st !! k = Some s ->
  WalletConnectSession.status s = DISCONNECTED ->
  exists s',
    DaemonState.sessions (perform rt op st) !! k = Some s' /\
    WalletConnectSession.status s' = DISCONNECTED /\
    WalletConnectSession.id s' = WalletConnectSession.id s /\
    WalletConnectSession.uri s' = WalletConnectSession.uri s /\
    WalletConnectSession.connectedAt s' = WalletConnectSession.connectedAt s.
Proof.
  intros Hfresh Hs Hd.
  destruct (perform_sessions_cases rt op st)
    as [-> | [(data & -> & ->) | (id & e & u & He & -> & Hi & Hu & Hc & Hst)]].
  - by exists s.
  - exists s. simpl in Hfresh. rewrite lookup_insert_ne by congruence. done.
  - destruct (decide (id = k)) as [->|Hne].
    + exists u. rewrite lookup_insert_eq. simplify_eq.
      split_and!; try done. destruct Hst; congruence.
    + exists s. by rewrite lookup_insert_ne.
Qed.

(** X5. A disconnected session is never connected again: along any sequence
    of operations in which [randomUUID] does not return the identifier of a
    stored session, a session whose status is [DISCONNECTED] stays in the
    store with that status, and with its id, uri and connection time. *)
Theorem disconnected_session_stays_disconnected ops : forall st k s,
  session_ids_fresh ops st ->
  DaemonState.sessions st !! k = Some s ->
  WalletConnectSession.status s = DISCONNECTED ->
  exists s',
    DaemonState.sessions (perform_all ops st) !! k = Some s' /\
    WalletConnectSession.status s' = DISCONNECTED /\
    WalletConnectSession.id s' = WalletConnectSession.id s /\
    WalletConnectSession.uri s' = WalletConnectSession.uri s /\
    WalletConnectSession.connectedAt s' = WalletConnectSession.connectedAt s.
Proof.
  induction ops as [|[rt op] rest IH]; intros st k s Hfresh Hs Hd; simpl in *.
  - by exists s.
  - destruct Hfresh as [Hf Hrest].
    destruct (perform_disconnected rt op st k s Hf Hs Hd)
      as (s1 & Hs1 & Hd1 & Hi1 & Hu1 & Hc1).
    destruct (IH _ k s1 Hrest Hs1 Hd1) as (s2 & Hs2 & Hd2 & Hi2 & Hu2 & Hc2).
    exists s2. split_and!; [done..| congruence | congruence | congruence].
Qed.

(** X6. A switch request that gives neither an address nor a network leaves
    the state as it is and returns the stored session. *)
Theorem switchSession_nothing_given data st existing :
  JS.is_empty (session_id (prop data "session")) = false ->
  DaemonState.sessions st !! session_id (prop data "session") = Some existing ->
  truthy (prop data "address") = false ->
  truthy (prop data "network") = false ->
  switchSession data st = (Ok existing, st).
Proof.
  intros Hid Hfound Ha Hn. rewrite (switchSession_found _ _ _ Hid Hfound).
  rewrite Ha, Hn. simpl. unfold switched, nextAddress, nextNetwork.
  rewrite Ha, Hn. destruct existing as [i a n u s c]. simpl. f_equal.
  unfold with_sessions. destruct st as [cfg txs ss]. simpl in *.
  by rewrite insert_id.
Qed.

(** ** The routes *)

Lemma try_catch_run {A : Type} (m : M A) (k : A -> Reply.t) st :
  try_catch (a ← m; mret (k a)) (fun message => mret (respondError 400 message)) st =
    match m st with
    | (Ok a, st') => (Ok (k a), st')
    | (Throw message, st') => (Ok (respondError 400 message), st')
    end.
Proof. unfold try_catch. unfold_M. by destruct (m st) as [[a|msg] st']. Qed.

(** The two handlers that convert a query value outside a [try]. *)
Lemma route_balance_body rt query st :
  route_balance rt query st =
    if String_throws (nullish (prop query "address") (JStr ""))
    then (Throw TypeError_message, st)
    else if String_throws (nullish (prop query "network") (JStr ""))
    then (Throw TypeError_message, st)
    else if negb (isValidAddress (ToString (nullish (prop query "address") (JStr "")))) ||
            negb (isKnownNetwork st (ToString (nullish (prop query "network") (JStr ""))))
    then (Ok (respondError 400 "address and network must be provided as valid values."),
          st)
    else match getBalance rt (ToString (nullish (prop query "address") (JStr "")))
                 (ToString (nullish (prop query "network") (JStr ""))) st with
         | (Ok payload, st') => (Ok (res_json (BalanceResult_json payload)), st')
         | (Throw message, st') => (Throw message, st')
         end.
Proof.
  unfold route_balance. unfold_M.
  repeat (split_if; [reflexivity|]).
  by destruct (getBalance _ _ _ _) as [[payload|message] st'].
Qed.

Lemma route_tx_status_body rt query st :
  route_tx_status rt query st =
    if String_throws (nullish (prop query "guid") (JStr ""))
    then (Throw TypeError_message, st)
    else if JS.is_empty (JS.trim (ToString (nullish (prop query "guid") (JStr ""))))
    then (Ok (respondError 400 "guid is required."), st)
    else match getTransactionStatus rt
                 (JS.trim (ToString (nullish (prop query "guid") (JStr "")))) st with
         | (Ok status, st') => (Ok (res_json (TxStatusResponse_json status)), st')
         | (Throw message, st') => (Throw message, st')
         end.
Proof.
  unfold route_tx_status. unfold_M.
  repeat (split_if; [reflexivity|]).
  by destruct (getTransactionStatus _ _ _) as [[status|message] st'].
Qed.

(** The state a request leaves is the state of an engine operation. *)
Lemma serve_as_perform rt req st :
  exists op, (serve rt req st).2 = perform rt op st.
Proof.
  assert (Hnone : st = perform rt (GetBalance "" "") st) by done.
  destruct req as [| |query|body|query|body|body|body]; simpl.
  - by exists (GetBalance "" "").
  - by exists (GetBalance "" "").
  - exists (GetBalance "" ""). rewrite route_balance_body.
    repeat (split_if; [done|]). unfold getBalance.
    by destruct (computeMockBalance _ _).
  - exists (CreateTransaction (nullish body (JObj []))). simpl.
    unfold route_tx_send. rewrite try_catch_run.
    by destruct (createTransaction _ _ _) as [[a|msg] st'].
  - rewrite route_tx_status_body.
    destruct (String_throws _); [by exists (GetBalance "" "")|].
    destruct (JS.is_empty _) eqn:He; [by exists (GetBalance "" "")|].
    exists (GetTransactionStatus
              (JS.trim (ToString (nullish (prop query "guid") (JStr ""))))).
    simpl. by destruct (getTransactionStatus _ _ _) as [[a|msg] st'].
  - exists (ConnectSession (nullish body (JObj []))). simpl.
    unfold route_wc_connect. rewrite try_catch_run.
    by destruct (connectSession _ _ _) as [[a|msg] st'].
  - exists (SwitchSession (nullish body (JObj []))). simpl.
    unfold route_wc_switch. rewrite try_catch_run.
    by destruct (switchSession _ _) as [[a|msg] st'].
  - exists (DisconnectSession (nullish body (JObj []))). simpl.
    unfold route_wc_disconnect. rewrite try_catch_run.
    by destruct (disconnectSession _ _) as [[a|msg] st'].
Qed.

Lemma serve_config rt req st :
  DaemonState.config (serve rt req st).2 = DaemonState.config st.
Proof.
  destruct (serve_as_perform rt req st) as [op ->]. apply perform_config.
Qed.

Lemma serve_all_config reqs : forall st,
  DaemonState.config (serve_all reqs st) = DaemonState.config st.
Proof.
  induction reqs as [|[rt req] rest IH]; intros st; simpl; [done|].
  by rewrite IH, serve_config.
Qed.

Lemma getTransactionStatus_returns rt guid st :
  exists response, (getTransactionStatus rt guid st).1 = Ok response.
Proof.
  destruct (DaemonState.txStore st !! guid) as [r|] eqn:Hg.
  - rewrite (getTransactionStatus_known _ _ _ _ Hg).
    destruct (TxRecord.status r); [split_if|]; by eexists.
  - unfold getTransactionStatus. unfold_M. rewrite Hg. by eexists.
Qed.

(** In a state whose network names have the EIP-155 shape an exception
    leaves a handler only from the conversion of a query value. *)
Lemma serve_returns rt req st :
  config_ok (DaemonState.config st) ->
  query_converts req = true ->
  exists reply st', serve rt req st = (Ok reply, st').
Proof.
  intros Hok Hq. destruct req as [| |query|body|query|body|body|body]; simpl.
  - by eexists _, _.
  - by eexists _, _.
  - rewrite route_balance_body. cbn [query_converts] in Hq.
    apply andb_true_iff in Hq as [Hqa Hqn].
    apply negb_true_iff in Hqa, Hqn. rewrite Hqa, Hqn.
    destruct (isValidAddress _) eqn:Ha; [|by eexists _, _].
    destruct (isKnownNetwork st _) eqn:Hk; [|by eexists _, _].
    cbn [negb orb].
    rewrite (getBalance_valid rt _ _ st Ha (known_network_matches _ _ Hok Hk)).
    by eexists _, _.
  - unfold route_tx_send. rewrite try_catch_run.
    destruct (createTransaction _ _ _) as [[a|msg] st']; by eexists _, _.
  - rewrite route_tx_status_body. cbn [query_converts] in Hq.
    apply negb_true_iff in Hq. rewrite Hq.
    destruct (JS.is_empty _) eqn:He; [by eexists _, _|].
    destruct (getTransactionStatus_returns rt
                (JS.trim (ToString (nullish (prop query "guid") (JStr "")))) st)
      as [response Hr].
    destruct (getTransactionStatus _ _ _) as [[a|msg] st']; [|done].
    by eexists _, _.
  - unfold route_wc_connect. rewrite try_catch_run.
    destruct (connectSession _ _ _) as [[a|msg] st']; by eexists _, _.
  - unfold route_wc_switch. rewrite try_catch_run.
    destruct (switchSession _ _) as [[a|msg] st']; by eexists _, _.
  - unfold route_wc_disconnect. rewrite try_catch_run.
    destruct (disconnectSession _ _) as [[a|msg] st']; by eexists _, _.
Qed.

(** [String(req.query...)] is outside any [try]: its TypeError leaves the
    handler from the state the request found. *)
Lemma serve_throws rt req st :
  query_converts req = false ->
  serve rt req st = (Throw TypeError_message, st).
Proof.
  destruct req as [| |query|body|query|body|body|body]; try done; simpl; intros Hq.
  - rewrite route_balance_body.
    apply andb_false_iff in Hq as [Hq|Hq]; apply negb_false_iff in Hq;
      rewrite Hq; [done|].
    by destruct (String_throws (nullish (prop query "address") (JStr ""))).
  - rewrite route_tx_status_body. apply negb_false_iff in Hq. by rewrite Hq.
Qed.

(** A reply other than a 200 is the 400 of [respondError], sent from the
    state the request found. *)
Lemma serve_error_reply rt req st reply st' :
  serve rt req st = (Ok reply, st') -> Reply.status reply <> 200%Z ->
  exists message, reply = respondError 400 message /\ st' = st.
Proof.
  destruct req as [| |query|body|query|body|body|body]; simpl.
  - by intros [= <- <-].
  - by intros [= <- <-].
  - rewrite route_balance_body. repeat (split_if; [done|]).
    split_if. { intros [= <- <-] _. by eexists. }
    unfold getBalance. destruct (computeMockBalance _ _); [|done].
    by intros [= <- <-].
  - unfold route_tx_send. rewrite try_catch_run.
    destruct (createTransaction _ _ _) as [[a|msg] st1] eqn:Hc;
      intros [= <- <-]; [done|]. intros _.
    exists msg. split; [done|]. by eapply createTransaction_throw.
  - rewrite route_tx_status_body. split_if; [done|].
    destruct (JS.is_empty _). { intros [= <- <-] _. by eexists. }
    destruct (getTransactionStatus _ _ _) as [[a|msg] st1]; [|done].
    by intros [= <- <-].
  - unfold route_wc_connect. rewrite try_catch_run.
    destruct (connectSession _ _ _) as [[a|msg] st1] eqn:Hc;
      intros [= <- <-]; [done|]. intros _.
    exists msg. split; [done|]. by eapply connectSession_throw.
  - unfold route_wc_switch. rewrite try_catch_run.
    destruct (switchSession _ _) as [[a|msg] st1] eqn:Hc;
      intros [= <- <-]; [done|]. intros _.
    exists msg. split; [done|]. by eapply switchSession_throw.
  - unfold route_wc_disconnect. rewrite try_catch_run.
    destruct (disconnectSession _ _) as [[a|msg] st1] eqn:Hc;
      intros [= <- <-]; [done|]. intros _.
    exists msg. split; [done|]. by eapply disconnectSession_throw.
Qed.

(** X8. [GET /balance] in a state whose network names have the EIP-155
    shape, with [address] and [network] the query values as they were sent
    (an absent one is the empty string): if [String(...)] throws on one of
    them, the TypeError leaves the handler, which has no [try] around the
    conversion; otherwise the handler answers 400 when the printed address
    is not a valid address or the printed network is not one of the loaded
    names, and 200 with the specified balance of that address and network
    when they are.  The state is unchanged in every case. *)
Theorem route_balance_replies rt query st :
  config_ok (DaemonState.config st) ->
  let address := nullish (prop query "address") (JStr "") in
  let network := nullish (prop query "network") (JStr "") in
  route_balance rt query st =
    if String_throws address || String_throws network
    then (Throw TypeError_message, st)
    else
      (Ok (if isValidAddress (ToString address) &&
              isKnownNetwork st (ToString network)
           then res_json
                  (BalanceResult_json
                     (BalanceResult.mk (ToString address) (ToString network)
                        (Spec.balanceEth (ToString address) (ToString network))
                        (Date_toISOString rt)))
           else respondError 400
                  "address and network must be provided as valid values."), st).
Proof.
  intros Hok address network. rewrite route_balance_body. fold address network.
  destruct (String_throws address); [done|].
  destruct (String_throws network); [done|]. cbn [orb].
  destruct (isValidAddress (ToString address)) eqn:Ha; [|done].
  destruct (isKnownNetwork st (ToString network)) eqn:Hk; [|done].
  cbn [negb orb andb].
  by rewrite (getBalance_valid rt _ _ st Ha (known_network_matches _ _ Hok Hk)).
Qed.

(** X9. A daemon built by [new DaemonState] is sent a request to one of
    these routes (its query or JSON body parsed) after any sequence of such
    requests.  If the request is a [GET /balance] or a [GET /tx/status] with
    a query value on which [String(...)] throws, the TypeError leaves the
    handler, for the error middleware, from the state the request found.
    Every other request is answered by its handler: the status is 200, or
    it is 400 and the state is the one the request found. *)
Theorem daemon_replies_unless_query_fails file st0 reqs rt req :
  new_DaemonState file = inr st0 ->
  if query_converts req
  then exists reply st',
         serve rt req (serve_all reqs st0) = (Ok reply, st') /\
         (Reply.status reply = 200%Z \/
          Reply.status reply = 400%Z /\ st' = serve_all reqs st0)
  else serve rt req (serve_all reqs st0) =
         (Throw TypeError_message, serve_all reqs st0).
Proof.
  unfold new_DaemonState. destruct (loadConfig file) as [|config] eqn:Hload; [done|].
  intros [= <-].
  destruct (query_converts req) eqn:Hq; [|by apply serve_throws].
  assert (Hok : config_ok (DaemonState.config
                             (serve_all reqs (DaemonState.mk config ∅ ∅)))).
  { rewrite serve_all_config. by eapply loadConfig_ok. }
  destruct (serve_returns rt req _ Hok Hq) as (reply & st' & Hs).
  exists reply, st'. split; [done|].
  destruct (decide (Reply.status reply = 200%Z)) as [|Hne]; [by left|].
  destruct (serve_error_reply _ _ _ _ _ Hs Hne) as (message & -> & ->).
  by right.
Qed.

(** ** A transaction that was sent *)

Lemma serve_keeps_tx_key rt req st k :
  is_Some (DaemonState.txStore st !! k) ->
  is_Some (DaemonState.txStore (serve rt req st).2 !! k).
Proof.
  intros Hk. destruct (serve_as_perform rt req st) as [op ->].
  destruct (perform_txStore_cases rt op st) as [-> | (k' & r & ->)]; [done|].
  rewrite lookup_insert_is_Some. destruct (decide (k' = k)); tauto.
Qed.

Lemma serve_all_keeps_tx_key reqs : forall st k,
  is_Some (DaemonState.txStore st !! k) ->
  is_Some (DaemonState.txStore (serve_all reqs st) !! k).
Proof.
  induction reqs as [|[rt req] rest IH]; intros st k Hk; simpl; [done|].
  by apply IH, serve_keeps_tx_key.
Qed.

(** X10. The guid that [POST /tx/send] returns stays known: after any
    sequence of further requests, [GET /tx/status] for that guid answers 200
    with the status [PENDING] or [CONFIRMED], never [UNKNOWN].  The guid is
    the string [randomUUID] returned, which is taken to be non-empty and
    without white space around it, as the status route trims the guid it is
    sent. *)
Theorem sent_transaction_stays_known rt body st reply st1 reqs rt' :
  JS.trim (randomUUID rt) = randomUUID rt ->
  JS.is_empty (randomUUID rt) = false ->
  route_tx_send rt body st = (Ok reply, st1) ->
  Reply.status reply = 200%Z ->
  prop (Reply.body reply) "guid" = JStr (randomUUID rt) /\
  exists status,
    (route_tx_status rt' (JObj [("guid", prop (Reply.body reply) "guid")])
       (serve_all reqs st1)).1 =
      Ok (res_json
            (TxStatusResponse_json
               (TxStatusResponse.mk (randomUUID rt) (Known status)
                                    (Date_toISOString rt')))).
Proof.
  intros Htrim Hne. unfold route_tx_send. rewrite try_catch_run.
  destruct (createTransaction rt (nullish body (JObj [])) st)
    as [[record|msg] st'] eqn:Hc; intros [= <- <-]; [|done].
  intros _.
  destruct (createTransaction_ok _ _ _ _ _ Hc) as (props & _ & _ & -> & ->).
  simpl. split; [done|].
  rewrite route_tx_status_body. simpl. rewrite Htrim, Hne.
  set (st2 := serve_all reqs _).
  assert (Hk : is_Some (DaemonState.txStore st2 !! randomUUID rt)).
  { apply serve_all_keeps_tx_key. simpl. by rewrite lookup_insert_eq. }
  destruct Hk as [r Hr].
  rewrite (getTransactionStatus_known _ _ _ _ Hr).
  destruct (TxRecord.status r); [split_if|]; by eexists.
Qed.

(** ** A session that was connected *)

Lemma serve_keeps_session_key rt req st k :
  is_Some (DaemonState.sessions st !! k) ->
  is_Some (DaemonState.sessions (serve rt req st).2 !! k).
Proof.
  intros Hk. destruct (serve_as_perform rt req st) as [op ->].
  destruct (perform_sessions_cases rt op st)
    as [-> | [(data & _ & ->) | (id & e & u & _ & -> & _)]]; [done|..];
    rewrite lookup_insert_is_Some.
  - destruct (decide (randomUUID rt = k)); tauto.
  - destruct (decide (id = k)); tauto.
Qed.

Lemma serve_all_keeps_session_key reqs : forall st k,
  is_Some (DaemonState.sessions st !! k) ->
  is_Some (DaemonState.sessions (serve_all reqs st) !! k).
Proof.
  induction reqs as [|[rt req] rest IH]; intros st k Hk; simpl; [done|].
  by apply IH, serve_keeps_session_key.
Qed.

(** X11. The session id that [POST /wc/connect] returns stays valid: after
    any sequence of further requests, whatever they switched or
    disconnected, [POST /wc/disconnect] for that id answers 200 with a
    session whose status is [DISCONNECTED], and stores it.  The id is the
    string [randomUUID] returned, taken to be non-empty and without white
    space around it. *)
Theorem connected_session_can_be_disconnected rt body st reply st1 reqs :
  JS.trim (randomUUID rt) = randomUUID rt ->
  JS.is_empty (randomUUID rt) = false ->
  route_wc_connect rt body st = (Ok reply, st1) ->
  Reply.status reply = 200%Z ->
  prop (Reply.body reply) "id" = JStr (randomUUID rt) /\
  exists session st2,
    route_wc_disconnect (JObj [("session", prop (Reply.body reply) "id")])
      (serve_all reqs st1) =
      (Ok (res_json (WalletConnectSession_json session)), st2) /\
    WalletConnectSession.status session = DISCONNECTED /\
    DaemonState.sessions st2 !! randomUUID rt = Some session.
Proof.
  intros Htrim Hne. unfold route_wc_connect. rewrite try_catch_run.
  destruct (connectSession_cases rt (nullish body (JObj [])) st)
    as [[_ [msg ->]] | (_ & _ & _ & _ & _ & ->)]; intros [= <- <-]; [done|].
  intros _. simpl. split; [done|].
  set (st2 := serve_all reqs _).
  assert (Hk : is_Some (DaemonState.sessions st2 !! randomUUID rt)).
  { apply serve_all_keeps_session_key. simpl. by rewrite lookup_insert_eq. }
  destruct Hk as [existing He].
  unfold route_wc_disconnect. rewrite try_catch_run. simpl.
  assert (Hid : session_id (JStr (randomUUID rt)) = randomUUID rt) by done.
  rewrite (disconnectSession_found _ _ existing); simpl; rewrite ?Hid; try done.
  eexists _, _. split_and!; [done | done |]. simpl. by rewrite lookup_insert_eq.
Qed.

(** ** The accounts *)

Lemma known_network_name st network :
  network ∈ listNetworkNames (DaemonState.config st) ->
  isKnownNetwork st network = true.
Proof.
  unfold listNetworkNames, isKnownNetwork.
  intros (n & -> & Hn)%list_elem_of_fmap.
  apply existsb_exists. exists n. split; [by apply list_elem_of_In|].
  apply String.eqb_refl.
Qed.

(** X12. Every account that the daemon lists has a balance on every network
    listed with it: [GET /balance] for the address of the account and one of
    its networks answers 200 with the specified balance. *)
Theorem listed_accounts_have_balances rt st account network :
  config_ok (DaemonState.config st) ->
  account ∈ accounts (DaemonState.config st) ->
  network ∈ AccountRecord.networks account ->
  route_balance rt
    (JObj [ ("address", JStr (AccountRecord.address account));
            ("network", JStr network) ]) st =
    (Ok (res_json
           (BalanceResult_json
              (BalanceResult.mk (AccountRecord.address account) network
                 (Spec.balanceEth (AccountRecord.address account) network)
                 (Date_toISOString rt)))), st).
Proof.
  intros Hok Ha Hn.
  assert (Hk : isKnownNetwork st network = true).
  { apply known_network_name. unfold accounts in Ha.
    apply list_elem_of_fmap in Ha as (a & -> & _). done. }
  assert (Hv : isValidAddress (AccountRecord.address account) = true).
  { unfold accounts, MOCK_ACCOUNTS in Ha. rewrite !fmap_cons, fmap_nil in Ha.
    rewrite !elem_of_cons, elem_of_nil in Ha.
    destruct Ha as [-> | [-> | [-> | []]]]; reflexivity. }
  rewrite route_balance_body.
  cbn [prop lookup_prop String.eqb Ascii.eqb Bool.eqb nullish String_throws
       ToString].
  rewrite Hv, Hk. cbn [negb orb].
  by rewrite (getBalance_valid rt _ _ st Hv (known_network_matches _ _ Hok Hk)).
Qed.

(** ** Uptime *)

(** X13. [getUptimeSeconds] is the time since the state was built, in
    seconds, rounded to the nearest second (half a second rounds up): it
    differs from the elapsed milliseconds by at most half a second, and it is
    not negative when the clock has not gone back. *)
Theorem uptime_is_elapsed_rounded rt startedAt :
  let elapsed := (Date_now rt - startedAt)%Z in
  (1000 * getUptimeSeconds rt startedAt - 500 <= elapsed)%Z /\
  (elapsed < 1000 * getUptimeSeconds rt startedAt + 500)%Z /\
  ((0 <= elapsed)%Z -> (0 <= getUptimeSeconds rt startedAt)%Z).
Proof.
  intros elapsed. unfold getUptimeSeconds, Math_round. fold elapsed.
  unfold Qfloor, Qplus. cbn [Qnum Qden].
  change (Z.pos (1000 * 2)) with 2000%Z.
  change (Z.pos 2) with 2%Z. change (Z.pos 1000) with 1000%Z.
  assert (H := Z.div_mod (elapsed * 2 + 1 * 1000) 2000 ltac:(lia)).
  assert (H' := Z.mod_pos_bound (elapsed * 2 + 1 * 1000) 2000 ltac:(lia)).
  lia.
Qed.

(** ** Loading a configuration *)

Lemma loadConfig_network_entry net :
  loadConfig_network net =
    if entry_ok net
    then inr (NetworkConfig.mk (entry_name net) (entry_rpcUrl net))
    else inl match loadConfig_network net with inl msg => msg | inr _ => "" end.
Proof.
  unfold loadConfig_network, entry_ok, entry_converts.
  fold (entry_name net) (entry_rpcUrl net).
  destruct (truthy net); [|done]. destruct (jstype_eqb (typeof net) TObject); [|done].
  simpl. destruct (String_throws (nullish (prop net "name") (JStr ""))); [done|].
  destruct (String_throws (nullish (prop net "rpcUrl") (JStr ""))); [done|].
  simpl. destruct (NETWORK_NAME_PATTERN (entry_name net)); [|done].
  simpl. by destruct (JS.is_empty (entry_rpcUrl net)).
Qed.

Lemma loadConfig_networks_entries nets :
  match loadConfig_networks nets with
  | inr ns =>
      forallb entry_ok nets = true /\
      ns = (fun net => NetworkConfig.mk (entry_name net) (entry_rpcUrl net)) <$> nets
  | inl _ => forallb entry_ok nets = false
  end.
Proof.
  induction nets as [|net rest IH]; simpl; [done|].
  rewrite loadConfig_network_entry.
  destruct (entry_ok net); [|done].
  destruct (loadConfig_networks rest) as [msg|ns]; [done|].
  destruct IH as [-> ->]. done.
Qed.

(** X14. [loadConfig] accepts the content of a configuration file exactly
    when its [networks] property is an array whose entries all are objects
    with a name and an rpcUrl on which [String(...)] returns, the name of
    the EIP-155 shape and the rpcUrl not blank (both after the conversion
    and trimming); the configuration it then returns lists the trimmed name
    and rpcUrl of every entry, in the order of the file.  An entry on whose
    name or rpcUrl [String(...)] throws makes [loadConfig] throw, whatever
    its other property is. *)
Theorem loadConfig_accepts_exactly parsed :
  match loadConfig (Some parsed) with
  | inr config =>
      exists nets,
        prop parsed "networks" = JArr nets /\
        forallb entry_ok nets = true /\
        WalletConfig.networks config =
          (fun net => NetworkConfig.mk (entry_name net) (entry_rpcUrl net)) <$> nets
  | inl _ =>
      forall nets,
        prop parsed "networks" = JArr nets -> forallb entry_ok nets = false
  end.
Proof.
  unfold loadConfig.
  destruct (prop parsed "networks") as [| | | | |nets|]; try done.
  pose proof (loadConfig_networks_entries nets) as H.
  destruct (loadConfig_networks nets) as [msg|ns].
  - intros nets' [= <-]. done.
  - destruct H as [Hall ->]. by exists nets.
Qed.

(** What [loadConfig] guarantees of every network it returns. *)
Lemma loaded_network file config n :
  loadConfig file = inr config -> n ∈ WalletConfig.networks config ->
  NETWORK_NAME_PATTERN (NetworkConfig.name n) = true /\
  JS.trim (NetworkConfig.name n) = NetworkConfig.name n /\
  JS.trim (NetworkConfig.rpcUrl n) = NetworkConfig.rpcUrl n /\
  JS.is_empty (NetworkConfig.rpcUrl n) = false.
Proof.
  destruct file as [parsed|]; simpl.
  - destruct (prop parsed "networks") as [| | | | |nets|]; try done.
    pose proof (loadConfig_networks_entries nets) as H.
    destruct (loadConfig_networks nets) as [msg|ns]; [done|].
    destruct H as [Hall ->]. intros [= <-]. simpl.
    intros (net & -> & Hin)%list_elem_of_fmap. simpl.
    rewrite forallb_forall in Hall.
    apply list_elem_of_In, Hall in Hin. unfold entry_ok in Hin.
    rewrite !andb_true_iff, negb_true_iff in Hin.
    destruct Hin as [[[[_ _] _] Hp] He].
    split_and!; [done | by apply TrimFacts.pattern_trimmed | | done].
    apply TrimFacts.trim_idem.
  - intros [= <-]. simpl. rewrite !elem_of_cons, elem_of_nil.
    intros [-> | [-> | []]]; by split_and!.
Qed.

Lemma loadConfig_network_json n :
  NETWORK_NAME_PATTERN (NetworkConfig.name n) = true ->
  JS.trim (NetworkConfig.name n) = NetworkConfig.name n ->
  JS.trim (NetworkConfig.rpcUrl n) = NetworkConfig.rpcUrl n ->
  JS.is_empty (NetworkConfig.rpcUrl n) = false ->
  loadConfig_network (NetworkConfig_json n) = inr n.
Proof.
  intros Hp Hn Hr He. unfold loadConfig_network. simpl.
  rewrite Hn, Hr, Hp, He. simpl. by destruct n.
Qed.

Lemma loadConfig_networks_json networks :
  (forall n, n ∈ networks -> loadConfig_network (NetworkConfig_json n) = inr n) ->
  loadConfig_networks (NetworkConfig_json <$> networks) = inr networks.
Proof.
  induction networks as [|n rest IH]; intros Hall; [done|].
  rewrite fmap_cons. cbn [loadConfig_networks].
  rewrite (Hall n) by (by left). rewrite IH; [done|].
  intros n' Hn'. apply Hall. by right.
Qed.

(** X15. The reply of [GET /networks] is itself a configuration file: in a
    daemon whose configuration was returned by [loadConfig], loading the
    body of the reply returns that configuration again. *)
Theorem networks_reply_reloads file st :
  loadConfig file = inr (DaemonState.config st) ->
  exists reply,
    route_networks st = (Ok reply, st) /\
    Reply.status reply = 200%Z /\
    loadConfig (Some (Reply.body reply)) = inr (DaemonState.config st).
Proof.
  intros Hload. eexists. split; [reflexivity|]. split; [done|].
  cbn [Reply.body res_json loadConfig prop lookup_prop String.eqb Ascii.eqb
       Bool.eqb].
  rewrite loadConfig_networks_json; [by destruct (DaemonState.config st)|].
  intros n Hn. destruct (loaded_network _ _ _ Hload Hn) as (? & ? & ? & ?).
  by apply loadConfig_network_json.
Qed.

(** ** The arguments of the process *)

Lemma argv_ind (P : list string -> Prop) :
  P [] -> (forall t, P [t]) ->
  (forall t n l, P l -> P (n :: l) -> P (t :: n :: l)) ->
  forall l, P l.
Proof.
  intros H0 H1 H2.
  assert (H : forall l, P l /\ forall t, P (t :: l)); [|intros l; apply H].
  induction l as [|n l [IH1 IH2]]; [by split|].
  split; [apply IH2|]. intros t. by apply H2.
Qed.

Lemma existsb_eqb_elem_of t argv :
  existsb (fun token => String.eqb token t) argv = true <-> t ∈ argv.
Proof.
  rewrite existsb_exists. split.
  - intros (x & Hin & ->%String.eqb_eq). by apply list_elem_of_In.
  - intros Hin. exists t. split; [by apply list_elem_of_In | apply String.eqb_refl].
Qed.

Lemma positional_spec t :
  positional t = true <->
  t <> "--daemon" /\ t <> "--json" /\ t <> "--config" /\
  JS.startsWith "--config=" t = false.
Proof.
  unfold positional.
  rewrite !andb_true_iff, !negb_true_iff, !String.eqb_neq. tauto.
Qed.

Lemma loop_sound argv : forall active configOverride remaining,
  exists rest,
    (detectDaemonIntent_loop argv active configOverride remaining).2 =
      remaining ++ rest /\
    sublist rest argv /\
    Forall (fun t => positional t = true) rest /\
    ((detectDaemonIntent_loop argv active configOverride remaining).1.1 = true ->
     active = true \/ "--daemon" ∈ argv).
Proof.
  induction argv as [|t|t n l IHl IHn] using argv_ind; intros a c r.
  - exists []. rewrite app_nil_r. split_and!; [done| done | done | by left].
  - cbn [detectDaemonIntent_loop].
    destruct (String.eqb t "--daemon") eqn:Ed.
    { exists []. rewrite app_nil_r. apply String.eqb_eq in Ed as ->.
      split_and!; [done | apply sublist_nil_l | done |]. right. by left. }
    destruct (String.eqb t "--config") eqn:Ec.
    { exists []. rewrite app_nil_r.
      split_and!; [done | apply sublist_nil_l | done | by left]. }
    destruct (JS.startsWith "--config=" t) eqn:Ep.
    { exists []. rewrite app_nil_r.
      split_and!; [done | apply sublist_nil_l | done | by left]. }
    destruct (String.eqb t "--json") eqn:Ej.
    { exists []. rewrite app_nil_r.
      split_and!; [done | apply sublist_nil_l | done | by left]. }
    exists [t]. split_and!; [done | done | | by left].
    constructor; [|done]. unfold positional. by rewrite Ed, Ec, Ep, Ej.
  - remember (n :: l) as nl eqn:Enl. cbn [detectDaemonIntent_loop].
    destruct (String.eqb t "--daemon") eqn:Ed.
    { destruct (IHn true c r) as (rest & Hr & Hs & Hp & Ha).
      exists rest. split_and!; [done | by apply sublist_cons | done |].
      intros _. right. apply String.eqb_eq in Ed as ->. by left. }
    destruct (String.eqb t "--config") eqn:Ec.
    { subst nl. cbn beta iota.
      destruct (IHl a (Some n) r) as (rest & Hr & Hs & Hp & Ha).
      exists rest. split_and!; [done | by do 2 apply sublist_cons | done |].
      intros H. destruct (Ha H) as [?|?]; [by left|]. right. by do 2 right. }
    destruct (JS.startsWith "--config=" t) eqn:Ep.
    { destruct (IHn a (Some (slice_from (String.length "--config=") t)) r)
        as (rest & Hr & Hs & Hp & Ha).
      exists rest. split_and!; [done | by apply sublist_cons | done |].
      intros H. destruct (Ha H) as [?|?]; [by left|]. right. by right. }
    destruct (String.eqb t "--json") eqn:Ej.
    { destruct (IHn a c r) as (rest & Hr & Hs & Hp & Ha).
      exists rest. split_and!; [done | by apply sublist_cons | done |].
      intros H. destruct (Ha H) as [?|?]; [by left|]. right. by right. }
    destruct (IHn a c (r ++ [t])) as (rest & Hr & Hs & Hp & Ha).
    exists (t :: rest). split_and!.
    + by rewrite Hr, <- app_assoc.
    + by apply sublist_skip.
    + constructor; [|done]. unfold positional. by rewrite Ed, Ec, Ep, Ej.
    + intros H. destruct (Ha H) as [?|?]; [by left|]. right. by right.
Qed.

(** X16. What [detectDaemonIntent] passes on in [remaining] is a subsequence
    of the arguments and holds none of the flags the function reads
    ([--daemon], [--json], [--config], [--config=...]); [active] is set only
    when [--daemon] is among the arguments, and [wantsJson] exactly when
    [--json] is. *)
Theorem detectDaemonIntent_sound argv :
  let intent := detectDaemonIntent argv in
  sublist (DaemonIntent.remaining intent) argv /\
  Forall (fun t => t <> "--daemon" /\ t <> "--json" /\ t <> "--config" /\
                   JS.startsWith "--config=" t = false)
         (DaemonIntent.remaining intent) /\
  (DaemonIntent.active intent = true -> "--daemon" ∈ argv) /\
  (DaemonIntent.wantsJson intent = true <-> "--json" ∈ argv).
Proof.
  intros intent. subst intent. unfold detectDaemonIntent.
  destruct (loop_sound argv false None []) as (rest & Hr & Hs & Hp & Ha).
  destruct (detectDaemonIntent_loop argv false None []) as [[a c] r].
  simpl in *. subst r. split_and!.
  - done.
  - eapply Forall_impl; [exact Hp|]. intros t Ht. by apply positional_spec.
  - intros H. by destruct (Ha H).
  - apply existsb_eqb_elem_of.
Qed.

Lemma last_override (x : string) c l :
  from_option Some (Some x) (last l) = from_option Some c (last (x :: l)).
Proof.
  destruct l as [|y l]; [done|].
  change (last (x :: y :: l)) with (last (y :: l)).
  destruct (last (y :: l)) eqn:E; [done|]. by apply last_None in E.
Qed.

(** Without a [--config] token no token is stepped over: the loop reads the
    arguments one by one. *)
Lemma loop_without_config argv : forall active configOverride remaining,
  "--config" ∉ argv ->
  detectDaemonIntent_loop argv active configOverride remaining =
    (active || existsb (fun token => String.eqb token "--daemon") argv,
     from_option Some configOverride (last (omap config_value argv)),
     remaining ++ List.filter positional argv).
Proof.
  induction argv as [|t l IH]; intros a c r Hno.
  - simpl. by rewrite orb_false_r, app_nil_r.
  - apply not_elem_of_cons in Hno as [Ht Hl].
    assert (Et : String.eqb t "--config" = false)
      by (apply String.eqb_neq; congruence).
    assert (Hloop : detectDaemonIntent_loop (t :: l) a c r =
      if String.eqb t "--daemon" then detectDaemonIntent_loop l true c r
      else if JS.startsWith "--config=" t
      then detectDaemonIntent_loop l a
             (Some (slice_from (String.length "--config=") t)) r
      else if String.eqb t "--json" then detectDaemonIntent_loop l a c r
      else detectDaemonIntent_loop l a c (r ++ [t])).
    { cbn [detectDaemonIntent_loop]. by rewrite Et. }
    rewrite Hloop, !IH by done. clear Hloop.
    change (existsb ?f (t :: l)) with (f t || existsb f l).
    change (List.filter positional (t :: l))
      with (if positional t then t :: List.filter positional l
            else List.filter positional l).
    change (omap config_value (t :: l))
      with (match config_value t with
            | Some v => v :: omap config_value l
            | None => omap config_value l
            end).
    cbn beta.
    destruct (String.eqb t "--daemon") eqn:Ed.
    { apply String.eqb_eq in Ed as ->.
      change (positional "--daemon") with false.
      change (config_value "--daemon") with (@None string).
      by rewrite orb_true_r. }
    destruct (JS.startsWith "--config=" t) eqn:Ep.
    { assert (positional t = false) as ->
        by (unfold positional; by rewrite Ed, Et, Ep).
      assert (config_value t = Some (slice_from (String.length "--config=") t))
        as -> by (unfold config_value; by rewrite Ep).
      rewrite orb_false_l. do 2 f_equal. apply last_override. }
    assert (config_value t = None) as ->
      by (unfold config_value; by rewrite Ep).
    destruct (String.eqb t "--json") eqn:Ej.
    + assert (positional t = false) as ->
        by (unfold positional; by rewrite Ed, Et, Ep, Ej).
      by rewrite orb_false_l.
    + assert (positional t = true) as ->
        by (unfold positional; by rewrite Ed, Et, Ep, Ej).
      by rewrite orb_false_l, <- app_assoc.
Qed.

(** X17. When no argument is the token [--config], [detectDaemonIntent]
    reads the arguments one by one: [active] tells whether [--daemon] is
    among them, [configOverride] is the path of the last [--config=<path>],
    [remaining] is the arguments without the flags, in their order, and
    [wantsJson] tells whether [--json] is among them. *)
Theorem detectDaemonIntent_without_config_token argv :
  "--config" ∉ argv ->
  detectDaemonIntent argv =
    DaemonIntent.mk
      (existsb (fun token => String.eqb token "--daemon") argv)
      (last (omap config_value argv))
      (List.filter positional argv)
      (existsb (fun token => String.eqb token "--json") argv).
Proof.
  intros Hno. unfold detectDaemonIntent.
  rewrite (loop_without_config argv false None [] Hno). simpl.
  by destruct (last (omap config_value argv)).
Qed.

Lemma loop_app argv rest : forall active configOverride remaining,
  "--config" ∉ argv ->
  detectDaemonIntent_loop (argv ++ rest) active configOverride remaining =
    let '(active', configOverride', remaining') :=
      detectDaemonIntent_loop argv active configOverride remaining in
    detectDaemonIntent_loop rest active' configOverride' remaining'.
Proof.
  induction argv as [|t l IH]; intros a c r Hno; [done|].
  apply not_elem_of_cons in Hno as [Ht Hl].
  assert (Et : String.eqb t "--config" = false)
    by (apply String.eqb_neq; congruence).
  rewrite <- app_comm_cons. cbn [detectDaemonIntent_loop]. rewrite Et.
  destruct (String.eqb t "--daemon"); [by apply IH|].
  destruct (JS.startsWith "--config=" t); [by apply IH|].
  destruct (String.eqb t "--json"); by apply IH.
Qed.

(** X18. A [--config] token that ends the arguments has no path after it and
    clears the override: whatever [--config=<path>] came before, the
    configuration path resolved from the override is the default file name
    in the working directory.  The other results are those of the arguments
    without the trailing token. *)
Theorem trailing_config_token_resets path_resolve cwd argv :
  "--config" ∉ argv ->
  let intent := detectDaemonIntent (argv ++ ["--config"]) in
  DaemonIntent.configOverride intent = None /\
  DaemonIntent.active intent = DaemonIntent.active (detectDaemonIntent argv) /\
  DaemonIntent.remaining intent = DaemonIntent.remaining (detectDaemonIntent argv) /\
  resolveConfigPath path_resolve cwd (DaemonIntent.configOverride intent) =
    path_resolve cwd DEFAULT_CONFIG_FILENAME.
Proof.
  intros Hno intent. subst intent. unfold detectDaemonIntent.
  rewrite (loop_app argv ["--config"] false None [] Hno).
  destruct (detectDaemonIntent_loop argv false None []) as [[a c] r].
  by cbn.
Qed.

Lemma filter_nonempty (p : string -> bool) l :
  (0 <? length (List.filter p l))%nat = existsb p l.
Proof.
  induction l as [|x l IH]; simpl; [done|]. by destruct (p x).
Qed.

(** X19. How [main] goes on when no argument is the token [--config]:
    without [--daemon] it hands the arguments to the command parser; with
    [--daemon] and any argument that is not a flag it ends the process with
    exit code 2 and the message that the flag cannot be combined, as a JSON
    envelope when [--json] is among the arguments; with [--daemon] and flags
    only it starts the daemon on the path of the last [--config=<path>], or
    on the default file name. *)
Theorem main_dispatch path_resolve cwd argv :
  "--config" ∉ argv ->
  main path_resolve cwd argv =
    if existsb (fun token => String.eqb token "--daemon") argv
    then
      if existsb positional argv
      then ExitEarly
             (Exit.mk
                (if existsb (fun token => String.eqb token "--json") argv
                 then console_log_json
                        (error_envelope
                           "The --daemon flag cannot be combined with other commands."
                           true)
                 else console_error
                        "The --daemon flag cannot be combined with other commands.")
                2)
      else StartDaemon
             (resolveConfigPath path_resolve cwd (last (omap config_value argv)))
    else ParseCommand.
Proof.
  intros Hno. unfold main, detectDaemonIntent.
  rewrite (loop_without_config argv false None [] Hno). simpl.
  destruct (existsb _ argv); [|done].
  rewrite filter_nonempty. destruct (existsb positional argv); [done|].
  by destruct (last (omap config_value argv)).
Qed.

(** ** Waiting for the daemon *)

Lemma loop_outcome fuel host expiry : forall probes readings r,
  ensureDaemonRunning_loop fuel host expiry probes readings = Some r ->
  match r with
  | Returned spawned n =>
      spawned = true /\ (probes < n)%nat /\
      isDaemonHealthy host (n - 1) = true /\
      (forall k, (probes <= k < n - 1)%nat -> isDaemonHealthy host k = false) /\
      (Date_now_at host (readings + (n - 1 - probes)) < expiry)%Z
  | TimedOut n =>
      (probes <= n)%nat /\
      (forall k, (probes <= k < n)%nat -> isDaemonHealthy host k = false) /\
      (expiry <= Date_now_at host (readings + (n - probes)))%Z
  end.
Proof.
  induction fuel as [|fuel IH]; intros probes readings r; simpl; [done|].
  destruct (Z.ltb_spec (Date_now_at host readings) expiry) as [Hlt|Hge].
  - destruct (isDaemonHealthy host probes) eqn:Hh.
    + intros [= <-]. replace (S probes - 1)%nat with probes by lia.
      split_and!; [done | lia | done | intros k Hk; lia |].
      by replace (readings + (probes - probes))%nat with readings by lia.
    + intros Hr. specialize (IH _ _ _ Hr). destruct r as [spawned n|n].
      * destruct IH as (Hs & Hn & Hlast & Hall & Hnow).
        split_and!; [done | lia | done | |].
        -- intros k Hk. destruct (decide (k = probes)) as [->|Hne]; [done|].
           apply Hall. lia.
        -- by replace (readings + (n - 1 - probes))%nat
             with (S readings + (n - 1 - S probes))%nat by lia.
      * destruct IH as (Hn & Hall & Hnow). split_and!; [lia | |].
        -- intros k Hk. destruct (decide (k = probes)) as [->|Hne]; [done|].
           apply Hall. lia.
        -- by replace (readings + (n - probes))%nat
             with (S readings + (n - S probes))%nat by lia.
  - intros [= <-]. split_and!; [lia | intros k Hk; lia |].
    by replace (readings + (probes - probes))%nat with readings by lia.
Qed.

(** X22. How [ensureDaemonRunning] can end.  It returns without spawning a
    daemon exactly when the first health probe succeeds.  Otherwise it
    spawns one daemon and probes again: it returns at the first probe that
    succeeds, made while the clock was still before the expiry (8000 ms
    after the spawn), and it throws the time-out error only when every
    probe has failed and the clock has reached the expiry. *)
Theorem ensureDaemonRunning_outcome fuel host r :
  ensureDaemonRunning fuel host = Some r ->
  match r with
  | Returned spawned n =>
      spawned = negb (isDaemonHealthy host 0) /\ (1 <= n)%nat /\
      isDaemonHealthy host (n - 1) = true /\
      (forall k, (k < n - 1)%nat -> isDaemonHealthy host k = false) /\
      (spawned = true ->
       (Date_now_at host (n - 1) < Date_now_at host 0 + AUTO_START_TIMEOUT)%Z)
  | TimedOut n =>
      (1 <= n)%nat /\
      (forall k, (k < n)%nat -> isDaemonHealthy host k = false) /\
      (Date_now_at host 0 + AUTO_START_TIMEOUT <= Date_now_at host n)%Z
  end.
Proof.
  unfold ensureDaemonRunning. destruct (isDaemonHealthy host 0) eqn:H0.
  - intros [= <-]. simpl. split_and!; [done | lia | done | intros k Hk; lia | done].
  - intros Hr. apply loop_outcome in Hr. destruct r as [spawned n|n].
    + destruct Hr as (-> & Hn & Hlast & Hall & Hnow).
      split_and!; [done | lia | done | |].
      * intros k Hk. destruct (decide (k = 0%nat)) as [->|Hne]; [done|].
        apply Hall. lia.
      * intros _. by replace (1 + (n - 1 - 1))%nat with (n - 1)%nat in Hnow by lia.
    + destruct Hr as (Hn & Hall & Hnow). split_and!; [lia | |].
      * intros k Hk. destruct (decide (k = 0%nat)) as [->|Hne]; [done|].
        apply Hall. lia.
      * by replace (1 + (n - 1))%nat with n in Hnow by lia.
Qed.



(** ** Errors of the daemon at the command line *)

(** X20. When the daemon answers a request with a status other than 200, the
    client command ends with exit code 2 ([INVALID_ARGS]) and reports the
    message the daemon sent, and the daemon has stored nothing: axios turns
    the reply into an error that carries it, [handleCommandError] reads the
    message from its body and prints it to standard error, or as the error
    of a JSON envelope under [--json]. *)
Theorem rejected_request_exits_invalid_args opts rt req st reply st' :
  serve rt req st = (Ok reply, st') ->
  Reply.status reply <> 200%Z ->
  exists message error,
    st' = st /\
    Reply.body reply = JObj [("error", JStr message)] /\
    api_result reply = inl error /\
    handleCommandError opts error =
      Exit.mk (if NormalizedOptions.json opts
               then console_log_json (error_envelope message true)
               else console_error message)
              2.
Proof.
  intros Hs Hne.
  destruct (serve_error_reply _ _ _ _ _ Hs Hne) as (message & -> & ->).
  exists message. eexists. split_and!; [done | done | reflexivity |].
  reflexivity.
Qed.

(** ** Lists at the command line *)

Lemma Array_join_cons sep x y rest :
  Array_join sep (x :: y :: rest) = x +:+ sep +:+ Array_join sep (y :: rest).
Proof. reflexivity. Qed.

Lemma no_LF_prefixed row :
  JS.all_chars (fun c => negb (Ascii.eqb c LF)) row = true ->
  JS.all_chars (fun c => negb (Ascii.eqb c LF)) ("- " +:+ row) = true.
Proof. intros H. by rewrite JSFacts.all_chars_app, H. Qed.

(** X21. [renderList] prints one line per row: when no row holds a line
    feed, splitting the text at the line feeds gives back the rows, each
    after the two characters of the dash and the space.  (With no row at all
    the text is empty, which splits into one empty line.) *)
Theorem renderList_lines rows :
  rows <> [] ->
  Forall (fun row => JS.all_chars (fun c => negb (Ascii.eqb c LF)) row = true) rows ->
  JS.split LF (renderList rows) = (fun row => "- " +:+ row) <$> rows.
Proof.
  unfold renderList. intros Hne Hrows.
  induction Hrows as [|row rest Hrow Hrest IH]; [done|]. clear Hne.
  destruct rest as [|row' rest].
  - cbn [fmap list_fmap Array_join].
    apply JSFacts.split_no_sep. by apply no_LF_prefixed.
  - rewrite !fmap_cons, Array_join_cons.
    change (String LF "" +:+ ?s) with (String LF s).
    rewrite (JSFacts.split_app LF ("- " +:+ row)) by (by apply no_LF_prefixed).
    f_equal. rewrite <- fmap_cons. by apply IH.
Qed.

(** ** The theorems at concrete requests

    Each lemma below instantiates one of the theorems above at the sample
    requests, with its hypotheses established by evaluation. *)

Lemma getBalance_is_specified_balance_witness :
  isValidAddress sample_address = true /\
  NETWORK_REGEX "eip155:1" = true /\
  getBalance sample_runtime sample_address "eip155:1" initial_state =
    (Ok (BalanceResult.mk sample_address "eip155:1" "193.139000"
                          (Date_toISOString sample_runtime)), initial_state).
Proof.
  split_and!; [reflexivity | reflexivity |].
  exact (proj1 (getBalance_is_specified_balance sample_runtime sample_address
                  "eip155:1" initial_state eq_refl eq_refl)).
Defined.

Lemma getBalance_within_bounds_witness :
  isValidAddress sample_address = true /\
  NETWORK_REGEX "eip155:11155111" = true /\
  exists result q,
    getBalance sample_runtime sample_address "eip155:11155111" connected_state =
      (Ok result, connected_state) /\
    Spec.read_decimal (BalanceResult.balanceEth result) = Some q /\
    (0 <= q)%Q /\ (q < 500)%Q.
Proof.
  split_and!; [reflexivity | reflexivity |].
  exact (getBalance_within_bounds sample_runtime sample_address
           "eip155:11155111" connected_state eq_refl eq_refl).
Defined.

Lemma rejected_request_leaves_stores_witness :
  connectSession sample_runtime bad_uri_request connected_state =
    (Throw "network, address, and uri must be provided for WalletConnect.",
     connected_state) /\
  DaemonState.txStore connected_state = DaemonState.txStore connected_state /\
  DaemonState.sessions connected_state = DaemonState.sessions connected_state.
Proof.
  split; [reflexivity|].
  apply (rejected_request_leaves_stores sample_runtime bad_uri_request
           connected_state
           "network, address, and uri must be provided for WalletConnect."
           connected_state).
  right. left. reflexivity.
Defined.

Lemma status_only_moves_to_confirmed_witness :
  guids_fresh later_operations confirmed_state /\
  DaemonState.txStore confirmed_state !! randomUUID sample_runtime =
    Some (confirm sent_record) /\
  TxRecord.status (confirm sent_record) = CONFIRMED /\
  DaemonState.txStore (perform_all later_operations confirmed_state)
    !! randomUUID sample_runtime = Some (confirm sent_record).
Proof.
  assert (Hfresh : guids_fresh later_operations confirmed_state)
    by (repeat split; reflexivity).
  split_and!; [exact Hfresh | reflexivity | reflexivity |].
  exact (proj2 (proj2 status_only_moves_to_confirmed) later_operations
           confirmed_state (randomUUID sample_runtime) (confirm sent_record)
           Hfresh eq_refl eq_refl).
Defined.

Lemma getTransactionStatus_unknown_witness :
  DaemonState.txStore confirmed_state !! "never-issued" = None /\
  getTransactionStatus later_runtime "never-issued" confirmed_state =
    (Ok (TxStatusResponse.mk "never-issued" UNKNOWN
                             (Date_toISOString later_runtime)),
     confirmed_state).
Proof.
  split; [reflexivity|].
  exact (getTransactionStatus_unknown later_runtime "never-issued"
           confirmed_state eq_refl).
Defined.



Ltac no_such_token :=
  intros H; repeat (apply elem_of_cons in H as [H|H]; [discriminate H|]);
  by apply elem_of_nil in H.


Lemma session_store_invariant_witness :
  sessions_ok connected_state /\
  sessions_ok (connectSession later_runtime connect_request connected_state).2 /\
  sessions_ok (switchSession connect_request connected_state).2 /\
  sessions_ok (disconnectSession connect_request connected_state).2.
Proof.
  assert (Hok : sessions_ok connected_state).
  { apply (map_Forall_insert_2 (session_ok connected_state));
      [repeat split; reflexivity | apply map_Forall_empty]. }
  split; [exact Hok|].
  exact (session_store_invariant later_runtime connect_request connected_state Hok).
Defined.

Lemma stored_records_are_validated_witness :
  new_DaemonState None = inr initial_state /\
  txStore_ok (perform_all later_operations initial_state).
Proof.
  split; [reflexivity|].
  exact (stored_records_are_validated None initial_state later_operations eq_refl).
Defined.

Lemma validateTransactionPayload_idempotent_witness :
  validateTransactionPayload padded_send_request initial_state =
    (Ok trimmed_send_request, initial_state) /\
  validateTransactionPayload trimmed_send_request initial_state =
    (Ok trimmed_send_request, initial_state).
Proof.
  split; [reflexivity|].
  exact (validateTransactionPayload_idempotent padded_send_request initial_state
           trimmed_send_request initial_state eq_refl).
Defined.

Lemma disconnected_session_stays_disconnected_witness :
  session_ids_fresh more_operations disconnected_state /\
  DaemonState.sessions disconnected_state !! randomUUID sample_runtime =
    Some (with_status (connected sample_runtime connect_request) DISCONNECTED) /\
  exists s',
    DaemonState.sessions (perform_all more_operations disconnected_state)
      !! randomUUID sample_runtime = Some s' /\
    WalletConnectSession.status s' = DISCONNECTED /\
    WalletConnectSession.id s' = randomUUID sample_runtime /\
    WalletConnectSession.uri s' = "wc:example" /\
    WalletConnectSession.connectedAt s' = Date_toISOString sample_runtime.
Proof.
  assert (Hfresh : session_ids_fresh more_operations disconnected_state)
    by (repeat split; reflexivity).
  split_and!; [exact Hfresh | reflexivity |].
  exact (disconnected_session_stays_disconnected more_operations
           disconnected_state (randomUUID sample_runtime)
           (with_status (connected sample_runtime connect_request) DISCONNECTED)
           Hfresh eq_refl eq_refl).
Defined.

Lemma switchSession_nothing_given_witness :
  JS.is_empty (session_id (prop disconnect_request "session")) = false /\
  DaemonState.sessions connected_state
    !! session_id (prop disconnect_request "session") =
    Some (connected sample_runtime connect_request) /\
  truthy (prop disconnect_request "address") = false /\
  truthy (prop disconnect_request "network") = false /\
  switchSession disconnect_request connected_state =
    (Ok (connected sample_runtime connect_request), connected_state).
Proof.
  split_and!; [reflexivity..|].
  exact (switchSession_nothing_given disconnect_request connected_state
           (connected sample_runtime connect_request)
           eq_refl eq_refl eq_refl eq_refl).
Defined.

Lemma balance_ignores_letter_case_witness :
  isValidAddress sample_address = true /\
  isValidAddress lower_case_address = true /\
  NETWORK_REGEX "eip155:1" = true /\
  eqb_ignoring_case sample_address lower_case_address = true /\
  balance_of (getBalance sample_runtime sample_address "eip155:1" initial_state).1 =
  balance_of (getBalance sample_runtime lower_case_address "eip155:1" initial_state).1.
Proof.
  split_and!; [reflexivity..|].
  exact (balance_ignores_letter_case sample_runtime sample_address
           lower_case_address "eip155:1" initial_state
           eq_refl eq_refl eq_refl eq_refl).
Defined.

Lemma route_balance_replies_witness :
  config_ok (DaemonState.config initial_state) /\
  route_balance sample_runtime balance_query initial_state =
    (Ok (res_json
           (BalanceResult_json
              (BalanceResult.mk sample_address "eip155:1" "193.139000"
                                (Date_toISOString sample_runtime)))),
     initial_state) /\
  route_balance sample_runtime unprintable_query initial_state =
    (Throw TypeError_message, initial_state).
Proof.
  assert (Hok : config_ok (DaemonState.config initial_state))
    by (repeat constructor).
  split_and!; [exact Hok | |].
  - exact (route_balance_replies sample_runtime balance_query initial_state Hok).
  - exact (route_balance_replies sample_runtime unprintable_query initial_state Hok).
Defined.

Lemma daemon_replies_unless_query_fails_witness :
  new_DaemonState None = inr initial_state /\
  (exists reply st',
     serve later_runtime (POST_wc_connect unprintable_uri_request)
       (serve_all sample_requests initial_state) = (Ok reply, st') /\
     (Reply.status reply = 200%Z \/
      Reply.status reply = 400%Z /\
      st' = serve_all sample_requests initial_state)) /\
  serve later_runtime (GET_balance unprintable_query)
    (serve_all sample_requests initial_state) =
    (Throw TypeError_message, serve_all sample_requests initial_state).
Proof.
  split_and!; [reflexivity | |].
  - exact (daemon_replies_unless_query_fails None initial_state sample_requests
             later_runtime (POST_wc_connect unprintable_uri_request) eq_refl).
  - exact (daemon_replies_unless_query_fails None initial_state sample_requests
             later_runtime (GET_balance unprintable_query) eq_refl).
Defined.

Lemma sent_transaction_stays_known_witness :
  JS.trim (randomUUID sample_runtime) = randomUUID sample_runtime /\
  JS.is_empty (randomUUID sample_runtime) = false /\
  route_tx_send sample_runtime send_request initial_state =
    (Ok sent_reply, (createTransaction sample_runtime send_request initial_state).2) /\
  Reply.status sent_reply = 200%Z /\
  prop (Reply.body sent_reply) "guid" = JStr (randomUUID sample_runtime) /\
  exists status,
    (route_tx_status later_runtime
       (JObj [("guid", prop (Reply.body sent_reply) "guid")])
       (serve_all sample_requests
          (createTransaction sample_runtime send_request initial_state).2)).1 =
      Ok (res_json
            (TxStatusResponse_json
               (TxStatusResponse.mk (randomUUID sample_runtime) (Known status)
                                    (Date_toISOString later_runtime)))).
Proof.
  split_and!; [reflexivity..|].
  exact (proj2 (sent_transaction_stays_known sample_runtime send_request
                  initial_state sent_reply
                  (createTransaction sample_runtime send_request initial_state).2
                  sample_requests later_runtime eq_refl eq_refl eq_refl eq_refl)).
Defined.

Lemma connected_session_can_be_disconnected_witness :
  JS.trim (randomUUID sample_runtime) = randomUUID sample_runtime /\
  JS.is_empty (randomUUID sample_runtime) = false /\
  route_wc_connect sample_runtime connect_request initial_state =
    (Ok connect_reply, connected_state) /\
  Reply.status connect_reply = 200%Z /\
  exists session st2,
    route_wc_disconnect (JObj [("session", prop (Reply.body connect_reply) "id")])
      (serve_all sample_requests connected_state) =
      (Ok (res_json (WalletConnectSession_json session)), st2) /\
    WalletConnectSession.status session = DISCONNECTED /\
    DaemonState.sessions st2 !! randomUUID sample_runtime = Some session.
Proof.
  split_and!; [reflexivity..|].
  exact (proj2 (connected_session_can_be_disconnected sample_runtime
                  connect_request initial_state connect_reply connected_state
                  sample_requests eq_refl eq_refl eq_refl eq_refl)).
Defined.

Lemma listed_accounts_have_balances_witness :
  config_ok (DaemonState.config initial_state) /\
  primary_account ∈ accounts (DaemonState.config initial_state) /\
  "eip155:11155111" ∈ AccountRecord.networks primary_account /\
  route_balance sample_runtime
    (JObj [ ("address", JStr (AccountRecord.address primary_account));
            ("network", JStr "eip155:11155111") ]) initial_state =
    (Ok (res_json
           (BalanceResult_json
              (BalanceResult.mk (AccountRecord.address primary_account)
                 "eip155:11155111" "486.264000"
                 (Date_toISOString sample_runtime)))), initial_state).
Proof.
  assert (Hok : config_ok (DaemonState.config initial_state))
    by (repeat constructor).
  assert (Ha : primary_account ∈ accounts (DaemonState.config initial_state))
    by (by left).
  assert (Hn : "eip155:11155111" ∈ AccountRecord.networks primary_account)
    by (right; by left).
  split_and!; [exact Hok | exact Ha | exact Hn |].
  exact (listed_accounts_have_balances sample_runtime initial_state
           primary_account "eip155:11155111" Hok Ha Hn).
Defined.

Lemma uptime_is_elapsed_rounded_witness :
  (0 <= Date_now later_runtime - Date_now sample_runtime)%Z /\
  (0 <= getUptimeSeconds later_runtime (Date_now sample_runtime))%Z.
Proof.
  assert (H : (0 <= Date_now later_runtime - Date_now sample_runtime)%Z)
    by (simpl; lia).
  split; [exact H|].
  exact (proj2 (proj2 (uptime_is_elapsed_rounded later_runtime
                         (Date_now sample_runtime))) H).
Defined.

Lemma loadConfig_accepts_exactly_witness :
  (exists nets,
     prop sample_file "networks" = JArr nets /\
     forallb entry_ok nets = true /\
     [NetworkConfig.mk "eip155:10" "https://mainnet.optimism.io"] =
       (fun net => NetworkConfig.mk (entry_name net) (entry_rpcUrl net)) <$> nets) /\
  loadConfig (Some unprintable_entry_file) = inl TypeError_message /\
  forallb entry_ok
    [ JObj [ ("name", JStr "eip155:1");
             ("rpcUrl", JObj [("toString", JNum (Finite false 1 0))]) ] ] = false.
Proof.
  split_and!; [exact (loadConfig_accepts_exactly sample_file) | reflexivity |].
  exact (loadConfig_accepts_exactly unprintable_entry_file _ eq_refl).
Defined.

Lemma networks_reply_reloads_witness :
  loadConfig None = inr (DaemonState.config initial_state) /\
  exists reply,
    route_networks initial_state = (Ok reply, initial_state) /\
    Reply.status reply = 200%Z /\
    loadConfig (Some (Reply.body reply)) = inr (DaemonState.config initial_state).
Proof.
  split; [reflexivity|].
  exact (networks_reply_reloads None initial_state eq_refl).
Defined.

Lemma detectDaemonIntent_sound_witness :
  DaemonIntent.active (detectDaemonIntent mixed_argv) = true /\
  "--daemon" ∈ mixed_argv /\
  DaemonIntent.remaining (detectDaemonIntent mixed_argv) = ["version"].
Proof.
  split_and!; [reflexivity | | reflexivity].
  exact (proj1 (proj2 (proj2 (detectDaemonIntent_sound mixed_argv))) eq_refl).
Defined.

Lemma detectDaemonIntent_without_config_token_witness :
  ("--config" ∉ daemon_argv) /\
  detectDaemonIntent daemon_argv =
    DaemonIntent.mk true (Some "conf/wallet.json") [] true.
Proof.
  assert (Hno : "--config" ∉ daemon_argv) by no_such_token.
  split; [exact Hno|].
  exact (detectDaemonIntent_without_config_token daemon_argv Hno).
Defined.

Lemma trailing_config_token_resets_witness :
  ("--config" ∉ daemon_argv) /\
  DaemonIntent.configOverride (detectDaemonIntent (daemon_argv ++ ["--config"])) =
    None /\
  resolveConfigPath sample_path_resolve "/srv"
    (DaemonIntent.configOverride (detectDaemonIntent (daemon_argv ++ ["--config"]))) =
    "/srv/wallet.conf.json".
Proof.
  assert (Hno : "--config" ∉ daemon_argv) by no_such_token.
  pose proof (trailing_config_token_resets sample_path_resolve "/srv"
                daemon_argv Hno) as (Hnone & _ & _ & Hpath).
  split_and!; [exact Hno | exact Hnone | exact Hpath].
Defined.

Lemma main_dispatch_witness :
  ("--config" ∉ mixed_argv) /\
  main sample_path_resolve "/srv" mixed_argv =
    ExitEarly
      (Exit.mk
         (console_log_json
            (error_envelope
               "The --daemon flag cannot be combined with other commands." true))
         2).
Proof.
  assert (Hno : "--config" ∉ mixed_argv) by no_such_token.
  split; [exact Hno|].
  exact (main_dispatch sample_path_resolve "/srv" mixed_argv Hno).
Defined.

Lemma rejected_request_exits_invalid_args_witness :
  serve sample_runtime (POST_wc_connect bad_uri_request) connected_state =
    (Ok bad_uri_reply, connected_state) /\
  Reply.status bad_uri_reply <> 200%Z /\
  exists message error,
    connected_state = connected_state /\
    Reply.body bad_uri_reply = JObj [("error", JStr message)] /\
    api_result bad_uri_reply = inl error /\
    handleCommandError text_options error =
      Exit.mk (console_error message) 2.
Proof.
  assert (Hne : Reply.status bad_uri_reply <> 200%Z) by discriminate.
  split_and!; [reflexivity | exact Hne |].
  exact (rejected_request_exits_invalid_args text_options sample_runtime
           (POST_wc_connect bad_uri_request) connected_state bad_uri_reply
           connected_state eq_refl Hne).
Defined.

Lemma renderList_lines_witness :
  network_rows <> [] /\
  Forall (fun row => JS.all_chars (fun c => negb (Ascii.eqb c LF)) row = true)
         network_rows /\
  JS.split LF (renderList network_rows) =
    [ "- eip155:1 -> https://rpc.ankr.com/eth";
      "- eip155:11155111 -> https://rpc.ankr.com/eth_sepolia" ].
Proof.
  assert (Hne : network_rows <> []) by discriminate.
  assert (Hrows : Forall (fun row => JS.all_chars (fun c => negb (Ascii.eqb c LF))
                                       row = true) network_rows)
    by (repeat constructor).
  split_and!; [exact Hne | exact Hrows |].
  exact (renderList_lines network_rows Hne Hrows).
Defined.

Lemma ensureDaemonRunning_outcome_witness :
  ensureDaemonRunning 40 slow_start = Some (Returned true 4) /\
  true = negb (isDaemonHealthy slow_start 0) /\
  isDaemonHealthy slow_start 3 = true.
Proof.
  pose proof (ensureDaemonRunning_outcome 40 slow_start (Returned true 4) eq_refl)
    as (Hs & _ & Hlast & _).
  split_and!; [reflexivity | exact Hs | exact Hlast].
Defined.

